(** * StocBio_hp: the few-shot meta-learning scripts

    A shallow embedding of the two experiment scripts

      - [Meta-learning/MAML/fc100/maml.py]
      - [Meta-learning/ITD-BiO/fc100/ITD-BiO.py]

    Both scripts orchestrate calls into PyTorch, NumPy and learn2learn.
    The orchestration (index masks, loops, accumulators, arrays, files) is
    embedded as executable definitions; the library calls are the fields of
    the interface [Torch], so every theorem holds for any implementation of
    the tensor arithmetic, the floating point one included. *)

From Stdlib Require Import ZArith QArith String Ascii.
From stdpp Require Import base tactics option list pretty.

Local Open Scope Z_scope.

(** ** Python exceptions as an error monad *)

Inductive PyError : Type :=
  | IndexError
  | ZeroDivisionError
  | AttributeError
  | RuntimeError
  | FileNotFoundError.

Inductive Result (A : Type) : Type :=
  | Ok (a : A)
  | Raise (e : PyError).
Arguments Ok {A} a.
Arguments Raise {A} e.

#[global] Instance Result_ret : MRet Result := fun _ a => Ok a.
#[global] Instance Result_bind : MBind Result := fun _ _ f m =>
  match m with
  | Ok a => f a
  | Raise e => Raise e
  end.

Definition succeeds {A} (m : Result A) : Prop := exists a, m = Ok a.

(** ** NumPy and torch indexing used by [fast_adapt] *)

Module Numpy.

(** [np.zeros(n, dtype=bool)] *)
Definition zeros (n : nat) : list bool := replicate n false.

(** [np.arange(n)]: empty when [n <= 0]. *)
Definition arange (n : Z) : list Z := Z.of_nat <$> seq 0 (Z.to_nat n).

(** [np.arange(n) * k] *)
Definition times (k : Z) (a : list Z) : list Z := (fun i => i * k) <$> a.

(** One integer index into an axis of length [len]: negative indices wrap
    once, anything else out of range is an [IndexError]. *)
Definition index (len : nat) (i : Z) : Result nat :=
  if decide (0 <= i < Z.of_nat len) then Ok (Z.to_nat i)
  else if decide (- Z.of_nat len <= i < 0) then Ok (Z.to_nat (i + Z.of_nat len))
  else Raise IndexError.

(** [a[idx] = v] for an integer index array [idx]. *)
Fixpoint put (idx : list Z) (v : bool) (a : list bool) : Result (list bool) :=
  match idx with
  | [] => Ok a
  | i :: idx' => k ← index (length a) i; put idx' v (<[k:=v]> a)
  end.

(** [~a] on a boolean array. *)
Definition invert (a : list bool) : list bool := negb <$> a.

End Numpy.

(** Rows kept by a boolean mask of the same length. *)
Fixpoint masked {A} (xs : list A) (m : list bool) : list A :=
  match xs, m with
  | x :: xs', b :: m' => if b then x :: masked xs' m' else masked xs' m'
  | _, _ => []
  end.

(** [t[mask]] for a torch tensor [t] and a boolean mask: the mask has to have
    the length of the indexed dimension. *)
Definition mask_select {A} (xs : list A) (m : list bool) : Result (list A) :=
  if decide (length m = length xs) then Ok (masked xs m) else Raise IndexError.

(** The four tensors that lines 36-41 of maml.py (55-60 of ITD-BiO.py)
    produce. *)
Record Episode (A : Type) : Type := mkEpisode {
  adaptation_data : list A;
  adaptation_labels : list Z;
  evaluation_data : list A;
  evaluation_labels : list Z;
}.
Arguments mkEpisode {A}.
Arguments adaptation_data {A}.
Arguments adaptation_labels {A}.
Arguments evaluation_data {A}.
Arguments evaluation_labels {A}.

(** [adaptation_indices] after the index assignment, for a data tensor of
    [n] rows. *)
Definition adaptation_mask (n : nat) (shots ways : Z) : Result (list bool) :=
  Numpy.put (Numpy.times 2 (Numpy.arange (shots * ways))) true (Numpy.zeros n).

(** "Separate data into adaptation/evaluation sets" *)
Definition separate {A} (data : list A) (labels : list Z) (shots ways : Z)
  : Result (Episode A) :=
  adaptation_indices ← adaptation_mask (length data) shots ways;
  let evaluation_indices := Numpy.invert adaptation_indices in
  adaptation_data ← mask_select data adaptation_indices;
  adaptation_labels ← mask_select labels adaptation_indices;
  evaluation_data ← mask_select data evaluation_indices;
  evaluation_labels ← mask_select labels evaluation_indices;
  Ok (mkEpisode adaptation_data adaptation_labels evaluation_data evaluation_labels).

(** ** The library interface

    Everything the scripts obtain from PyTorch, learn2learn, [random] and
    [time].  Scalars stand for Python floats and Tensor0 for 0-dimensional
    tensors that are attached to the autograd graph; the width of a float
    (32 or 64 bits) is not distinguished, and [.to(device)] is the identity
    on values. *)

(** Which module of the meta-model a parameter belongs to, and its position
    in that module's [parameters()]. *)
Inductive ParamRef : Type :=
  | InFeatures (i : nat)
  | InHead (i : nat).

(** The three [TaskDataset]s. *)
Inductive Mode : Type := TrainTasks | ValidTasks | TestTasks.

(** The generators seeded at the start of [main]. *)
Inductive Generator : Type := PyRandom | NumpyRandom | TorchCPU | TorchCUDA.

Class Torch : Type := {
  Scalar : Type;
  Tensor : Type;
  Tensor0 : Type;
  Row : Type;
  Learner : Type;
  OptSlot : Type;
  World : Type;

  (* Python float arithmetic *)
  float_of_Z : Z -> Scalar;
  float_of_literal : string -> Scalar;
  fadd : Scalar -> Scalar -> Scalar;
  fsub : Scalar -> Scalar -> Scalar;
  fdiv : Scalar -> Z -> Scalar;

  (* 0-dimensional tensors *)
  t0_of_float : Scalar -> Tensor0;
  t0_of_count : Z -> Tensor0;
  t0_add : Tensor0 -> Tensor0 -> Tensor0;
  t0_mul : Tensor0 -> Tensor0 -> Tensor0;
  t0_div : Tensor0 -> Z -> Tensor0;
  item : Tensor0 -> Scalar;

  (* parameter tensors *)
  tadd : Tensor -> Tensor -> Tensor;
  tscale : Scalar -> Tensor -> Tensor;
  norm2 : Tensor -> Tensor0;

  (* modules *)
  features_forward : list Tensor -> list Row -> list Row;
  clone : Scalar -> list Tensor -> Learner;
  forward : Learner -> list Row -> list Row;
  adapt : Learner -> Tensor0 -> Learner;
  learner_parameters : Learner -> list Tensor;
  cross_entropy : list Row -> list Z -> Tensor0;
  argmax : Row -> Z;

  (* autograd: what [backward()] adds to the [.grad] of a parameter of the
     meta-model, [None] when the parameter is not in the graph *)
  grad_wrt : Tensor0 -> ParamRef -> option Tensor;

  (* Adam, one parameter at a time *)
  adam_init : OptSlot;
  adam : Scalar -> OptSlot -> Tensor -> Tensor -> Tensor * OptSlot;

  (* generators, data and clock *)
  seed_generator : Generator -> Z -> World -> World;
  cuda_device_count : World -> Z;
  init_features : World -> list Tensor * World;
  init_linear : Z -> World -> list Tensor * World;
  sample : Mode -> Z -> Z -> World -> (list Row * list Z) * World;
  time : World -> Scalar * World;
}.

(** The modules keep the number of rows: one output row per input row. *)
Class TorchShapes `{Torch} : Prop := {
  forward_length : forall l xs, length (forward l xs) = length xs;
  features_length : forall ps xs, length (features_forward ps xs) = length xs;
}.

(** ** Python control flow and numbers *)

Definition py_range (n : Z) : list nat := seq 0 (Z.to_nat n).

Fixpoint for_each {I S : Type} (l : list I) (body : I -> S -> Result S) (s : S)
  : Result S :=
  match l with
  | [] => Ok s
  | i :: l' => s' ← body i s; for_each l' body s'
  end.

(** [len(t)] *)
Definition len {A} (l : list A) : Z := Z.of_nat (length l).

(** [a[i] = x] on a tensor or array. *)
Definition setitem {A} (i : nat) (x : A) (a : list A) : Result (list A) :=
  if decide (i < length a)%nat then Ok (<[i:=x]> a) else Raise IndexError.

(** Numbers as written in the scripts.  A float is kept as its literal:
    the literals of the scripts ([0.001], [0.5], [0.1]) are already the
    shortest representation that [str] prints. *)
Inductive PyNum : Type :=
  | PyInt (z : Z)
  | PyFloat (literal : string).

Definition py_str (x : PyNum) : string :=
  match x with
  | PyInt z => pretty z
  | PyFloat s => s
  end.

(** ** Files *)

Record FileSystem (C : Type) : Type := mkFS {
  directories : list string;
  files : list (string * C);
}.
Arguments mkFS {C}.
Arguments directories {C}.
Arguments files {C}.

(** [with open(dir + '/' + name, 'wb') as f: pickle.dump(obj, f)]: the
    directory has to exist, the file is created or replaced. *)
Definition without {C} (path : string) (fs : list (string * C)) : list (string * C) :=
  List.filter (fun f => negb (String.eqb (fst f) path)) fs.

Definition dump {C} (dir name : string) (obj : C) (fs : FileSystem C)
  : Result (FileSystem C) :=
  if decide (dir ∈ directories fs) then
    let path := (dir ++ "/" ++ name)%string in
    Ok (mkFS (directories fs) (without path (files fs) ++ [(path, obj)]))
  else Raise FileNotFoundError.

(** Number of positions at which two label vectors agree:
    [(predictions == targets).sum()]. *)
Fixpoint count_equal (predictions targets : list Z) : Z :=
  match predictions, targets with
  | p :: ps, t :: ts => (if decide (p = t) then 1 else 0) + count_equal ps ts
  | _, _ => 0
  end.

Section Shared.
Context `{Torch}.

Definition py_float (x : PyNum) : Scalar :=
  match x with
  | PyInt z => float_of_Z z
  | PyFloat s => float_of_literal s
  end.

(** [x / n] for a Python float [x] and an int [n]. *)
Definition py_div (x : Scalar) (n : Z) : Result Scalar :=
  if decide (n = 0) then Raise ZeroDivisionError else Ok (fdiv x n).

(** [accuracy(predictions, targets)] *)
Definition accuracy (predictions : list Row) (targets : list Z) : Result Tensor0 :=
  let predictions := argmax <$> predictions in
  if decide (length predictions = length targets) then
    Ok (t0_div (t0_of_count (count_equal predictions targets)) (len targets))
  else Raise RuntimeError.

(** *** The meta-model: parameters with their [.grad] *)

Record Param : Type := mkParam {
  data : Tensor;
  grad : option Tensor;
}.

Record Net : Type := mkNet {
  features : list Param;
  head : list Param;
}.

(** [loss.backward()]: gradients are added to those already there. *)
Definition accumulate (g : option Tensor) (p : Param) : Param :=
  match g with
  | None => p
  | Some g =>
      mkParam (data p) (Some (match grad p with
                              | None => g
                              | Some a => tadd a g
                              end))
  end.

Definition backward (err : Tensor0) (net : Net) : Net :=
  mkNet (imap (fun i => accumulate (grad_wrt err (InFeatures i))) (features net))
        (imap (fun i => accumulate (grad_wrt err (InHead i))) (head net)).

(** [optimizer.zero_grad()] on the parameters the optimizer holds
    (gradients are set to [None]). *)
Definition zero_grad (ps : list Param) : list Param :=
  (fun p => mkParam (data p) None) <$> ps.

(** [for p in ps: p.grad.data.mul_(1.0 / meta_batch_size)] *)
Fixpoint average_grads (meta_batch_size : Z) (ps : list Param) : Result (list Param) :=
  match ps with
  | [] => Ok []
  | p :: ps' =>
      match grad p with
      | None => Raise AttributeError
      | Some g =>
          c ← py_div (float_of_literal "1.0") meta_batch_size;
          ps'' ← average_grads meta_batch_size ps';
          Ok (mkParam (data p) (Some (tscale c g)) :: ps'')
      end
  end.

(** [optimizer.step()]: Adam on every held parameter that has a gradient. *)
Fixpoint adam_step (lr : Scalar) (ps : list Param) (slots : list OptSlot)
  : list Param * list OptSlot :=
  match ps, slots with
  | p :: ps', s :: slots' =>
      let '(ps'', slots'') := adam_step lr ps' slots' in
      match grad p with
      | None => (p :: ps'', s :: slots'')
      | Some g =>
          let '(v, s') := adam lr s (data p) g in
          (mkParam v (grad p) :: ps'', s' :: slots'')
      end
  | _, _ => (ps, slots)
  end.

(** What is printed. *)
Inductive Printed : Type :=
  | Newline
  | PrintIteration (i : nat)
  | PrintMetric (label : string) (x : Scalar).

(** The six running sums of an outer iteration. *)
Record Sums : Type := mkSums {
  meta_train_error : Scalar;
  meta_train_accuracy : Scalar;
  meta_valid_error : Scalar;
  meta_valid_accuracy : Scalar;
  meta_test_error : Scalar;
  meta_test_accuracy : Scalar;
}.

Definition zero_sums : Sums :=
  let z := float_of_literal "0.0" in mkSums z z z z z z.

(** One call of [fast_adapt], with what it computed on the way (only the
    last two fields are returned to the caller). *)
Record Run : Type := mkRun {
  episode : Episode Row;
  adapt_calls : list (Learner * Tensor0);
  adapted : Learner;
  predictions : list Row;
  valid_error : Tensor0;
  valid_accuracy : Tensor0;
}.

(** The three calls of one task of the meta batch. *)
Record TaskLog : Type := mkTaskLog {
  train_run : Run;
  valid_run : Run;
  test_run : Run;
}.

Definition print_metrics (i : nat) (s : Sums) (meta_batch_size : Z)
  : Result (list Printed) :=
  a ← py_div (meta_train_error s) meta_batch_size;
  b ← py_div (meta_train_accuracy s) meta_batch_size;
  c ← py_div (meta_valid_error s) meta_batch_size;
  d ← py_div (meta_valid_accuracy s) meta_batch_size;
  e ← py_div (meta_test_error s) meta_batch_size;
  f ← py_div (meta_test_accuracy s) meta_batch_size;
  Ok [Newline; PrintIteration i;
      PrintMetric "Meta Train Error" a; PrintMetric "Meta Train Accuracy" b;
      PrintMetric "Meta Valid Error" c; PrintMetric "Meta Valid Accuracy" d;
      PrintMetric "Meta Test Error" e; PrintMetric "Meta Test Accuracy" f].

(** [torch.ones(n)] and [np.ones(n)] *)
Definition ones (n : Z) : Result (list Scalar) :=
  if decide (n < 0) then Raise RuntimeError
  else Ok (replicate (Z.to_nat n) (float_of_literal "1.0")).

(** The state of the training loop of [main]. *)
Record Training : Type := mkTraining {
  net : Net;
  slots : list OptSlot;
  world : World;
  training_accuracy : list Scalar;
  test_accuracy : list Scalar;
  running_time : list Scalar;
  stdout : list Printed;
  history : list (list TaskLog);
}.

(** The state of the loop over the tasks of a meta batch. *)
Record Tasks : Type := mkTasks {
  t_net : Net;
  t_world : World;
  t_sums : Sums;
  t_log : list TaskLog;
}.

(** The seeding at the start of [main]; returns whether CUDA is used. *)
Definition seed_all (cuda : bool) (seed : Z) (w : World) : World :=
  let w := seed_generator PyRandom seed w in
  let w := seed_generator NumpyRandom seed w in
  let w := seed_generator TorchCPU seed w in
  if cuda && negb (bool_decide (cuda_device_count w = 0))
  then seed_generator TorchCUDA seed w
  else w.

End Shared.

(** ** maml.py *)

Module MAML.
Section Script.
Context `{Torch}.

Record Hyper : Type := mkHyper {
  ways : Z;
  shots : Z;
  meta_lr : Scalar;
  fast_lr : Scalar;
  meta_batch_size : Z;
  adaptation_steps : Z;
  num_iterations : Z;
  cuda : bool;
  seed : Z;
}.

(** The body of "Adapt the model"; the second component collects the
    learner and the error of every [learner.adapt] call. *)
Definition inner_step (loss : list Row -> list Z -> Tensor0) (ep : Episode Row)
    (st : Learner * list (Learner * Tensor0)) : Learner * list (Learner * Tensor0) :=
  let '(learner, calls) := st in
  let train_error := loss (forward learner (adaptation_data ep)) (adaptation_labels ep) in
  let train_error := t0_div train_error (len (adaptation_data ep)) in
  (adapt learner train_error, calls ++ [(learner, train_error)]).

(** "Evaluate the adapted model" *)
Definition evaluate (loss : list Row -> list Z -> Tensor0) (ep : Episode Row)
    (st : Learner * list (Learner * Tensor0)) : Result Run :=
  let '(learner, calls) := st in
  let predictions := forward learner (evaluation_data ep) in
  let valid_error := loss predictions (evaluation_labels ep) in
  let valid_error := t0_div valid_error (len (evaluation_data ep)) in
  valid_accuracy ← accuracy predictions (evaluation_labels ep);
  Ok (mkRun ep calls learner predictions valid_error valid_accuracy).

Definition fast_adapt_run (batch : list Row * list Z) (learner : Learner)
    (loss : list Row -> list Z -> Tensor0) (adaptation_steps shots ways : Z)
  : Result Run :=
  let '(data, labels) := batch in
  ep ← separate data labels shots ways;
  evaluate loss ep
    (foldl (fun st _ => inner_step loss ep st) (learner, []) (py_range adaptation_steps)).

Definition fast_adapt (batch : list Row * list Z) (learner : Learner)
    (loss : list Row -> list Z -> Tensor0) (adaptation_steps shots ways : Z)
  : Result (Tensor0 * Tensor0) :=
  r ← fast_adapt_run batch learner loss adaptation_steps shots ways;
  Ok (valid_error r, valid_accuracy r).

(** [maml.parameters()]: the backbone's parameters, then the linear
    layer's. *)
Definition parameters (n : Net) : list Param := features n ++ head n.

Definition with_parameters (n : Net) (ps : list Param) : Net :=
  mkNet (take (length (features n)) ps) (drop (length (features n)) ps).

(** The body of [for task in range(meta_batch_size)]. *)
Definition task (h : Hyper) (_ : nat) (st : Tasks) : Result Tasks :=
  let loss := cross_entropy in
  let maml := t_net st in
  (* Compute meta-training loss *)
  let learner := clone (fast_lr h) (data <$> parameters maml) in
  let '(batch, w) := sample TrainTasks (ways h) (2 * shots h) (t_world st) in
  r1 ← fast_adapt_run batch learner loss (adaptation_steps h) (shots h) (ways h);
  let maml := backward (valid_error r1) maml in
  let s := t_sums st in
  let train_error := fadd (meta_train_error s) (item (valid_error r1)) in
  let train_accuracy := fadd (meta_train_accuracy s) (item (valid_accuracy r1)) in
  (* Compute meta-validation loss *)
  let learner := clone (fast_lr h) (data <$> parameters maml) in
  let '(batch, w) := sample ValidTasks (ways h) (2 * shots h) w in
  r2 ← fast_adapt_run batch learner loss (adaptation_steps h) (shots h) (ways h);
  let valid_error' := fadd (meta_valid_error s) (item (valid_error r2)) in
  let valid_accuracy' := fadd (meta_valid_accuracy s) (item (valid_accuracy r2)) in
  (* Compute meta-test loss *)
  let learner := clone (fast_lr h) (data <$> parameters maml) in
  let '(batch, w) := sample TestTasks (ways h) (2 * shots h) w in
  r3 ← fast_adapt_run batch learner loss (adaptation_steps h) (shots h) (ways h);
  let test_error := fadd (meta_test_error s) (item (valid_error r3)) in
  let test_accuracy := fadd (meta_test_accuracy s) (item (valid_accuracy r3)) in
  Ok (mkTasks maml w
        (mkSums train_error train_accuracy valid_error' valid_accuracy'
                test_error test_accuracy)
        (t_log st ++ [mkTaskLog r1 r2 r3])).

(** The body of [for iteration in range(num_iterations)]. *)
Definition iteration (h : Hyper) (start_time : Scalar) (i : nat) (st : Training)
  : Result Training :=
  let maml := with_parameters (net st) (zero_grad (parameters (net st))) in
  ts ← for_each (py_range (meta_batch_size h)) (task h)
         (mkTasks maml (world st) zero_sums []);
  let maml := t_net ts in
  x ← py_div (meta_train_accuracy (t_sums ts)) (meta_batch_size h);
  training_accuracy ← setitem i x (training_accuracy st);
  y ← py_div (meta_test_accuracy (t_sums ts)) (meta_batch_size h);
  test_accuracy ← setitem i y (test_accuracy st);
  out ← print_metrics i (t_sums ts) (meta_batch_size h);
  (* Average the accumulated gradients and optimize *)
  ps ← average_grads (meta_batch_size h) (parameters maml);
  let '(ps, slots) := adam_step (meta_lr h) ps (slots st) in
  let maml := with_parameters maml ps in
  let '(end_time, w) := time (t_world ts) in
  let elapsed := fsub end_time start_time in
  running_time ← setitem i elapsed (running_time st);
  Ok (mkTraining maml slots w training_accuracy test_accuracy running_time
        (stdout st ++ out ++ [PrintMetric "total running time" elapsed])
        (history st ++ [t_log ts])).

(** [main]; the result is the state at the end of the loop, of which the
    script gets the three arrays. *)
Definition main (h : Hyper) (w : World) : Result Training :=
  let w := seed_all (cuda h) (seed h) w in
  let '(fs, w) := init_features w in
  let '(hd, w) := init_linear (ways h) w in
  let model := mkNet ((fun t => mkParam t None) <$> fs) ((fun t => mkParam t None) <$> hd) in
  let slots := replicate (length (parameters model)) adam_init in
  training_accuracy ← ones (num_iterations h);
  test_accuracy ← ones (num_iterations h);
  running_time ← ones (num_iterations h);
  let '(start_time, w) := time w in
  for_each (py_range (num_iterations h)) (iteration h start_time)
    (mkTraining model slots w training_accuracy test_accuracy running_time [] []).

Definition seeds : list Z := [42; 52; 62; 72; 82].
Definition lr : PyNum := PyFloat "0.001".
Definition fastlr : PyNum := PyFloat "0.5".
Definition stp : Z := 3.

Definition hyper (seed : Z) : Hyper :=
  mkHyper 5 5 (py_float lr) (py_float fastlr) 32 stp 1200 true seed.

(** What the script has collected so far. *)
Record Collected : Type := mkCollected {
  c_world : World;
  train_accuracy : list (list Scalar);
  c_test_accuracy : list (list Scalar);
  run_time : list (list Scalar);
}.

Definition run_seed (seed : Z) (c : Collected) : Result Collected :=
  st ← main (hyper seed) (c_world c);
  Ok (mkCollected (world st)
        (train_accuracy c ++ [training_accuracy st])
        (c_test_accuracy c ++ [test_accuracy st])
        (run_time c ++ [running_time st])).

Definition pstr : string :=
  ("_lr_" ++ py_str lr ++ "_fastlr_" ++ py_str fastlr ++ "_steps_" ++ py_str (PyInt stp))%string.

(** The [__main__] block. *)
Definition script (w : World) (fs : FileSystem (list (list Scalar)))
  : Result (Collected * FileSystem (list (list Scalar))) :=
  c ← for_each seeds run_seed (mkCollected w [] [] []);
  fs ← dump "exp_data" ("train_accuracy" ++ pstr) (train_accuracy c) fs;
  fs ← dump "exp_data" ("test_accuracy" ++ pstr) (c_test_accuracy c) fs;
  fs ← dump "exp_data" ("run_time" ++ pstr) (run_time c) fs;
  Ok (c, fs).

End Script.
End MAML.

(** ** ITD-BiO.py *)

Module ITDBiO.
Section Script.
Context `{Torch}.

Record Hyper : Type := mkHyper {
  ways : Z;
  shots : Z;
  meta_lr : Scalar;
  fast_lr : Scalar;
  reg_lambda : Scalar;
  adapt_steps : Z;
  meta_bsz : Z;
  iters : Z;
  cuda : bool;
  seed : Z;
}.

(** [l2_reg] after the loop over [learner.parameters()]. *)
Definition l2_reg (learner : Learner) : Tensor0 :=
  foldl (fun acc p => t0_add acc (norm2 p)) (t0_of_float (float_of_Z 0))
        (learner_parameters learner).

(** The body of the adaptation loop. *)
Definition inner_step (loss : list Row -> list Z -> Tensor0) (reg_lambda : Scalar)
    (ep : Episode Row) (st : Learner * list (Learner * Tensor0))
  : Learner * list (Learner * Tensor0) :=
  let '(learner, calls) := st in
  let train_error :=
    t0_add (loss (forward learner (adaptation_data ep)) (adaptation_labels ep))
           (t0_mul (t0_of_float reg_lambda) (l2_reg learner)) in
  (adapt learner train_error, calls ++ [(learner, train_error)]).

Definition evaluate (loss : list Row -> list Z -> Tensor0) (ep : Episode Row)
    (st : Learner * list (Learner * Tensor0)) : Result Run :=
  let '(learner, calls) := st in
  let predictions := forward learner (evaluation_data ep) in
  let valid_error := loss predictions (evaluation_labels ep) in
  valid_accuracy ← accuracy predictions (evaluation_labels ep);
  Ok (mkRun ep calls learner predictions valid_error valid_accuracy).

Definition fast_adapt_run (batch : list Row * list Z) (learner : Learner)
    (features : list Row -> list Row) (loss : list Row -> list Z -> Tensor0)
    (reg_lambda : Scalar) (adaptation_steps shots ways : Z) : Result Run :=
  let '(data, labels) := batch in
  let data := features data in
  ep ← separate data labels shots ways;
  evaluate loss ep
    (foldl (fun st _ => inner_step loss reg_lambda ep st) (learner, [])
           (py_range adaptation_steps)).

Definition fast_adapt (batch : list Row * list Z) (learner : Learner)
    (features : list Row -> list Row) (loss : list Row -> list Z -> Tensor0)
    (reg_lambda : Scalar) (adaptation_steps shots ways : Z)
  : Result (Tensor0 * Tensor0) :=
  r ← fast_adapt_run batch learner features loss reg_lambda adaptation_steps shots ways;
  Ok (valid_error r, valid_accuracy r).

(** The body of [for task in range(meta_bsz)]: [features] is the
    meta-model's backbone itself, [head] is cloned. *)
Definition task (h : Hyper) (_ : nat) (st : Tasks) : Result Tasks :=
  let loss := cross_entropy in
  let model := t_net st in
  let run model batch :=
    fast_adapt_run batch (clone (fast_lr h) (data <$> head model))
      (features_forward (data <$> features model)) loss (reg_lambda h)
      (adapt_steps h) (shots h) (ways h) in
  (* Compute meta-training loss *)
  let '(batch, w) := sample TrainTasks (ways h) (2 * shots h) (t_world st) in
  r1 ← run model batch;
  let model := backward (valid_error r1) model in
  let s := t_sums st in
  let train_error := fadd (meta_train_error s) (item (valid_error r1)) in
  let train_accuracy := fadd (meta_train_accuracy s) (item (valid_accuracy r1)) in
  (* Compute meta-validation loss *)
  let '(batch, w) := sample ValidTasks (ways h) (2 * shots h) w in
  r2 ← run model batch;
  let valid_error' := fadd (meta_valid_error s) (item (valid_error r2)) in
  let valid_accuracy' := fadd (meta_valid_accuracy s) (item (valid_accuracy r2)) in
  (* Compute meta-testing loss *)
  let '(batch, w) := sample TestTasks (ways h) (2 * shots h) w in
  r3 ← run model batch;
  let test_error := fadd (meta_test_error s) (item (valid_error r3)) in
  let test_accuracy := fadd (meta_test_accuracy s) (item (valid_accuracy r3)) in
  Ok (mkTasks model w
        (mkSums train_error train_accuracy valid_error' valid_accuracy'
                test_error test_accuracy)
        (t_log st ++ [mkTaskLog r1 r2 r3])).

(** The body of [for iteration in range(iters)]; [all_parameters] is
    [list(features.parameters())]. *)
Definition iteration (h : Hyper) (start_time : Scalar) (i : nat) (st : Training)
  : Result Training :=
  let model := mkNet (zero_grad (features (net st))) (head (net st)) in
  ts ← for_each (py_range (meta_bsz h)) (task h)
         (mkTasks model (world st) zero_sums []);
  let model := t_net ts in
  x ← py_div (meta_train_accuracy (t_sums ts)) (meta_bsz h);
  training_accuracy ← setitem i x (training_accuracy st);
  y ← py_div (meta_test_accuracy (t_sums ts)) (meta_bsz h);
  test_accuracy ← setitem i y (test_accuracy st);
  out ← print_metrics i (t_sums ts) (meta_bsz h);
  (* Average the accumulated gradients and optimize *)
  all_parameters ← average_grads (meta_bsz h) (features model);
  let '(all_parameters, slots) := adam_step (meta_lr h) all_parameters (slots st) in
  let model := mkNet all_parameters (head model) in
  let '(end_time, w) := time (t_world ts) in
  let elapsed := fsub end_time start_time in
  running_time ← setitem i elapsed (running_time st);
  Ok (mkTraining model slots w training_accuracy test_accuracy running_time
        (stdout st ++ out ++ [PrintMetric "time per iteration" elapsed])
        (history st ++ [t_log ts])).

Definition main (h : Hyper) (w : World) : Result Training :=
  let w := seed_all (cuda h) (seed h) w in
  let '(fs, w) := init_features w in
  let '(hd, w) := init_linear (ways h) w in
  let model := mkNet ((fun t => mkParam t None) <$> fs) ((fun t => mkParam t None) <$> hd) in
  let slots := replicate (length (features model)) adam_init in
  training_accuracy ← ones (iters h);
  test_accuracy ← ones (iters h);
  running_time ← ones (iters h);
  let '(start_time, w) := time w in
  for_each (py_range (iters h)) (iteration h start_time)
    (mkTraining model slots w training_accuracy test_accuracy running_time [] []).

Definition seeds : list Z := [42; 52; 62; 72; 82].
Definition stp : Z := 20.
Definition lr : PyNum := PyFloat "0.001".
Definition fastlr : PyNum := PyFloat "0.1".
Definition reg : PyNum := PyInt 0.

Definition hyper (seed : Z) : Hyper :=
  mkHyper 5 5 (py_float lr) (py_float fastlr) (py_float reg) stp 32 1500 true seed.

Record Collected : Type := mkCollected {
  c_world : World;
  train_accuracy : list (list Scalar);
  c_test_accuracy : list (list Scalar);
  run_time : list (list Scalar);
}.

Definition run_seed (seed : Z) (c : Collected) : Result Collected :=
  st ← main (hyper seed) (c_world c);
  Ok (mkCollected (world st)
        (train_accuracy c ++ [training_accuracy st])
        (c_test_accuracy c ++ [test_accuracy st])
        (run_time c ++ [running_time st])).

Definition pstr : string :=
  ("_lr_" ++ py_str lr ++ "_fastlr_" ++ py_str fastlr ++ "_steps_" ++ py_str (PyInt stp))%string.

Definition script (w : World) (fs : FileSystem (list (list Scalar)))
  : Result (Collected * FileSystem (list (list Scalar))) :=
  c ← for_each seeds run_seed (mkCollected w [] [] []);
  fs ← dump "exp_data" ("train_accuracy" ++ pstr) (train_accuracy c) fs;
  fs ← dump "exp_data" ("test_accuracy" ++ pstr) (c_test_accuracy c) fs;
  fs ← dump "exp_data" ("run_time" ++ pstr) (run_time c) fs;
  Ok (c, fs).

End Script.
End ITDBiO.

(** ** Notions used in the statements *)

(** The adaptation set is the rows at the even positions and the evaluation
    set the rows at the odd ones; each has [shots*ways] rows and together
    they are the batch, each row once. *)
Definition even_odd_split {A} (data : list A) (labels : list Z) (shots ways : Z)
    (ep : Episode A) : Prop :=
  separate data labels shots ways = Ok ep /\
  (forall k, adaptation_data ep !! k = data !! (2 * k)%nat) /\
  (forall k, adaptation_labels ep !! k = labels !! (2 * k)%nat) /\
  (forall k, evaluation_data ep !! k = data !! (2 * k + 1)%nat) /\
  (forall k, evaluation_labels ep !! k = labels !! (2 * k + 1)%nat) /\
  len (adaptation_data ep) = shots * ways /\
  len (evaluation_data ep) = shots * ways /\
  len (adaptation_labels ep) = shots * ways /\
  len (evaluation_labels ep) = shots * ways /\
  adaptation_data ep ++ evaluation_data ep ≡ₚ data /\
  adaptation_labels ep ++ evaluation_labels ep ≡ₚ labels.

Section Notions.
Context `{Torch}.

(** One inner-loop update of maml.py: the learner after [learner.adapt]
    on its own error on the adaptation data. *)
Definition maml_update (loss : list Row -> list Z -> Tensor0) (ep : Episode Row)
    (l : Learner) : Learner :=
  adapt l (t0_div (loss (forward l (adaptation_data ep)) (adaptation_labels ep))
                  (len (adaptation_data ep))).

(** The error of an inner-loop step of ITD-BiO.py, and the update. *)
Definition itd_train_error (loss : list Row -> list Z -> Tensor0) (reg_lambda : Scalar)
    (ep : Episode Row) (l : Learner) : Tensor0 :=
  t0_add (loss (forward l (adaptation_data ep)) (adaptation_labels ep))
         (t0_mul (t0_of_float reg_lambda) (ITDBiO.l2_reg l)).

Definition itd_update (loss : list Row -> list Z -> Tensor0) (reg_lambda : Scalar)
    (ep : Episode Row) (l : Learner) : Learner :=
  adapt l (itd_train_error loss reg_lambda ep l).

End Notions.

Section Accounting.
Context `{Torch}.

(** A gradient added to what [.grad] holds. *)
Definition add_grad (acc : option Tensor) (g : option Tensor) : option Tensor :=
  match g with
  | None => acc
  | Some g => Some (match acc with None => g | Some a => tadd a g end)
  end.

(** The sum of the gradients of a list of backward passes, in the order of
    the passes; [None] when none of them reaches the parameter. *)
Definition grad_sum (gs : list (option Tensor)) : option Tensor :=
  foldl add_grad None gs.

(** Where the k-th element of [maml.parameters()] lives. *)
Definition ref_of (n : Net) (k : nat) : ParamRef :=
  if (k <? length (features n))%nat then InFeatures k
  else InHead (k - length (features n)).

(** The sums after one more task. *)
Definition add_log (s : Sums) (l : TaskLog) : Sums :=
  mkSums (fadd (meta_train_error s) (item (valid_error (train_run l))))
         (fadd (meta_train_accuracy s) (item (valid_accuracy (train_run l))))
         (fadd (meta_valid_error s) (item (valid_error (valid_run l))))
         (fadd (meta_valid_accuracy s) (item (valid_accuracy (valid_run l))))
         (fadd (meta_test_error s) (item (valid_error (test_run l))))
         (fadd (meta_test_accuracy s) (item (valid_accuracy (test_run l)))).

(** The mean as the scripts compute it: the running sum from [0.0],
    divided by the size of the meta batch. *)
Definition mean (xs : list Scalar) (n : Z) : Scalar :=
  fdiv (foldl fadd (float_of_literal "0.0") xs) n.

(** The accuracy of a run is the number of evaluation rows whose argmax
    is their label, divided by the number of evaluation rows. *)
Definition accuracy_of_run (r : Run) : Prop :=
  length (predictions r) = length (evaluation_labels (episode r)) /\
  valid_accuracy r =
    t0_div (t0_of_count (count_equal (argmax <$> predictions r)
                                     (evaluation_labels (episode r))))
           (len (evaluation_labels (episode r))).

Definition accuracies_of_log (l : TaskLog) : Prop :=
  accuracy_of_run (train_run l) /\ accuracy_of_run (valid_run l) /\
  accuracy_of_run (test_run l).

(** The net after the backward passes of a list of tasks. *)
Definition after_tasks (n : Net) (logs : list TaskLog) : Net :=
  foldl (fun n l => backward (valid_error (train_run l)) n) n logs.

(** The gradients the meta-training errors of [logs] send to a parameter. *)
Definition contributions (logs : list TaskLog) (r : ParamRef) : list (option Tensor) :=
  (fun l => grad_wrt (valid_error (train_run l)) r) <$> logs.

(** What one pass of the task loop does to the state. *)
Definition task_step (body : nat -> Tasks -> Result Tasks) : Prop :=
  forall i st st', body i st = Ok st' ->
    exists log,
      t_log st' = t_log st ++ [log] /\
      t_net st' = backward (valid_error (train_run log)) (t_net st) /\
      t_sums st' = add_log (t_sums st) log /\
      accuracies_of_log log.

(** What an outer iteration records; [t] is the start time. *)
Definition records (B : Z) (t : Scalar) (body : nat -> Training -> Result Training)
  : Prop :=
  forall i st st', body i st = Ok st' ->
    exists logs w,
      len logs = B /\
      Forall accuracies_of_log logs /\
      (i < length (training_accuracy st))%nat /\
      (i < length (test_accuracy st))%nat /\
      (i < length (running_time st))%nat /\
      training_accuracy st' =
        <[i := mean ((fun l => item (valid_accuracy (train_run l))) <$> logs) B]>
          (training_accuracy st) /\
      test_accuracy st' =
        <[i := mean ((fun l => item (valid_accuracy (test_run l))) <$> logs) B]>
          (test_accuracy st) /\
      running_time st' = <[i := fsub (time w).1 t]> (running_time st) /\
      history st' = history st ++ [logs].

(** What the arrays hold at index [i], given the tasks of iteration [i]
    and the start time [t]. *)
Definition recorded (B : Z) (t : Scalar) (st : Training) (i : nat) : Prop :=
  exists logs w,
    history st !! i = Some logs /\
    len logs = B /\
    Forall accuracies_of_log logs /\
    training_accuracy st !! i =
      Some (mean ((fun l => item (valid_accuracy (train_run l))) <$> logs) B) /\
    test_accuracy st !! i =
      Some (mean ((fun l => item (valid_accuracy (test_run l))) <$> logs) B) /\
    running_time st !! i = Some (fsub (time w).1 t).

(** The three arrays have [n] entries. *)
Definition arrays (n : nat) (st : Training) : Prop :=
  length (training_accuracy st) = n /\ length (test_accuracy st) = n /\
  length (running_time st) = n.

(** Every entry of [running_time] is a reading of the clock minus one
    start time. *)
Definition elapsed_times (st : Training) : Prop :=
  exists t, forall i, (i < length (running_time st))%nat ->
    exists w, running_time st !! i = Some (fsub (time w).1 t).

End Accounting.

(** The library does what the scripts rely on: an episode of [n] ways and
    [k] shots has [n*k] rows and as many labels, and a backward pass
    reaches every parameter of the meta-model. *)
Class Reliable `{Torch} : Prop := {
  sample_rows : forall m ways k w,
    length (sample m ways k w).1.1 = Z.to_nat (ways * k) /\
    length (sample m ways k w).1.2 = Z.to_nat (ways * k);
  grad_defined : forall err r, is_Some (grad_wrt err r);
}.

(** Membership in a list that is written out. *)
Ltac printed_here :=
  repeat first [apply list_elem_of_here | apply list_elem_of_further].

(** ** A small executable implementation of the interface

    Integers for every kind of number and tensor; a learner is the list of
    its parameters.  It is used to run the scripts on concrete inputs. *)

Module Small.

(** Rows [0 .. ways*k-1]; the labels depend on the state of the
    generator. *)
Definition batch (ways k : Z) (w : nat) : list Z * list Z :=
  let rows := Z.of_nat <$> seq 0 (Z.to_nat (ways * k)) in
  (rows, (fun i => (i + Z.of_nat w) mod 2) <$> rows).

#[export] Instance torch : Torch := {|
  Scalar := Z;
  Tensor := Z;
  Tensor0 := Z;
  Row := Z;
  Learner := list Z;
  OptSlot := nat;
  World := nat;
  float_of_Z := fun z => z;
  float_of_literal := fun s => if String.eqb s "1.0" then 1 else 0;
  fadd := Z.add;
  fsub := Z.sub;
  fdiv := Z.div;
  t0_of_float := fun x => x;
  t0_of_count := fun c => 100 * c;
  t0_add := Z.add;
  t0_mul := Z.mul;
  t0_div := Z.div;
  item := fun x => x;
  tadd := Z.add;
  tscale := Z.mul;
  norm2 := Z.abs;
  features_forward := fun ps xs => (fun x => x + foldr Z.add 0 ps) <$> xs;
  clone := fun _ ps => ps;
  forward := fun l xs => (fun x => x + foldr Z.add 0 l) <$> xs;
  adapt := fun l err => (fun p => p - err) <$> l;
  learner_parameters := fun l => l;
  cross_entropy := fun rows labels => len labels - count_equal rows labels;
  argmax := fun r => r mod 2;
  grad_wrt := fun err _ => Some (1 + err);
  adam_init := 0%nat;
  adam := fun _ s v g => (v - g, S s);
  seed_generator := fun _ seed _ => Z.to_nat seed;
  cuda_device_count := fun _ => 0;
  init_features := fun w => ([1; 2], S w);
  init_linear := fun ways w => ([ways], S w);
  sample := fun _ ways k w => (batch ways k w, S w);
  time := fun w => (Z.of_nat w, S w);
|}.

#[export] Instance shapes : TorchShapes.
Proof. split; intros; cbn; apply length_fmap. Qed.

(** Small hyperparameters and states to run the loops on. *)
Definition maml_hyper : MAML.Hyper := MAML.mkHyper 2 1 1 1 1 2 2 true 7.
Definition itd_hyper : ITDBiO.Hyper := ITDBiO.mkHyper 2 1 1 1 1 2 1 2 true 7.

Definition model : Net := mkNet [mkParam 1 None; mkParam 2 None] [mkParam 2 None].
Definition tasks : Tasks := mkTasks model 2%nat zero_sums [].
Definition maml_training : Training :=
  mkTraining model [0; 0; 0]%nat 2%nat [1; 1] [1; 1] [1; 1] [] [].
Definition itd_training : Training :=
  mkTraining model [0; 0]%nat 2%nat [1; 1] [1; 1] [1; 1] [] [].

Definition rows : list (@Row torch) := [0; 1; 2; 3].
Definition short_rows : list (@Row torch) := [7; 8].
Definition labels : list Z := [0; 1; 0; 1].
Definition learner : @Learner torch := [5].
Definition world0 : @World torch := 0%nat.

#[export] Instance reliable : Reliable.
Proof.
  split.
  - intros m ways k w. cbn. rewrite !length_fmap, length_seq. auto.
  - intros err r. cbn. eauto.
Qed.

End Small.

(** ** What is on disk when a script ends

    [MAML.script] and [ITDBiO.script] give the file system of a script that
    returns.  A script that raises leaves a file system too: the exception
    ends the [__main__] block where it is raised, and what the [open]s
    before it wrote stays.  The functions below give the file system at the
    end of the block together with the exception, if any. *)

Fixpoint dump_each {C} (dir : string) (objs : list (string * C)) (fs : FileSystem C)
  : FileSystem C * option PyError :=
  match objs with
  | [] => (fs, None)
  | (name, obj) :: objs' =>
      match dump dir name obj fs with
      | Ok fs' => dump_each dir objs' fs'
      | Raise e => (fs, Some e)
      end
  end.

Section OnDisk.
Context `{Torch}.

Definition maml_on_disk (w : World) (fs : FileSystem (list (list Scalar)))
  : FileSystem (list (list Scalar)) * option PyError :=
  match for_each MAML.seeds MAML.run_seed (MAML.mkCollected w [] [] []) with
  | Raise e => (fs, Some e)
  | Ok c =>
      dump_each "exp_data"
        [(String.append "train_accuracy" MAML.pstr, MAML.train_accuracy c);
         (String.append "test_accuracy" MAML.pstr, MAML.c_test_accuracy c);
         (String.append "run_time" MAML.pstr, MAML.run_time c)] fs
  end.

Definition itd_on_disk (w : World) (fs : FileSystem (list (list Scalar)))
  : FileSystem (list (list Scalar)) * option PyError :=
  match for_each ITDBiO.seeds ITDBiO.run_seed (ITDBiO.mkCollected w [] [] []) with
  | Raise e => (fs, Some e)
  | Ok c =>
      dump_each "exp_data"
        [(String.append "train_accuracy" ITDBiO.pstr, ITDBiO.train_accuracy c);
         (String.append "test_accuracy" ITDBiO.pstr, ITDBiO.c_test_accuracy c);
         (String.append "run_time" ITDBiO.pstr, ITDBiO.run_time c)] fs
  end.

End OnDisk.

(** ** An implementation whose sampler works for one seed

    [Small.torch] with a world that only remembers whether the generators
    were last seeded with 42; the sampler returns an episode of the asked
    size if so, and no rows otherwise.  With it the first run of the scripts
    completes and the second raises at the index assignment. *)

Module Flaky.

Definition torch : Torch := {|
  Scalar := @Scalar Small.torch;
  Tensor := @Tensor Small.torch;
  Tensor0 := @Tensor0 Small.torch;
  Row := @Row Small.torch;
  Learner := @Learner Small.torch;
  OptSlot := @OptSlot Small.torch;
  World := bool;
  float_of_Z := @float_of_Z Small.torch;
  float_of_literal := @float_of_literal Small.torch;
  fadd := @fadd Small.torch;
  fsub := @fsub Small.torch;
  fdiv := @fdiv Small.torch;
  t0_of_float := @t0_of_float Small.torch;
  t0_of_count := @t0_of_count Small.torch;
  t0_add := @t0_add Small.torch;
  t0_mul := @t0_mul Small.torch;
  t0_div := @t0_div Small.torch;
  item := @item Small.torch;
  tadd := @tadd Small.torch;
  tscale := @tscale Small.torch;
  norm2 := @norm2 Small.torch;
  features_forward := @features_forward Small.torch;
  clone := @clone Small.torch;
  forward := @forward Small.torch;
  adapt := @adapt Small.torch;
  learner_parameters := @learner_parameters Small.torch;
  cross_entropy := @cross_entropy Small.torch;
  argmax := @argmax Small.torch;
  grad_wrt := @grad_wrt Small.torch;
  adam_init := @adam_init Small.torch;
  adam := @adam Small.torch;
  seed_generator := fun _ seed _ => bool_decide (seed = 42);
  cuda_device_count := fun _ => 0;
  init_features := fun w => ([1; 2], w);
  init_linear := fun ways w => ([ways], w);
  sample := fun _ ways k w => (if w then Small.batch ways k 0 else ([], []), w);
  time := fun w => (0, w);
|}.

Definition world0 : @World torch := false.

(** The worlds in which the sampler works. *)
Definition seeded (w : @World torch) : Prop := w = true.

Lemma shapes : @TorchShapes torch.
Proof. split; intros; cbn; apply length_fmap. Qed.

End Flaky.

(** * Properties *)

(** ** The index mask *)

Section Masks.

Lemma bind_Ok {A B} (m : Result A) (f : A -> Result B) (b : B) :
  (m ≫= f) = Ok b <-> exists a, m = Ok a /\ f a = Ok b.
Proof.
  destruct m as [a|e]; cbn; split.
  - intros Hf. exists a. auto.
  - intros (a' & [= <-] & Hf). exact Hf.
  - discriminate.
  - intros (a' & [=] & _).
Qed.

Lemma index_in_range (n : nat) (i : Z) :
  0 <= i < Z.of_nat n -> Numpy.index n i = Ok (Z.to_nat i).
Proof. intros Hi. unfold Numpy.index. rewrite decide_True by exact Hi. reflexivity. Qed.

Lemma index_too_large (n : nat) (i : Z) :
  Z.of_nat n <= i -> Numpy.index n i = Raise IndexError.
Proof.
  intros Hi. unfold Numpy.index.
  rewrite decide_False by lia. rewrite decide_False by lia. reflexivity.
Qed.

Lemma put_length idx v a a' : Numpy.put idx v a = Ok a' -> length a' = length a.
Proof.
  revert a. induction idx as [|i idx IH]; intros a; cbn.
  - intros [= <-]. reflexivity.
  - intros (k & _ & Hput)%bind_Ok. rewrite (IH _ Hput). apply length_insert.
Qed.

Lemma put_raises idx v a e : Numpy.put idx v a = Raise e -> e = IndexError.
Proof.
  revert a. induction idx as [|i idx IH]; intros a; cbn; [discriminate|].
  unfold Numpy.index.
  destruct (decide (0 <= i < Z.of_nat (length a))); cbn; [apply IH|].
  destruct (decide (- Z.of_nat (length a) <= i < 0)); cbn; [apply IH|].
  intros [= <-]. reflexivity.
Qed.

(** The assignment writes the even positions [2a, 2(a+1), ..] one after the
    other; it goes through when the last of them is inside the array. *)
Lemma put_evens (k a : nat) (m : list bool) :
  (k = 0 \/ 2 * (a + k) - 1 <= length m)%nat ->
  exists m',
    Numpy.put (Numpy.times 2 (Z.of_nat <$> seq a k)) true m = Ok m' /\
    forall i, m' !! i =
      if Nat.even i && (2 * a <=? i)%nat && (i <? 2 * (a + k))%nat
      then (fun _ => true) <$> m !! i else m !! i.
Proof.
  revert a m. induction k as [|k IH]; intros a m Hlen.
  - exists m. split; [reflexivity|]. intros i.
    destruct (Nat.even i), (Nat.leb_spec (2 * a) i), (Nat.ltb_spec i (2 * (a + 0)));
      cbn; try reflexivity; lia.
  - destruct Hlen as [?|Hlen]; [lia|].
    cbn [seq fmap list_fmap Numpy.times Numpy.put].
    change (list_fmap Z Z ?f ?l) with (f <$> l).
    change (list_fmap nat Z ?f ?l) with (f <$> l).
    rewrite index_in_range by lia.
    cbn [mbind Result_bind].
    destruct (IH (S a) (<[Z.to_nat (Z.of_nat a * 2) := true]> m)) as (m' & Hput & Hm').
    { rewrite length_insert. lia. }
    exists m'. split; [exact Hput|].
    intros i. rewrite Hm'. clear Hm' Hput IH.
    replace (Z.to_nat (Z.of_nat a * 2)) with (2 * a)%nat by lia.
    destruct (decide (i = 2 * a)%nat) as [->|Hne].
    + rewrite list_lookup_insert_eq by lia.
      replace (Nat.even (2 * a)) with true
        by (symmetry; apply Nat.even_spec; exists a; lia).
      replace (2 * S a <=? 2 * a)%nat with false by (symmetry; apply Nat.leb_gt; lia).
      replace (2 * a <=? 2 * a)%nat with true by (symmetry; apply Nat.leb_le; lia).
      replace (2 * a <? 2 * (a + S k))%nat with true by (symmetry; apply Nat.ltb_lt; lia).
      cbn [andb]. destruct (lookup_lt_is_Some_2 m (2 * a)%nat) as [b ->]; [lia|]. reflexivity.
    + rewrite list_lookup_insert_ne by lia.
      destruct (Nat.even i) eqn:Hev; cbn [andb]; [|reflexivity].
      apply Nat.even_spec in Hev as [j ->].
      replace (S a + k)%nat with (a + S k)%nat by lia.
      destruct (Nat.leb_spec (2 * S a) (2 * j)), (Nat.leb_spec (2 * a) (2 * j));
        cbn [andb]; try reflexivity; lia.
Qed.

(** Some index outside the array: the assignment raises. *)
Lemma put_out_of_range idx v a i :
  i ∈ idx -> (forall j, j ∈ idx -> 0 <= j) -> Z.of_nat (length a) <= i ->
  Numpy.put idx v a = Raise IndexError.
Proof.
  revert a. induction idx as [|j idx IH]; intros a Hin Hpos Hlen.
  - inversion Hin.
  - cbn. unfold Numpy.index.
    destruct (decide (0 <= j < Z.of_nat (length a))) as [Hj|Hj]; cbn.
    + apply IH.
      * apply elem_of_cons in Hin as [->|Hin]; [lia|exact Hin].
      * intros j' Hj'. apply Hpos. right. exact Hj'.
      * rewrite length_insert. exact Hlen.
    + rewrite decide_False; [reflexivity|].
      specialize (Hpos j (list_elem_of_here _ _)). lia.
Qed.

Lemma arange_seq n : Numpy.arange n = Z.of_nat <$> seq 0 (Z.to_nat n).
Proof. reflexivity. Qed.

(** The mask after the assignment, when the array is long enough. *)
Lemma adaptation_mask_ok (n : nat) (shots ways : Z) :
  2 * (shots * ways) - 1 <= Z.of_nat n ->
  exists m,
    adaptation_mask n shots ways = Ok m /\ length m = n /\
    forall i, (i < n)%nat ->
      m !! i = Some (Nat.even i && (i <? 2 * Z.to_nat (shots * ways))%nat).
Proof.
  intros Hn. unfold adaptation_mask. rewrite arange_seq.
  destruct (put_evens (Z.to_nat (shots * ways)) 0 (Numpy.zeros n)) as (m & Hput & Hm).
  { unfold Numpy.zeros. rewrite length_replicate. lia. }
  exists m. split; [exact Hput|]. split.
  { rewrite (put_length _ _ _ _ Hput). apply length_replicate. }
  intros i Hi. rewrite Hm. unfold Numpy.zeros.
  rewrite (lookup_replicate_2 n false i) by exact Hi.
  replace (2 * 0 <=? i)%nat with true by (symmetry; apply Nat.leb_le; lia).
  rewrite Nat.add_0_l.
  destruct (Nat.even i); cbn [andb]; [|reflexivity].
  destruct (i <? _)%nat; reflexivity.
Qed.

Lemma adaptation_mask_error (n : nat) (shots ways : Z) :
  Z.of_nat n < 2 * (shots * ways) - 1 ->
  adaptation_mask n shots ways = Raise IndexError.
Proof.
  intros Hn. unfold adaptation_mask.
  apply (put_out_of_range _ _ _ (2 * (shots * ways - 1))).
  - unfold Numpy.times, Numpy.arange. apply list_elem_of_fmap.
    exists (shots * ways - 1). split; [lia|].
    apply list_elem_of_fmap. exists (Z.to_nat (shots * ways - 1)). split; [lia|].
    apply elem_of_seq. lia.
  - intros j. unfold Numpy.times, Numpy.arange.
    intros (j' & -> & (k & -> & _)%list_elem_of_fmap)%list_elem_of_fmap. lia.
  - unfold Numpy.zeros. rewrite length_replicate. lia.
Qed.

End Masks.

(** ** Splitting a batch *)

Section Separate.
Context {A : Type}.

Lemma mask_select_ok {B} (xs : list B) (m : list bool) :
  length m = length xs -> mask_select xs m = Ok (masked xs m).
Proof. intros Hm. unfold mask_select. rewrite decide_True by exact Hm. reflexivity. Qed.

Lemma mask_select_error {B} (xs : list B) (m : list bool) :
  length m <> length xs -> mask_select xs m = Raise IndexError.
Proof. intros Hm. unfold mask_select. rewrite decide_False by exact Hm. reflexivity. Qed.

(** With enough rows the split goes through, and it is the selection by
    the mask and by its complement. *)
Lemma separate_ok (data : list A) (labels : list Z) (shots ways : Z) :
  2 * (shots * ways) - 1 <= len data ->
  length labels = length data ->
  exists m,
    length m = length data /\
    (forall i, (i < length data)%nat ->
       m !! i = Some (Nat.even i && (i <? 2 * Z.to_nat (shots * ways))%nat)) /\
    separate data labels shots ways =
      Ok (mkEpisode (masked data m) (masked labels m)
                    (masked data (Numpy.invert m)) (masked labels (Numpy.invert m))).
Proof.
  intros Hn Hl.
  destruct (adaptation_mask_ok (length data) shots ways Hn) as (m & Hmask & Hlen & Hm).
  exists m. split; [exact Hlen|]. split; [exact Hm|].
  unfold separate. rewrite Hmask. cbn [mbind Result_bind].
  assert (Hinv : length (Numpy.invert m) = length data).
  { unfold Numpy.invert. rewrite length_fmap. exact Hlen. }
  rewrite !mask_select_ok by congruence. reflexivity.
Qed.

Lemma separate_error (data : list A) (labels : list Z) (shots ways : Z) :
  len data < 2 * (shots * ways) - 1 ->
  separate data labels shots ways = Raise IndexError.
Proof.
  intros Hn. unfold separate.
  rewrite (adaptation_mask_error (length data) shots ways Hn). reflexivity.
Qed.

Lemma masked_length_eq {B C} (xs : list B) (ys : list C) (m : list bool) :
  length xs = length ys -> length (masked xs m) = length (masked ys m).
Proof.
  revert ys m. induction xs as [|x xs IH]; intros [|y ys] [|b m] Hl;
    try discriminate; try reflexivity.
  cbn. injection Hl as Hl. destruct b; cbn; [f_equal|]; apply IH; exact Hl.
Qed.

(** Whatever the batch, the split returns, or raises [IndexError]. *)
Lemma separate_outcome (data : list A) (labels : list Z) (shots ways : Z) :
  (exists ep, separate data labels shots ways = Ok ep /\
              length (evaluation_data ep) = length (evaluation_labels ep)) \/
  separate data labels shots ways = Raise IndexError.
Proof.
  unfold separate.
  destruct (adaptation_mask (length data) shots ways) as [m|e] eqn:Hm.
  - cbn [mbind Result_bind]. unfold adaptation_mask in Hm.
    apply put_length in Hm. unfold Numpy.zeros in Hm. rewrite length_replicate in Hm.
    assert (Hinv : length (Numpy.invert m) = length data).
    { unfold Numpy.invert. rewrite length_fmap. exact Hm. }
    rewrite (mask_select_ok data m Hm). cbn [mbind Result_bind].
    destruct (decide (length m = length labels)) as [Hl|Hl];
      [|right; rewrite (mask_select_error labels m Hl); reflexivity].
    rewrite !mask_select_ok by congruence. cbn [mbind Result_bind].
    left. eexists. split; [reflexivity|]. cbn. apply masked_length_eq. congruence.
  - right. unfold adaptation_mask in Hm. apply put_raises in Hm. subst e. reflexivity.
Qed.

(** Selection by an alternating mask [true, false, true, ..]. *)
Lemma masked_alternating {B} (s : nat) (xs : list B) (m : list bool) :
  length xs = (2 * s)%nat -> length m = (2 * s)%nat ->
  (forall i, (i < 2 * s)%nat -> m !! i = Some (Nat.even i)) ->
  (forall k, masked xs m !! k = xs !! (2 * k)%nat) /\
  (forall k, masked xs (Numpy.invert m) !! k = xs !! (2 * k + 1)%nat) /\
  length (masked xs m) = s /\
  length (masked xs (Numpy.invert m)) = s /\
  masked xs m ++ masked xs (Numpy.invert m) ≡ₚ xs.
Proof.
  revert xs m. induction s as [|s IH]; intros xs m Hxs Hm Hlook.
  - destruct xs; [|discriminate]. cbn. repeat split; intros; reflexivity.
  - destruct xs as [|x [|y xs]]; try (cbn in Hxs; lia).
    destruct m as [|b0 [|b1 m]]; try (cbn in Hm; lia).
    pose proof (Hlook 0%nat ltac:(lia)) as H0.
    pose proof (Hlook 1%nat ltac:(lia)) as H1.
    cbn in H0, H1. injection H0 as ->. injection H1 as ->.
    destruct (IH xs m) as (He & Ho & Hle & Hlo & Hp).
    { cbn in Hxs. lia. }
    { cbn in Hm. lia. }
    { intros i Hi. specialize (Hlook (S (S i)) ltac:(lia)). exact Hlook. }
    cbn [masked Numpy.invert fmap list_fmap negb].
    change (list_fmap bool bool negb m) with (Numpy.invert m).
    repeat split.
    + intros [|k]; [reflexivity|].
      replace (2 * S k)%nat with (S (S (2 * k))) by lia. cbn. apply He.
    + intros [|k]; [reflexivity|].
      replace (2 * S k + 1)%nat with (S (S (2 * k + 1))) by lia. cbn. apply Ho.
    + cbn [length]. f_equal. exact Hle.
    + cbn [length]. f_equal. exact Hlo.
    + cbn [app]. constructor. rewrite <- Permutation_middle. constructor. exact Hp.
Qed.

(** A batch of exactly [2 * shots * ways] examples. *)
Lemma separate_even_odd (data : list A) (labels : list Z) (shots ways : Z) :
  len data = 2 * shots * ways -> len labels = 2 * shots * ways ->
  exists ep,
    separate data labels shots ways = Ok ep /\
    even_odd_split data labels shots ways ep.
Proof.
  unfold len. intros Hd Hl.
  destruct (separate_ok data labels shots ways) as (m & Hlen & Hm & Hsep);
    [unfold len; lia | lia |].
  set (s := Z.to_nat (shots * ways)).
  assert (Hs : length data = (2 * s)%nat) by (subst s; lia).
  assert (Hm' : forall i, (i < 2 * s)%nat -> m !! i = Some (Nat.even i)).
  { intros i Hi. rewrite Hm by lia. fold s.
    replace (i <? 2 * s)%nat with true by (symmetry; apply Nat.ltb_lt; lia).
    rewrite andb_true_r. reflexivity. }
  destruct (masked_alternating s data m) as (D1 & D2 & D3 & D4 & D5); [lia..|exact Hm'|].
  destruct (masked_alternating s labels m) as (L1 & L2 & L3 & L4 & L5); [lia..|exact Hm'|].
  eexists. split; [exact Hsep|]. unfold even_odd_split. cbn.
  repeat split; try assumption; unfold len; subst s; lia.
Qed.

End Separate.

(** ** The adaptation loop and the evaluation *)

Section FastAdapt.
Context `{Torch}.

Lemma iter_shift {L} (f : L -> L) (n : nat) (l : L) :
  Nat.iter (S n) f l = Nat.iter n f (f l).
Proof. induction n as [|n IH]; [reflexivity|]. cbn in *. rewrite IH. reflexivity. Qed.

(** A loop that updates a value and records what it saw. *)
Lemma loop_trace {L E I : Type} (f : L -> L) (g : L -> E) (xs : list I) (l : L)
    (calls : list E) :
  foldl (fun (st : L * list E) _ => let '(l, c) := st in (f l, c ++ [g l])) (l, calls) xs =
  (Nat.iter (length xs) f l,
   calls ++ ((fun k => g (Nat.iter k f l)) <$> seq 0 (length xs))).
Proof.
  revert l calls. induction xs as [|x xs IH]; intros l calls.
  - cbn. rewrite app_nil_r. reflexivity.
  - cbn [foldl length]. rewrite IH. f_equal.
    + rewrite iter_shift. reflexivity.
    + rewrite <- app_assoc. f_equal. cbn [seq fmap list_fmap app].
      change (list_fmap nat E ?h ?l) with (h <$> l).
      f_equal. rewrite <- fmap_S_seq, <- list_fmap_compose.
      apply list_fmap_ext. intros _ k _. cbn [compose]. rewrite iter_shift. reflexivity.
Qed.

Lemma py_range_length (n : Z) : length (py_range n) = Z.to_nat n.
Proof. apply length_seq. Qed.

Lemma accuracy_ok `{!TorchShapes} (l : Learner) (xs : list Row) (targets : list Z) :
  length xs = length targets ->
  accuracy (forward l xs) targets =
    Ok (t0_div (t0_of_count (count_equal (argmax <$> forward l xs) targets)) (len targets)).
Proof.
  intros Hl. unfold accuracy.
  rewrite decide_True; [reflexivity|].
  rewrite length_fmap, forward_length. exact Hl.
Qed.

Lemma accuracy_inv (preds : list Row) (targets : list Z) (a : Tensor0) :
  accuracy preds targets = Ok a ->
  length preds = length targets /\
  a = t0_div (t0_of_count (count_equal (argmax <$> preds) targets)) (len targets).
Proof.
  unfold accuracy. destruct (decide _) as [Hl|]; [|discriminate].
  intros [= <-]. rewrite length_fmap in Hl. auto.
Qed.

(** *** maml.py *)

Lemma maml_run_inv batch learner loss steps shots ways r :
  MAML.fast_adapt_run batch learner loss steps shots ways = Ok r ->
  separate batch.1 batch.2 shots ways = Ok (episode r) /\
  adapted r = Nat.iter (Z.to_nat steps) (maml_update loss (episode r)) learner /\
  adapt_calls r =
    (fun k => let l := Nat.iter k (maml_update loss (episode r)) learner in
              (l, t0_div (loss (forward l (adaptation_data (episode r)))
                               (adaptation_labels (episode r)))
                         (len (adaptation_data (episode r)))))
    <$> seq 0 (Z.to_nat steps) /\
  predictions r = forward (adapted r) (evaluation_data (episode r)) /\
  valid_error r =
    t0_div (loss (predictions r) (evaluation_labels (episode r)))
           (len (evaluation_data (episode r))) /\
  accuracy (predictions r) (evaluation_labels (episode r)) = Ok (valid_accuracy r).
Proof.
  destruct batch as [data labels]. unfold MAML.fast_adapt_run.
  intros (ep & Hsep & Hev)%bind_Ok.
  unfold MAML.inner_step in Hev.
  rewrite (loop_trace
             (fun l => adapt l (t0_div (loss (forward l (adaptation_data ep))
                                             (adaptation_labels ep))
                                       (len (adaptation_data ep))))
             (fun l => (l, t0_div (loss (forward l (adaptation_data ep))
                                        (adaptation_labels ep))
                                  (len (adaptation_data ep))))) in Hev.
  rewrite py_range_length in Hev. unfold MAML.evaluate in Hev.
  apply bind_Ok in Hev as (a & Hacc & [= <-]). cbn.
  repeat split; try assumption; reflexivity.
Qed.

(** *** ITD-BiO.py *)

Lemma l2_reg_sum (l : Learner) :
  ITDBiO.l2_reg l =
  foldl t0_add (t0_of_float (float_of_Z 0)) (norm2 <$> learner_parameters l).
Proof.
  unfold ITDBiO.l2_reg. generalize (t0_of_float (float_of_Z 0)).
  induction (learner_parameters l) as [|p ps IH]; intros z; cbn; [reflexivity|].
  apply IH.
Qed.

Lemma itd_run_inv batch learner features loss reg_lambda steps shots ways r :
  ITDBiO.fast_adapt_run batch learner features loss reg_lambda steps shots ways = Ok r ->
  separate (features batch.1) batch.2 shots ways = Ok (episode r) /\
  adapted r = Nat.iter (Z.to_nat steps) (itd_update loss reg_lambda (episode r)) learner /\
  adapt_calls r =
    (fun k => let l := Nat.iter k (itd_update loss reg_lambda (episode r)) learner in
              (l, itd_train_error loss reg_lambda (episode r) l))
    <$> seq 0 (Z.to_nat steps) /\
  predictions r = forward (adapted r) (evaluation_data (episode r)) /\
  valid_error r = loss (predictions r) (evaluation_labels (episode r)) /\
  accuracy (predictions r) (evaluation_labels (episode r)) = Ok (valid_accuracy r).
Proof.
  destruct batch as [data labels]. unfold ITDBiO.fast_adapt_run.
  intros (ep & Hsep & Hev)%bind_Ok.
  unfold ITDBiO.inner_step in Hev.
  rewrite (loop_trace (itd_update loss reg_lambda ep)
             (fun l => (l, itd_train_error loss reg_lambda ep l))) in Hev.
      rewrite py_range_length in Hev. unfold ITDBiO.evaluate in Hev.
  apply bind_Ok in Hev as (a & Hacc & [= <-]). cbn.
  repeat split; try assumption; reflexivity.
Qed.

End FastAdapt.

Section FastAdaptTheorems.
Context `{Torch} `{!TorchShapes}.

Lemma maml_run_ok (data : list Row) labels learner loss steps shots ways :
  2 * (shots * ways) - 1 <= len data -> length labels = length data ->
  succeeds (MAML.fast_adapt_run (data, labels) learner loss steps shots ways).
Proof.
  intros Hn Hl.
  destruct (separate_ok data labels shots ways Hn Hl) as (m & Hm & _ & Hsep).
  unfold succeeds, MAML.fast_adapt_run. rewrite Hsep. cbn [mbind Result_bind].
  destruct (foldl _ _ _) as [l calls]. unfold MAML.evaluate.
  rewrite accuracy_ok; [eexists; reflexivity|].
  cbn. apply masked_length_eq. congruence.
Qed.

Lemma itd_run_ok (data : list Row) labels learner features loss reg steps shots ways :
  2 * (shots * ways) - 1 <= len (features data) ->
  length labels = length (features data) ->
  succeeds (ITDBiO.fast_adapt_run (data, labels) learner features loss reg steps shots ways).
Proof.
  intros Hn Hl.
  destruct (separate_ok (features data) labels shots ways Hn Hl) as (m & Hm & _ & Hsep).
  unfold succeeds, ITDBiO.fast_adapt_run. rewrite Hsep. cbn [mbind Result_bind].
  destruct (foldl _ _ _) as [l calls]. unfold ITDBiO.evaluate.
  rewrite accuracy_ok; [eexists; reflexivity|].
  cbn. apply masked_length_eq. congruence.
Qed.

(** Every call returns or raises [IndexError]. *)
Lemma maml_fast_adapt_outcome batch learner loss steps shots ways :
  succeeds (MAML.fast_adapt batch learner loss steps shots ways) \/
  MAML.fast_adapt batch learner loss steps shots ways = Raise IndexError.
Proof.
  destruct batch as [data labels]. unfold MAML.fast_adapt, MAML.fast_adapt_run.
  destruct (separate_outcome data labels shots ways) as [(ep & -> & Hl)| ->];
    [|right; reflexivity].
  left. cbn [mbind Result_bind]. destruct (foldl _ _ _) as [l calls].
  unfold MAML.evaluate. rewrite accuracy_ok by exact Hl. eexists. reflexivity.
Qed.

Lemma itd_fast_adapt_outcome batch learner features loss reg steps shots ways :
  succeeds (ITDBiO.fast_adapt batch learner features loss reg steps shots ways) \/
  ITDBiO.fast_adapt batch learner features loss reg steps shots ways = Raise IndexError.
Proof.
  destruct batch as [data labels]. unfold ITDBiO.fast_adapt, ITDBiO.fast_adapt_run.
  destruct (separate_outcome (features data) labels shots ways) as [(ep & -> & Hl)| ->];
    [|right; reflexivity].
  left. cbn [mbind Result_bind]. destruct (foldl _ _ _) as [l calls].
  unfold ITDBiO.evaluate. rewrite accuracy_ok by exact Hl. eexists. reflexivity.
Qed.

Lemma maml_fast_adapt_run batch learner loss steps shots ways r :
  MAML.fast_adapt_run batch learner loss steps shots ways = Ok r ->
  MAML.fast_adapt batch learner loss steps shots ways = Ok (valid_error r, valid_accuracy r).
Proof. intros Hr. unfold MAML.fast_adapt. rewrite Hr. reflexivity. Qed.

Lemma itd_fast_adapt_run batch learner features loss reg steps shots ways r :
  ITDBiO.fast_adapt_run batch learner features loss reg steps shots ways = Ok r ->
  ITDBiO.fast_adapt batch learner features loss reg steps shots ways =
    Ok (valid_error r, valid_accuracy r).
Proof. intros Hr. unfold ITDBiO.fast_adapt. rewrite Hr. reflexivity. Qed.

(** C1. On a batch of exactly [2*shots*ways] examples [fast_adapt] runs
    in both scripts, and its adaptation set is the rows at the even
    positions, its evaluation set the rows at the odd positions; each has
    [shots*ways] rows and together they are the batch, each row once.  In
    ITD-BiO.py the rows are those of [features(data)]. *)
Theorem fast_adapt_even_odd_split (data : list Row) (labels : list Z) (shots ways : Z) :
  len data = 2 * shots * ways -> len labels = 2 * shots * ways ->
  (forall learner loss steps,
     exists r,
       MAML.fast_adapt_run (data, labels) learner loss steps shots ways = Ok r /\
       even_odd_split data labels shots ways (episode r)) /\
  (forall learner ps loss reg steps,
     exists r,
       ITDBiO.fast_adapt_run (data, labels) learner (features_forward ps) loss reg
         steps shots ways = Ok r /\
       even_odd_split (features_forward ps data) labels shots ways (episode r)).
Proof.
  intros Hd Hl. split.
  - intros learner loss steps.
    destruct (maml_run_ok data labels learner loss steps shots ways) as [r Hr];
      [unfold len in *; lia..|].
    exists r. split; [exact Hr|].
    apply maml_run_inv in Hr as (Hsep & _). cbn in Hsep.
    destruct (separate_even_odd data labels shots ways Hd Hl) as (ep & Hsep' & Hep).
    rewrite Hsep in Hsep'. injection Hsep' as <-. exact Hep.
  - intros learner ps loss reg steps.
    assert (Hf : len (features_forward ps data) = 2 * shots * ways).
    { unfold len in *. rewrite features_length. exact Hd. }
    destruct (itd_run_ok data labels learner (features_forward ps) loss reg steps shots ways)
      as [r Hr]; [unfold len in *; lia..|].
    exists r. split; [exact Hr|].
    apply itd_run_inv in Hr as (Hsep & _). cbn in Hsep.
    destruct (separate_even_odd (features_forward ps data) labels shots ways Hf Hl)
      as (ep & Hsep' & Hep).
    rewrite Hsep in Hsep'. injection Hsep' as <-. exact Hep.
Qed.

(** C10. The index assignment of [fast_adapt] is in bounds exactly when
    the data tensor has at least [2*shots*ways - 1] rows: then the mask is
    built and, the labels being as many as the rows, the four selections
    and the whole call go through; with fewer rows the assignment raises
    [IndexError], in both scripts.  The largest index written is
    [2*(shots*ways - 1)]. *)
Theorem fast_adapt_index_bounds (data : list Row) (labels : list Z) (shots ways : Z)
    (learner : Learner) (loss : list Row -> list Z -> Tensor0) (steps : Z) :
  (2 * shots * ways - 1 <= len data ->
     succeeds (adaptation_mask (length data) shots ways) /\
     (length labels = length data ->
        succeeds (separate data labels shots ways) /\
        succeeds (MAML.fast_adapt (data, labels) learner loss steps shots ways) /\
        forall ps reg,
          succeeds (ITDBiO.fast_adapt (data, labels) learner (features_forward ps) loss reg
                      steps shots ways))) /\
  (len data < 2 * shots * ways - 1 ->
     adaptation_mask (length data) shots ways = Raise IndexError /\
     separate data labels shots ways = Raise IndexError /\
     MAML.fast_adapt (data, labels) learner loss steps shots ways = Raise IndexError /\
     forall ps reg,
       ITDBiO.fast_adapt (data, labels) learner (features_forward ps) loss reg
         steps shots ways = Raise IndexError) /\
  (1 <= shots * ways ->
     let written := Numpy.times 2 (Numpy.arange (shots * ways)) in
     2 * (shots * ways - 1) ∈ written /\
     forall j, j ∈ written -> 0 <= j <= 2 * (shots * ways - 1)).
Proof.
  split; [|split]; cycle 2.
  { intros Hsw. cbn zeta. unfold Numpy.times, Numpy.arange. split.
    - apply list_elem_of_fmap. exists (shots * ways - 1). split; [lia|].
      apply list_elem_of_fmap. exists (Z.to_nat (shots * ways - 1)). split; [lia|].
      apply elem_of_seq. lia.
    - intros j (j' & -> & (k & -> & Hk%elem_of_seq)%list_elem_of_fmap)%list_elem_of_fmap.
      lia. }
  - intros Hn. split.
    + destruct (adaptation_mask_ok (length data) shots ways) as (m & Hm & _);
        [unfold len in Hn; lia|]. exists m. exact Hm.
    + intros Hl. split; [|split].
      * destruct (separate_ok data labels shots ways) as (m & _ & _ & Hsep);
          [lia|exact Hl|]. eexists. exact Hsep.
      * destruct (maml_run_ok data labels learner loss steps shots ways) as [r Hr];
          [lia|exact Hl|].
        eexists. apply maml_fast_adapt_run. exact Hr.
      * intros ps reg.
        destruct (itd_run_ok data labels learner (features_forward ps) loss reg steps
                    shots ways) as [r Hr].
        { unfold len in *. rewrite features_length. lia. }
        { rewrite features_length. exact Hl. }
        eexists. apply itd_fast_adapt_run. exact Hr.
  - intros Hn.
    assert (Hsep : separate data labels shots ways = Raise IndexError)
      by (apply separate_error; lia).
    split; [apply adaptation_mask_error; unfold len in Hn; lia|].
    split; [exact Hsep|]. split.
    + unfold MAML.fast_adapt, MAML.fast_adapt_run. rewrite Hsep. reflexivity.
    + intros ps reg. unfold ITDBiO.fast_adapt, ITDBiO.fast_adapt_run.
      rewrite separate_error; [reflexivity|].
      unfold len in *. rewrite features_length. lia.
Qed.

(** C8. [fast_adapt] ends on every input, in both scripts: it returns or
    raises [IndexError].  For a nonnegative [adaptation_steps] and a batch
    on which the split is in bounds it returns; it has made
    exactly [adaptation_steps] calls of [learner.adapt], the k-th on the
    learner left by the k-1 before it and with the error on the
    adaptation data, and the predictions, the evaluation error and the
    accuracy are computed afterwards from the adapted learner on the
    evaluation data.  With zero steps the learner is the one passed in. *)
Theorem fast_adapt_steps (data : list Row) (labels : list Z) (learner : Learner)
    (loss : list Row -> list Z -> Tensor0) (adaptation_steps shots ways : Z) :
  (succeeds (MAML.fast_adapt (data, labels) learner loss adaptation_steps shots ways) \/
   MAML.fast_adapt (data, labels) learner loss adaptation_steps shots ways =
     Raise IndexError) /\
  (forall features reg_lambda,
     succeeds (ITDBiO.fast_adapt (data, labels) learner features loss reg_lambda
                 adaptation_steps shots ways) \/
     ITDBiO.fast_adapt (data, labels) learner features loss reg_lambda
       adaptation_steps shots ways = Raise IndexError) /\
  (0 <= adaptation_steps ->
   2 * shots * ways - 1 <= len data ->
   length labels = length data ->
   (exists r,
     MAML.fast_adapt_run (data, labels) learner loss adaptation_steps shots ways = Ok r /\
     MAML.fast_adapt (data, labels) learner loss adaptation_steps shots ways =
       Ok (valid_error r, valid_accuracy r) /\
     separate data labels shots ways = Ok (episode r) /\
     len (adapt_calls r) = adaptation_steps /\
     (forall k c, adapt_calls r !! k = Some c ->
        c.1 = Nat.iter k (maml_update loss (episode r)) learner /\
        Nat.iter (S k) (maml_update loss (episode r)) learner = adapt c.1 c.2) /\
     adapted r = Nat.iter (Z.to_nat adaptation_steps) (maml_update loss (episode r)) learner /\
     (adaptation_steps = 0 -> adapted r = learner) /\
     predictions r = forward (adapted r) (evaluation_data (episode r)) /\
     valid_error r =
       t0_div (loss (predictions r) (evaluation_labels (episode r)))
              (len (evaluation_data (episode r))) /\
     accuracy (predictions r) (evaluation_labels (episode r)) = Ok (valid_accuracy r)) /\
  (forall ps reg_lambda,
   exists r,
     ITDBiO.fast_adapt_run (data, labels) learner (features_forward ps) loss reg_lambda
       adaptation_steps shots ways = Ok r /\
     ITDBiO.fast_adapt (data, labels) learner (features_forward ps) loss reg_lambda
       adaptation_steps shots ways = Ok (valid_error r, valid_accuracy r) /\
     separate (features_forward ps data) labels shots ways = Ok (episode r) /\
     len (adapt_calls r) = adaptation_steps /\
     (forall k c, adapt_calls r !! k = Some c ->
        c.1 = Nat.iter k (itd_update loss reg_lambda (episode r)) learner /\
        Nat.iter (S k) (itd_update loss reg_lambda (episode r)) learner = adapt c.1 c.2) /\
     adapted r =
       Nat.iter (Z.to_nat adaptation_steps) (itd_update loss reg_lambda (episode r)) learner /\
     (adaptation_steps = 0 -> adapted r = learner) /\
     predictions r = forward (adapted r) (evaluation_data (episode r)) /\
     valid_error r = loss (predictions r) (evaluation_labels (episode r)) /\
     accuracy (predictions r) (evaluation_labels (episode r)) = Ok (valid_accuracy r))).
Proof.
  split; [apply maml_fast_adapt_outcome|].
  split; [intros features reg_lambda; apply itd_fast_adapt_outcome|].
  intros Hsteps Hn Hl. split.
  - destruct (maml_run_ok data labels learner loss adaptation_steps shots ways) as [r Hr];
      [lia|exact Hl|].
    exists r. split; [exact Hr|]. split; [apply maml_fast_adapt_run; exact Hr|].
    apply maml_run_inv in Hr as (Hsep & Had & Hcalls & Hp & He & Ha). cbn in Hsep.
    split; [exact Hsep|]. split.
    { unfold len. rewrite Hcalls, length_fmap, length_seq. lia. }
    split.
    { intros k c Hk. rewrite Hcalls in Hk.
      apply list_lookup_fmap_Some in Hk as (k' & -> & Hk').
      apply lookup_seq in Hk' as [-> _]. cbn. split; reflexivity. }
    split; [exact Had|]. split; [intros ->; rewrite Had; reflexivity|].
    auto.
  - intros ps reg_lambda.
    destruct (itd_run_ok data labels learner (features_forward ps) loss reg_lambda
                adaptation_steps shots ways) as [r Hr].
    { unfold len in *. rewrite features_length. lia. }
    { rewrite features_length. exact Hl. }
    exists r. split; [exact Hr|]. split; [apply itd_fast_adapt_run; exact Hr|].
    apply itd_run_inv in Hr as (Hsep & Had & Hcalls & Hp & He & Ha). cbn in Hsep.
    split; [exact Hsep|]. split.
    { unfold len. rewrite Hcalls, length_fmap, length_seq. lia. }
    split.
    { intros k c Hk. rewrite Hcalls in Hk.
      apply list_lookup_fmap_Some in Hk as (k' & -> & Hk').
      apply lookup_seq in Hk' as [-> _]. cbn. split; reflexivity. }
    split; [exact Had|]. split; [intros ->; rewrite Had; reflexivity|].
    auto.
Qed.

End FastAdaptTheorems.

Section Regularisation.
Context `{Torch}.

(** C2. In ITD-BiO.py every error passed to [learner.adapt] is the loss of
    the learner on the adaptation data plus [reg_lambda] times the sum of
    the 2-norms of the learner's parameters; in maml.py it is the loss on
    the adaptation data divided by the number of adaptation rows, with no
    term in the parameters' norms. *)
Theorem inner_loop_train_error (batch : list Row * list Z) (learner : Learner)
    (features : list Row -> list Row) (loss : list Row -> list Z -> Tensor0)
    (reg_lambda : Scalar) (adaptation_steps shots ways : Z) :
  (forall r,
     ITDBiO.fast_adapt_run batch learner features loss reg_lambda adaptation_steps
       shots ways = Ok r ->
     length (adapt_calls r) = Z.to_nat adaptation_steps /\
     forall k l train_error, adapt_calls r !! k = Some (l, train_error) ->
       l = Nat.iter k (itd_update loss reg_lambda (episode r)) learner /\
       train_error =
         t0_add (loss (forward l (adaptation_data (episode r)))
                      (adaptation_labels (episode r)))
                (t0_mul (t0_of_float reg_lambda)
                        (foldl t0_add (t0_of_float (float_of_Z 0))
                               (norm2 <$> learner_parameters l)))) /\
  (forall r,
     MAML.fast_adapt_run batch learner loss adaptation_steps shots ways = Ok r ->
     length (adapt_calls r) = Z.to_nat adaptation_steps /\
     forall k l train_error, adapt_calls r !! k = Some (l, train_error) ->
       l = Nat.iter k (maml_update loss (episode r)) learner /\
       train_error =
         t0_div (loss (forward l (adaptation_data (episode r)))
                      (adaptation_labels (episode r)))
                (len (adaptation_data (episode r)))).
Proof.
  split; intros r Hr.
  - apply itd_run_inv in Hr as (_ & _ & Hcalls & _). split.
    { rewrite Hcalls, length_fmap, length_seq. reflexivity. }
    intros k l e Hk. rewrite Hcalls in Hk.
    apply list_lookup_fmap_Some in Hk as (k' & [= -> ->] & Hk').
    apply lookup_seq in Hk' as [-> _]. cbn. split; [reflexivity|].
    unfold itd_train_error. rewrite l2_reg_sum. reflexivity.
  - apply maml_run_inv in Hr as (_ & _ & Hcalls & _). split.
    { rewrite Hcalls, length_fmap, length_seq. reflexivity. }
    intros k l e Hk. rewrite Hcalls in Hk.
    apply list_lookup_fmap_Some in Hk as (k' & [= -> ->] & Hk').
    apply lookup_seq in Hk' as [-> _]. cbn. split; reflexivity.
Qed.

End Regularisation.

(** ** Loops, gradients and the optimizer *)

Section Loops.

Lemma for_each_app {I S} (xs ys : list I) (body : I -> S -> Result S) (s : S) :
  for_each (xs ++ ys) body s = (s' ← for_each xs body s; for_each ys body s').
Proof.
  revert s. induction xs as [|x xs IH]; intros s; cbn; [reflexivity|].
  destruct (body x s); cbn; [apply IH|reflexivity].
Qed.

(** A property carried along a loop over consecutive indices. *)
Lemma for_each_seq_inv {S} (body : nat -> S -> Result S) (Inv : nat -> S -> Prop)
    (n a : nat) (s s' : S) :
  Inv a s ->
  (forall i s s1, (a <= i < a + n)%nat -> Inv i s -> body i s = Ok s1 -> Inv (Datatypes.S i) s1) ->
  for_each (seq a n) body s = Ok s' ->
  Inv (a + n)%nat s'.
Proof.
  revert a s. induction n as [|n IH]; intros a s Ha Hstep; cbn.
  - intros [= <-]. rewrite Nat.add_0_r. exact Ha.
  - intros (s1 & Hb & Hrest)%bind_Ok.
    replace (a + Datatypes.S n)%nat with (Datatypes.S a + n)%nat by lia.
    apply (IH (Datatypes.S a) s1); [|intros i s2 s3 Hi; apply Hstep; lia|exact Hrest].
    apply (Hstep a s s1); [lia|exact Ha|exact Hb].
Qed.

(** A loop whose body never raises under the invariant returns. *)
Lemma for_each_seq_total {S} (body : nat -> S -> Result S) (Inv : nat -> S -> Prop)
    (n a : nat) (s : S) :
  Inv a s ->
  (forall i s, (a <= i < a + n)%nat -> Inv i s ->
     exists s1, body i s = Ok s1 /\ Inv (Datatypes.S i) s1) ->
  exists s', for_each (seq a n) body s = Ok s' /\ Inv (a + n)%nat s'.
Proof.
  revert a s. induction n as [|n IH]; intros a s Ha Hstep; cbn.
  - exists s. rewrite Nat.add_0_r. auto.
  - destruct (Hstep a s) as (s1 & Hb & H1); [lia|exact Ha|].
    rewrite Hb. cbn [mbind Result_bind].
    replace (a + Datatypes.S n)%nat with (Datatypes.S a + n)%nat by lia.
    apply IH; [exact H1|]. intros i s2 Hi. apply Hstep. lia.
Qed.

End Loops.

Section Gradients.
Context `{Torch}.

Lemma accumulate_spec (g : option Tensor) (p : Param) :
  accumulate g p = mkParam (data p) (add_grad (grad p) g).
Proof. destruct p as [v a], g as [g|]; reflexivity. Qed.

Lemma backward_parameters (err : Tensor0) (n : Net) (k : nat) :
  MAML.parameters (backward err n) !! k =
  accumulate (grad_wrt err (ref_of n k)) <$> MAML.parameters n !! k.
Proof.
  unfold MAML.parameters, backward, ref_of. cbn [features head].
  destruct (Nat.ltb_spec k (length (features n))) as [Hk|Hk].
  - rewrite !lookup_app_l by (rewrite ?length_imap; exact Hk).
    rewrite list_lookup_imap. destruct (features n !! k); reflexivity.
  - rewrite !lookup_app_r by (rewrite ?length_imap; exact Hk).
    rewrite length_imap, list_lookup_imap.
    destruct (head n !! _); reflexivity.
Qed.

Lemma backward_features (err : Tensor0) (n : Net) (k : nat) :
  features (backward err n) !! k =
  accumulate (grad_wrt err (InFeatures k)) <$> features n !! k.
Proof.
  unfold backward. cbn [features]. rewrite list_lookup_imap.
  destruct (features n !! k); reflexivity.
Qed.

Lemma backward_head (err : Tensor0) (n : Net) (k : nat) :
  head (backward err n) !! k =
  accumulate (grad_wrt err (InHead k)) <$> head n !! k.
Proof.
  unfold backward. cbn [head]. rewrite list_lookup_imap.
  destruct (head n !! k); reflexivity.
Qed.

Lemma backward_length_features err n :
  length (features (backward err n)) = length (features n).
Proof. unfold backward. cbn. apply length_imap. Qed.

Lemma backward_length_head err n :
  length (head (backward err n)) = length (head n).
Proof. unfold backward. cbn. apply length_imap. Qed.

Lemma accumulate_data g p : data (accumulate g p) = data p.
Proof. rewrite accumulate_spec. reflexivity. Qed.

Lemma backward_data_features err n :
  data <$> features (backward err n) = data <$> features n.
Proof.
  apply list_eq. intros k. rewrite !list_lookup_fmap, backward_features.
  destruct (features n !! k); cbn; [rewrite accumulate_data|]; reflexivity.
Qed.

Lemma backward_data_head err n :
  data <$> head (backward err n) = data <$> head n.
Proof.
  apply list_eq. intros k. rewrite !list_lookup_fmap, backward_head.
  destruct (head n !! k); cbn; [rewrite accumulate_data|]; reflexivity.
Qed.

Lemma after_tasks_length_features n logs :
  length (features (after_tasks n logs)) = length (features n).
Proof.
  revert n. induction logs as [|l logs IH]; intros n; cbn; [reflexivity|].
  unfold after_tasks in IH. rewrite IH. apply backward_length_features.
Qed.

Lemma after_tasks_length_head n logs :
  length (head (after_tasks n logs)) = length (head n).
Proof.
  revert n. induction logs as [|l logs IH]; intros n; cbn; [reflexivity|].
  unfold after_tasks in IH. rewrite IH. apply backward_length_head.
Qed.

Lemma after_tasks_data_head n logs :
  data <$> head (after_tasks n logs) = data <$> head n.
Proof.
  revert n. induction logs as [|l logs IH]; intros n; cbn; [reflexivity|].
  unfold after_tasks in IH. rewrite IH. apply backward_data_head.
Qed.

Lemma ref_of_backward err n k : ref_of (backward err n) k = ref_of n k.
Proof. unfold ref_of. rewrite backward_length_features. reflexivity. Qed.

Lemma after_tasks_parameters n logs k :
  MAML.parameters (after_tasks n logs) !! k =
  (fun p => mkParam (data p)
     (foldl add_grad (grad p)
        ((fun l => grad_wrt (valid_error (train_run l)) (ref_of n k)) <$> logs)))
  <$> MAML.parameters n !! k.
Proof.
  revert n. induction logs as [|l logs IH]; intros n; cbn [after_tasks foldl fmap list_fmap].
  - destruct (MAML.parameters n !! k) as [[v g]|]; reflexivity.
  - unfold after_tasks in IH. rewrite IH, backward_parameters, ref_of_backward.
    destruct (MAML.parameters n !! k) as [p|]; [|reflexivity].
    cbn. rewrite accumulate_spec. reflexivity.
Qed.

Lemma after_tasks_features n logs k :
  features (after_tasks n logs) !! k =
  (fun p => mkParam (data p)
     (foldl add_grad (grad p)
        ((fun l => grad_wrt (valid_error (train_run l)) (InFeatures k)) <$> logs)))
  <$> features n !! k.
Proof.
  revert n. induction logs as [|l logs IH]; intros n; cbn [after_tasks foldl fmap list_fmap].
  - destruct (features n !! k) as [[v g]|]; reflexivity.
  - unfold after_tasks in IH. rewrite IH, backward_features.
    destruct (features n !! k) as [p|]; [|reflexivity].
    cbn. rewrite accumulate_spec. reflexivity.
Qed.

(** When every pass reaches the parameter the sum is the plain sum. *)
Lemma grad_sum_all (g : Tensor) (gs : list Tensor) :
  grad_sum (Some <$> (g :: gs)) = Some (foldl tadd g gs).
Proof.
  unfold grad_sum. cbn. generalize g. induction gs as [|g' gs IH]; intros a; cbn;
    [reflexivity|apply IH].
Qed.

Lemma average_grads_inv (B : Z) (ps ps' : list Param) :
  average_grads B ps = Ok ps' ->
  length ps' = length ps /\
  forall k p, ps !! k = Some p ->
    exists g, grad p = Some g /\ B <> 0 /\
      ps' !! k = Some (mkParam (data p) (Some (tscale (fdiv (float_of_literal "1.0") B) g))).
Proof.
  revert ps'. induction ps as [|p ps IH]; intros ps'; cbn.
  - intros [= <-]. split; [reflexivity|]. intros k p Hk. inversion Hk.
  - destruct (grad p) as [g|] eqn:Hg; [|discriminate].
    unfold py_div. destruct (decide (B = 0)) as [|HB]; [discriminate|].
    cbn [mbind Result_bind].
    intros (ps'' & Hps & [= <-])%bind_Ok.
    destruct (IH ps'' Hps) as [Hlen Hlook]. split; [cbn; congruence|].
    intros [|k] q Hk; cbn in Hk.
    + injection Hk as <-. exists g. auto.
    + apply Hlook. exact Hk.
Qed.

Lemma average_grads_ok (B : Z) (ps : list Param) :
  B <> 0 -> Forall (fun p => is_Some (grad p)) ps ->
  succeeds (average_grads B ps).
Proof.
  intros HB. induction 1 as [|p ps [g Hg] _ [ps' IH]]; cbn.
  - eexists. reflexivity.
  - rewrite Hg. unfold py_div. rewrite decide_False by exact HB.
    cbn [mbind Result_bind]. rewrite IH. eexists. reflexivity.
Qed.

(** Adam leaves the gradients alone, and the parameters without a slot
    or without a gradient as well. *)
Lemma adam_step_spec (lr : Scalar) (ps : list Param) (ss : list OptSlot) :
  length (adam_step lr ps ss).1 = length ps /\
  length (adam_step lr ps ss).2 = length ss /\
  forall k p, ps !! k = Some p ->
    exists p', (adam_step lr ps ss).1 !! k = Some p' /\ grad p' = grad p /\
      match ss !! k, grad p with
      | Some s, Some g =>
          data p' = (adam lr s (data p) g).1 /\
          (adam_step lr ps ss).2 !! k = Some (adam lr s (data p) g).2
      | _, _ => data p' = data p
      end.
Proof.
  revert ss. induction ps as [|p ps IH]; intros ss.
  - cbn. repeat split; try reflexivity. intros k p Hk. inversion Hk.
  - destruct ss as [|s ss].
    { cbn. repeat split; try reflexivity. intros k q Hk. exists q.
      split; [exact Hk|]. split; reflexivity. }
    cbn [adam_step]. specialize (IH ss).
    destruct (adam_step lr ps ss) as [ps' ss'] eqn:Hstep.
    destruct IH as (L1 & L2 & Hlook). cbn in L1, L2, Hlook.
    destruct (grad p) as [g|] eqn:Hg.
    + destruct (adam lr s (data p) g) as [v s'] eqn:Hadam. cbn.
      repeat split; try congruence.
      intros [|k] q Hk; cbn in Hk.
      * injection Hk as <-. eexists. split; [reflexivity|]. cbn.
        rewrite Hg, Hadam. auto.
      * apply Hlook. exact Hk.
    + cbn. repeat split; try congruence.
      intros [|k] q Hk; cbn in Hk.
      * injection Hk as <-. eexists. split; [reflexivity|]. cbn.
        rewrite Hg. auto.
      * apply Hlook. exact Hk.
Qed.

Lemma with_parameters_parameters (n : Net) (ps : list Param) :
  MAML.parameters (MAML.with_parameters n ps) = ps.
Proof. unfold MAML.parameters, MAML.with_parameters. cbn. apply take_drop. Qed.

Lemma with_parameters_length_features (n : Net) (ps : list Param) :
  length ps = length (MAML.parameters n) ->
  length (features (MAML.with_parameters n ps)) = length (features n).
Proof.
  unfold MAML.parameters, MAML.with_parameters. cbn. rewrite length_app, length_take. lia.
Qed.

Lemma with_parameters_length_head (n : Net) (ps : list Param) :
  length ps = length (MAML.parameters n) ->
  length (head (MAML.with_parameters n ps)) = length (head n).
Proof.
  unfold MAML.parameters, MAML.with_parameters. cbn. rewrite length_app, length_drop. lia.
Qed.

End Gradients.

(** ** One task, one meta batch *)

Section TaskLoop.
Context `{Torch}.

Lemma tasks_loop (body : nat -> Tasks -> Result Tasks) (n a : nat) (ts0 ts : Tasks) :
  task_step body ->
  for_each (seq a n) body ts0 = Ok ts ->
  exists logs,
    length logs = n /\
    t_log ts = t_log ts0 ++ logs /\
    t_net ts = after_tasks (t_net ts0) logs /\
    t_sums ts = foldl add_log (t_sums ts0) logs /\
    Forall accuracies_of_log logs.
Proof.
  intros Hbody. revert a ts0. induction n as [|n IH]; intros a ts0; cbn.
  - intros [= <-]. exists []. rewrite app_nil_r. repeat split; constructor.
  - intros (ts1 & Hb & Hrest)%bind_Ok.
    destruct (Hbody _ _ _ Hb) as (log & Hl & Hn & Hs & Ha).
    destruct (IH _ _ Hrest) as (logs & Hlen & Hl' & Hn' & Hs' & Ha').
    exists (log :: logs). cbn. rewrite Hl', Hl, Hn', Hn, Hs', Hs, <- app_assoc.
    repeat split; [congruence|]. constructor; assumption.
Qed.

Lemma run_accuracy_maml batch learner loss steps shots ways r :
  MAML.fast_adapt_run batch learner loss steps shots ways = Ok r -> accuracy_of_run r.
Proof. intros (_ & _ & _ & _ & _ & Ha)%maml_run_inv. apply accuracy_inv, Ha. Qed.

Lemma run_accuracy_itd batch learner features loss reg steps shots ways r :
  ITDBiO.fast_adapt_run batch learner features loss reg steps shots ways = Ok r ->
  accuracy_of_run r.
Proof. intros (_ & _ & _ & _ & _ & Ha)%itd_run_inv. apply accuracy_inv, Ha. Qed.

Lemma backward_data_parameters err n :
  data <$> MAML.parameters (backward err n) = data <$> MAML.parameters n.
Proof.
  unfold MAML.parameters. rewrite !fmap_app, backward_data_features, backward_data_head.
  reflexivity.
Qed.

(** maml.py: the three calls of a task, all on clones of the parameters
    the task started with; only the first error is back-propagated. *)
Lemma maml_task_inv (h : MAML.Hyper) (i : nat) (st st' : Tasks) :
  MAML.task h i st = Ok st' ->
  let b1 := sample TrainTasks (MAML.ways h) (2 * MAML.shots h) (t_world st) in
  let b2 := sample ValidTasks (MAML.ways h) (2 * MAML.shots h) b1.2 in
  let b3 := sample TestTasks (MAML.ways h) (2 * MAML.shots h) b2.2 in
  let learner := clone (MAML.fast_lr h) (data <$> MAML.parameters (t_net st)) in
  let run b := MAML.fast_adapt_run b learner cross_entropy (MAML.adaptation_steps h)
                 (MAML.shots h) (MAML.ways h) in
  exists r1 r2 r3,
    run b1.1 = Ok r1 /\ run b2.1 = Ok r2 /\ run b3.1 = Ok r3 /\
    st' = mkTasks (backward (valid_error r1) (t_net st)) b3.2
            (add_log (t_sums st) (mkTaskLog r1 r2 r3))
            (t_log st ++ [mkTaskLog r1 r2 r3]).
Proof.
  unfold MAML.task. cbn zeta.
  destruct (sample TrainTasks _ _ _) as [b1 w1].
  intros (r1 & Hr1 & Hrest)%bind_Ok. revert Hrest.
  rewrite backward_data_parameters.
  destruct (sample ValidTasks _ _ _) as [b2 w2].
  intros (r2 & Hr2 & Hrest)%bind_Ok. revert Hrest.
  destruct (sample TestTasks _ _ _) as [b3 w3].
  intros (r3 & Hr3 & [= <-])%bind_Ok.
  exists r1, r2, r3. cbn. auto.
Qed.

Lemma maml_task_step (h : MAML.Hyper) : task_step (MAML.task h).
Proof.
  intros i st st' (r1 & r2 & r3 & H1 & H2 & H3 & ->)%maml_task_inv.
  exists (mkTaskLog r1 r2 r3). cbn. repeat split; try reflexivity;
    eapply run_accuracy_maml; eassumption.
Qed.

(** ITD-BiO.py: the head is cloned for each call and the rows go through
    the backbone of the meta-model. *)
Lemma itd_task_inv (h : ITDBiO.Hyper) (i : nat) (st st' : Tasks) :
  ITDBiO.task h i st = Ok st' ->
  let b1 := sample TrainTasks (ITDBiO.ways h) (2 * ITDBiO.shots h) (t_world st) in
  let b2 := sample ValidTasks (ITDBiO.ways h) (2 * ITDBiO.shots h) b1.2 in
  let b3 := sample TestTasks (ITDBiO.ways h) (2 * ITDBiO.shots h) b2.2 in
  let learner := clone (ITDBiO.fast_lr h) (data <$> head (t_net st)) in
  let run b := ITDBiO.fast_adapt_run b learner
                 (features_forward (data <$> features (t_net st))) cross_entropy
                 (ITDBiO.reg_lambda h) (ITDBiO.adapt_steps h)
                 (ITDBiO.shots h) (ITDBiO.ways h) in
  exists r1 r2 r3,
    run b1.1 = Ok r1 /\ run b2.1 = Ok r2 /\ run b3.1 = Ok r3 /\
    st' = mkTasks (backward (valid_error r1) (t_net st)) b3.2
            (add_log (t_sums st) (mkTaskLog r1 r2 r3))
            (t_log st ++ [mkTaskLog r1 r2 r3]).
Proof.
  unfold ITDBiO.task. cbn zeta.
  destruct (sample TrainTasks _ _ _) as [b1 w1].
  intros (r1 & Hr1 & Hrest)%bind_Ok. revert Hrest.
  rewrite backward_data_features, backward_data_head.
  destruct (sample ValidTasks _ _ _) as [b2 w2].
  intros (r2 & Hr2 & Hrest)%bind_Ok. revert Hrest.
  destruct (sample TestTasks _ _ _) as [b3 w3].
  intros (r3 & Hr3 & [= <-])%bind_Ok.
  exists r1, r2, r3. cbn. auto.
Qed.

Lemma itd_task_step (h : ITDBiO.Hyper) : task_step (ITDBiO.task h).
Proof.
  intros i st st' (r1 & r2 & r3 & H1 & H2 & H3 & ->)%itd_task_inv.
  exists (mkTaskLog r1 r2 r3). cbn. repeat split; try reflexivity;
    eapply run_accuracy_itd; eassumption.
Qed.

(** The six running sums after the loop. *)
Lemma sums_after (s : Sums) (logs : list TaskLog) :
  let total f g := foldl fadd (f s) ((fun l => item (g l)) <$> logs) in
  foldl add_log s logs =
  mkSums (total meta_train_error (fun l => valid_error (train_run l)))
         (total meta_train_accuracy (fun l => valid_accuracy (train_run l)))
         (total meta_valid_error (fun l => valid_error (valid_run l)))
         (total meta_valid_accuracy (fun l => valid_accuracy (valid_run l)))
         (total meta_test_error (fun l => valid_error (test_run l)))
         (total meta_test_accuracy (fun l => valid_accuracy (test_run l))).
Proof.
  cbn zeta. revert s. induction logs as [|l logs IH]; intros s.
  - destruct s; reflexivity.
  - cbn [foldl fmap list_fmap]. rewrite IH. reflexivity.
Qed.

Lemma setitem_inv {A} (i : nat) (x : A) (a a' : list A) :
  setitem i x a = Ok a' -> (i < length a)%nat /\ a' = <[i:=x]> a.
Proof.
  unfold setitem. destruct (decide _) as [Hi|]; [|discriminate].
  intros [= <-]. auto.
Qed.

Lemma py_div_inv (x : Scalar) (n : Z) (y : Scalar) :
  py_div x n = Ok y -> n <> 0 /\ y = fdiv x n.
Proof.
  unfold py_div. destruct (decide _) as [|Hn]; [discriminate|].
  intros [= <-]. auto.
Qed.

Lemma print_metrics_inv (i : nat) (s : Sums) (B : Z) (out : list Printed) :
  print_metrics i s B = Ok out ->
  out = [Newline; PrintIteration i;
         PrintMetric "Meta Train Error" (fdiv (meta_train_error s) B);
         PrintMetric "Meta Train Accuracy" (fdiv (meta_train_accuracy s) B);
         PrintMetric "Meta Valid Error" (fdiv (meta_valid_error s) B);
         PrintMetric "Meta Valid Accuracy" (fdiv (meta_valid_accuracy s) B);
         PrintMetric "Meta Test Error" (fdiv (meta_test_error s) B);
         PrintMetric "Meta Test Accuracy" (fdiv (meta_test_accuracy s) B)].
Proof.
  unfold print_metrics.
  intros (a & [_ ->]%py_div_inv & (b & [_ ->]%py_div_inv & (c & [_ ->]%py_div_inv &
         (d & [_ ->]%py_div_inv & (e & [_ ->]%py_div_inv & (f & [_ ->]%py_div_inv &
         [= <-])%bind_Ok)%bind_Ok)%bind_Ok)%bind_Ok)%bind_Ok)%bind_Ok.
  reflexivity.
Qed.

Lemma print_metrics_ok (i : nat) (s : Sums) (B : Z) :
  B <> 0 -> succeeds (print_metrics i s B).
Proof.
  intros HB. unfold print_metrics, py_div. rewrite !decide_False by exact HB.
  eexists. reflexivity.
Qed.

End TaskLoop.

(** ** One outer iteration *)

Section Iteration.
Context `{Torch}.

Lemma maml_iteration_inv (h : MAML.Hyper) (t : Scalar) (i : nat) (st st' : Training) :
  MAML.iteration h t i st = Ok st' ->
  let B := MAML.meta_batch_size h in
  let net0 := MAML.with_parameters (net st) (zero_grad (MAML.parameters (net st))) in
  exists ts avg,
    for_each (py_range B) (MAML.task h) (mkTasks net0 (world st) zero_sums []) = Ok ts /\
    B <> 0 /\
    (i < length (training_accuracy st))%nat /\
    (i < length (test_accuracy st))%nat /\
    (i < length (running_time st))%nat /\
    average_grads B (MAML.parameters (t_net ts)) = Ok avg /\
    let stepped := adam_step (MAML.meta_lr h) avg (slots st) in
    let elapsed := fsub (time (t_world ts)).1 t in
    st' = mkTraining (MAML.with_parameters (t_net ts) stepped.1) stepped.2
            (time (t_world ts)).2
            (<[i := fdiv (meta_train_accuracy (t_sums ts)) B]> (training_accuracy st))
            (<[i := fdiv (meta_test_accuracy (t_sums ts)) B]> (test_accuracy st))
            (<[i := elapsed]> (running_time st))
            (stdout st ++
             [Newline; PrintIteration i;
              PrintMetric "Meta Train Error" (fdiv (meta_train_error (t_sums ts)) B);
              PrintMetric "Meta Train Accuracy" (fdiv (meta_train_accuracy (t_sums ts)) B);
              PrintMetric "Meta Valid Error" (fdiv (meta_valid_error (t_sums ts)) B);
              PrintMetric "Meta Valid Accuracy" (fdiv (meta_valid_accuracy (t_sums ts)) B);
              PrintMetric "Meta Test Error" (fdiv (meta_test_error (t_sums ts)) B);
              PrintMetric "Meta Test Accuracy" (fdiv (meta_test_accuracy (t_sums ts)) B)] ++
             [PrintMetric "total running time" elapsed])
            (history st ++ [t_log ts]).
Proof.
  unfold MAML.iteration. cbn zeta.
  intros (ts & Hts & Hrest)%bind_Ok.
  apply bind_Ok in Hrest as (x & [HB ->]%py_div_inv & Hrest).
  apply bind_Ok in Hrest as (tr & [Hi1 ->]%setitem_inv & Hrest).
  apply bind_Ok in Hrest as (y & [_ ->]%py_div_inv & Hrest).
  apply bind_Ok in Hrest as (te & [Hi2 ->]%setitem_inv & Hrest).
  apply bind_Ok in Hrest as (out & ->%print_metrics_inv & Hrest).
  apply bind_Ok in Hrest as (avg & Havg & Hrest).
  destruct (adam_step _ avg _) as [ps ss] eqn:Hstep.
  destruct (time (t_world ts)) as [t_end w] eqn:Htime.
  apply bind_Ok in Hrest as (rt & [Hi3 ->]%setitem_inv & [= <-]).
  exists ts, avg. rewrite Hstep, Htime. cbn.
  split; [exact Hts|]. split; [exact HB|]. split; [exact Hi1|]. split; [exact Hi2|].
  split; [exact Hi3|]. split; [exact Havg|]. reflexivity.
Qed.

Lemma itd_iteration_inv (h : ITDBiO.Hyper) (t : Scalar) (i : nat) (st st' : Training) :
  ITDBiO.iteration h t i st = Ok st' ->
  let B := ITDBiO.meta_bsz h in
  let net0 := mkNet (zero_grad (features (net st))) (head (net st)) in
  exists ts avg,
    for_each (py_range B) (ITDBiO.task h) (mkTasks net0 (world st) zero_sums []) = Ok ts /\
    B <> 0 /\
    (i < length (training_accuracy st))%nat /\
    (i < length (test_accuracy st))%nat /\
    (i < length (running_time st))%nat /\
    average_grads B (features (t_net ts)) = Ok avg /\
    let stepped := adam_step (ITDBiO.meta_lr h) avg (slots st) in
    let elapsed := fsub (time (t_world ts)).1 t in
    st' = mkTraining (mkNet stepped.1 (head (t_net ts))) stepped.2
            (time (t_world ts)).2
            (<[i := fdiv (meta_train_accuracy (t_sums ts)) B]> (training_accuracy st))
            (<[i := fdiv (meta_test_accuracy (t_sums ts)) B]> (test_accuracy st))
            (<[i := elapsed]> (running_time st))
            (stdout st ++
             [Newline; PrintIteration i;
              PrintMetric "Meta Train Error" (fdiv (meta_train_error (t_sums ts)) B);
              PrintMetric "Meta Train Accuracy" (fdiv (meta_train_accuracy (t_sums ts)) B);
              PrintMetric "Meta Valid Error" (fdiv (meta_valid_error (t_sums ts)) B);
              PrintMetric "Meta Valid Accuracy" (fdiv (meta_valid_accuracy (t_sums ts)) B);
              PrintMetric "Meta Test Error" (fdiv (meta_test_error (t_sums ts)) B);
              PrintMetric "Meta Test Accuracy" (fdiv (meta_test_accuracy (t_sums ts)) B)] ++
             [PrintMetric "time per iteration" elapsed])
            (history st ++ [t_log ts]).
Proof.
  unfold ITDBiO.iteration. cbn zeta.
  intros (ts & Hts & Hrest)%bind_Ok.
  apply bind_Ok in Hrest as (x & [HB ->]%py_div_inv & Hrest).
  apply bind_Ok in Hrest as (tr & [Hi1 ->]%setitem_inv & Hrest).
  apply bind_Ok in Hrest as (y & [_ ->]%py_div_inv & Hrest).
  apply bind_Ok in Hrest as (te & [Hi2 ->]%setitem_inv & Hrest).
  apply bind_Ok in Hrest as (out & ->%print_metrics_inv & Hrest).
  apply bind_Ok in Hrest as (avg & Havg & Hrest).
  destruct (adam_step _ avg _) as [ps ss] eqn:Hstep.
  destruct (time (t_world ts)) as [t_end w] eqn:Htime.
  apply bind_Ok in Hrest as (rt & [Hi3 ->]%setitem_inv & [= <-]).
  exists ts, avg. rewrite Hstep, Htime. cbn.
  split; [exact Hts|]. split; [exact HB|]. split; [exact Hi1|]. split; [exact Hi2|].
  split; [exact Hi3|]. split; [exact Havg|]. reflexivity.
Qed.

Lemma zero_grad_lookup (ps : list Param) (k : nat) :
  zero_grad ps !! k = (fun p => mkParam (data p) None) <$> ps !! k.
Proof. unfold zero_grad. apply list_lookup_fmap. Qed.

Lemma with_parameters_zero_grad (n : Net) :
  MAML.with_parameters n (zero_grad (MAML.parameters n)) =
  mkNet (zero_grad (features n)) (zero_grad (head n)).
Proof.
  unfold MAML.with_parameters, MAML.parameters, zero_grad.
  rewrite fmap_app.
  rewrite take_app_length' by (rewrite length_fmap; reflexivity).
  rewrite drop_app_length' by (rewrite length_fmap; reflexivity).
  reflexivity.
Qed.

End Iteration.

Section IterationFacts.
Context `{Torch}.

Lemma after_tasks_data_features n logs :
  data <$> features (after_tasks n logs) = data <$> features n.
Proof.
  revert n. induction logs as [|l logs IH]; intros n; cbn; [reflexivity|].
  unfold after_tasks in IH. rewrite IH. apply backward_data_features.
Qed.

Lemma average_grads_data (B : Z) (ps avg : list Param) :
  average_grads B ps = Ok avg -> data <$> avg = data <$> ps.
Proof.
  intros [Hlen Hlook]%average_grads_inv. apply list_eq. intros k.
  rewrite !list_lookup_fmap. destruct (ps !! k) as [p|] eqn:Hp.
  - destruct (Hlook k p Hp) as (g & _ & _ & ->). reflexivity.
  - apply lookup_ge_None in Hp. rewrite lookup_ge_None_2 by lia. reflexivity.
Qed.

(** The task loop of maml.py, started from cleared gradients. *)
Lemma maml_tasks (h : MAML.Hyper) (n0 : Net) (w : World) (ts : Tasks) :
  for_each (py_range (MAML.meta_batch_size h)) (MAML.task h)
    (mkTasks n0 w zero_sums []) = Ok ts ->
  length (t_log ts) = Z.to_nat (MAML.meta_batch_size h) /\
  t_net ts = after_tasks n0 (t_log ts) /\
  t_sums ts = foldl add_log zero_sums (t_log ts) /\
  Forall accuracies_of_log (t_log ts).
Proof.
  intros Hts. destruct (tasks_loop _ _ _ _ _ (maml_task_step h) Hts)
    as (logs & Hlen & Hlog & Hnet & Hsums & Hacc).
  cbn in Hlog, Hnet, Hsums. subst logs. auto.
Qed.

Lemma itd_tasks (h : ITDBiO.Hyper) (n0 : Net) (w : World) (ts : Tasks) :
  for_each (py_range (ITDBiO.meta_bsz h)) (ITDBiO.task h)
    (mkTasks n0 w zero_sums []) = Ok ts ->
  length (t_log ts) = Z.to_nat (ITDBiO.meta_bsz h) /\
  t_net ts = after_tasks n0 (t_log ts) /\
  t_sums ts = foldl add_log zero_sums (t_log ts) /\
  Forall accuracies_of_log (t_log ts).
Proof.
  intros Hts. destruct (tasks_loop _ _ _ _ _ (itd_task_step h) Hts)
    as (logs & Hlen & Hlog & Hnet & Hsums & Hacc).
  cbn in Hlog, Hnet, Hsums. subst logs. auto.
Qed.

Lemma maml_records (h : MAML.Hyper) (t : Scalar) :
  (0 <= MAML.meta_batch_size h) ->
  records (MAML.meta_batch_size h) t (MAML.iteration h t).
Proof.
  intros HB0 i st st' Hit.
  destruct (maml_iteration_inv h t i st st' Hit)
    as (ts & avg & Hts & HB & Hi1 & Hi2 & Hi3 & Havg & ->).
  destruct (maml_tasks _ _ _ _ Hts) as (Hlen & Hnet & Hsums & Hacc).
  exists (t_log ts), (t_world ts). cbn.
  rewrite Hsums, sums_after. cbn.
  unfold len, mean. repeat split; try assumption; try lia.
Qed.

Lemma itd_records (h : ITDBiO.Hyper) (t : Scalar) :
  (0 <= ITDBiO.meta_bsz h) ->
  records (ITDBiO.meta_bsz h) t (ITDBiO.iteration h t).
Proof.
  intros HB0 i st st' Hit.
  destruct (itd_iteration_inv h t i st st' Hit)
    as (ts & avg & Hts & HB & Hi1 & Hi2 & Hi3 & Havg & ->).
  destruct (itd_tasks _ _ _ _ Hts) as (Hlen & Hnet & Hsums & Hacc).
  exists (t_log ts), (t_world ts). cbn.
  rewrite Hsums, sums_after. cbn.
  unfold len, mean. repeat split; try assumption; try lia.
Qed.

End IterationFacts.

Section OuterLoopTheorems.
Context `{Torch}.

Lemma adam_step_grads (lr : Scalar) (ps : list Param) (ss : list OptSlot) :
  grad <$> (adam_step lr ps ss).1 = grad <$> ps.
Proof.
  destruct (adam_step_spec lr ps ss) as (Hlen & _ & Hlook).
  apply list_eq. intros k. rewrite !list_lookup_fmap.
  destruct (ps !! k) as [p|] eqn:Hp.
  - destruct (Hlook k p Hp) as (p' & -> & Hg & _). cbn. congruence.
  - apply lookup_ge_None in Hp. rewrite lookup_ge_None_2 by lia. reflexivity.
Qed.

(** C9. In a task of the meta batch the three calls of [fast_adapt] get
    clones of the parameters the task started with; the net afterwards is
    the net after the backward pass of the meta-training error alone, so
    the validation and test calls change neither parameters nor
    gradients; their errors and accuracies go into the validation and test
    sums only, which [iteration] prints and, for the test accuracy,
    stores.  Over an iteration the gradients are those of the
    meta-training errors. *)
Theorem only_training_error_is_backpropagated
    (hm : MAML.Hyper) (hi : ITDBiO.Hyper) (t : Scalar) (i : nat) :
  (forall st st', MAML.task hm i st = Ok st' ->
     let theta := data <$> MAML.parameters (t_net st) in
     let run b := MAML.fast_adapt_run b (clone (MAML.fast_lr hm) theta) cross_entropy
                    (MAML.adaptation_steps hm) (MAML.shots hm) (MAML.ways hm) in
     exists b1 b2 b3 r1 r2 r3,
       run b1 = Ok r1 /\ run b2 = Ok r2 /\ run b3 = Ok r3 /\
       t_net st' = backward (valid_error r1) (t_net st) /\
       data <$> MAML.parameters (t_net st') = theta /\
       t_sums st' = add_log (t_sums st) (mkTaskLog r1 r2 r3) /\
       t_log st' = t_log st ++ [mkTaskLog r1 r2 r3]) /\
  (forall st st', ITDBiO.task hi i st = Ok st' ->
     let run b := ITDBiO.fast_adapt_run b
                    (clone (ITDBiO.fast_lr hi) (data <$> head (t_net st)))
                    (features_forward (data <$> features (t_net st))) cross_entropy
                    (ITDBiO.reg_lambda hi) (ITDBiO.adapt_steps hi)
                    (ITDBiO.shots hi) (ITDBiO.ways hi) in
     exists b1 b2 b3 r1 r2 r3,
       run b1 = Ok r1 /\ run b2 = Ok r2 /\ run b3 = Ok r3 /\
       t_net st' = backward (valid_error r1) (t_net st) /\
       data <$> features (t_net st') = data <$> features (t_net st) /\
       data <$> head (t_net st') = data <$> head (t_net st) /\
       t_sums st' = add_log (t_sums st) (mkTaskLog r1 r2 r3) /\
       t_log st' = t_log st ++ [mkTaskLog r1 r2 r3]) /\
  (forall st st', MAML.iteration hm t i st = Ok st' ->
     let B := MAML.meta_batch_size hm in
     exists logs before avg,
       history st' = history st ++ [logs] /\
       before = after_tasks (mkNet (zero_grad (features (net st)))
                                   (zero_grad (head (net st)))) logs /\
       average_grads B (MAML.parameters before) = Ok avg /\
       grad <$> MAML.parameters (net st') = grad <$> avg /\
       test_accuracy st' =
         <[i := mean ((fun l => item (valid_accuracy (test_run l))) <$> logs) B]>
           (test_accuracy st) /\
       training_accuracy st' =
         <[i := mean ((fun l => item (valid_accuracy (train_run l))) <$> logs) B]>
           (training_accuracy st) /\
       PrintMetric "Meta Valid Error"
         (mean ((fun l => item (valid_error (valid_run l))) <$> logs) B) ∈ stdout st' /\
       PrintMetric "Meta Valid Accuracy"
         (mean ((fun l => item (valid_accuracy (valid_run l))) <$> logs) B) ∈ stdout st' /\
       PrintMetric "Meta Test Error"
         (mean ((fun l => item (valid_error (test_run l))) <$> logs) B) ∈ stdout st' /\
       PrintMetric "Meta Test Accuracy"
         (mean ((fun l => item (valid_accuracy (test_run l))) <$> logs) B) ∈ stdout st') /\
  (forall st st', ITDBiO.iteration hi t i st = Ok st' ->
     let B := ITDBiO.meta_bsz hi in
     exists logs before avg,
       history st' = history st ++ [logs] /\
       before = after_tasks (mkNet (zero_grad (features (net st))) (head (net st))) logs /\
       average_grads B (features before) = Ok avg /\
       grad <$> features (net st') = grad <$> avg /\
       head (net st') = head before /\
       test_accuracy st' =
         <[i := mean ((fun l => item (valid_accuracy (test_run l))) <$> logs) B]>
           (test_accuracy st) /\
       training_accuracy st' =
         <[i := mean ((fun l => item (valid_accuracy (train_run l))) <$> logs) B]>
           (training_accuracy st) /\
       PrintMetric "Meta Valid Error"
         (mean ((fun l => item (valid_error (valid_run l))) <$> logs) B) ∈ stdout st' /\
       PrintMetric "Meta Valid Accuracy"
         (mean ((fun l => item (valid_accuracy (valid_run l))) <$> logs) B) ∈ stdout st' /\
       PrintMetric "Meta Test Error"
         (mean ((fun l => item (valid_error (test_run l))) <$> logs) B) ∈ stdout st' /\
       PrintMetric "Meta Test Accuracy"
         (mean ((fun l => item (valid_accuracy (test_run l))) <$> logs) B) ∈ stdout st').
Proof.
  split; [|split; [|split]].
  - intros st st' Hst. cbn zeta.
    destruct (maml_task_inv hm i st st' Hst) as (r1 & r2 & r3 & H1 & H2 & H3 & ->).
    eexists _, _, _, r1, r2, r3. cbn.
    split; [exact H1|]. split; [exact H2|]. split; [exact H3|].
    split; [reflexivity|]. split; [apply backward_data_parameters|]. auto.
  - intros st st' Hst. cbn zeta.
    destruct (itd_task_inv hi i st st' Hst) as (r1 & r2 & r3 & H1 & H2 & H3 & ->).
    eexists _, _, _, r1, r2, r3. cbn.
    split; [exact H1|]. split; [exact H2|]. split; [exact H3|].
    split; [reflexivity|]. split; [apply backward_data_features|].
    split; [apply backward_data_head|]. auto.
  - intros st st' Hit. cbn zeta.
    destruct (maml_iteration_inv hm t i st st' Hit)
      as (ts & avg & Hts & HB & Hi1 & Hi2 & Hi3 & Havg & ->).
    rewrite with_parameters_zero_grad in Hts.
    destruct (maml_tasks _ _ _ _ Hts) as (Hlen & Hnet & Hsums & Hacc).
    exists (t_log ts), (t_net ts), avg.
    cbn [net history test_accuracy training_accuracy stdout].
    rewrite with_parameters_parameters, adam_step_grads.
    rewrite Hsums, sums_after.
    cbn [meta_train_error meta_train_accuracy meta_valid_error meta_valid_accuracy
         meta_test_error meta_test_accuracy zero_sums].
    unfold mean.
    split; [reflexivity|]. split; [exact Hnet|]. split; [exact Havg|].
    split; [reflexivity|]. split; [reflexivity|]. split; [reflexivity|].
    repeat split; apply elem_of_app; right; apply elem_of_app; left; printed_here.
  - intros st st' Hit. cbn zeta.
    destruct (itd_iteration_inv hi t i st st' Hit)
      as (ts & avg & Hts & HB & Hi1 & Hi2 & Hi3 & Havg & ->).
    destruct (itd_tasks _ _ _ _ Hts) as (Hlen & Hnet & Hsums & Hacc).
    exists (t_log ts), (t_net ts), avg.
    cbn [net history test_accuracy training_accuracy stdout features head].
    rewrite adam_step_grads.
    rewrite Hsums, sums_after.
    cbn [meta_train_error meta_train_accuracy meta_valid_error meta_valid_accuracy
         meta_test_error meta_test_accuracy zero_sums].
    unfold mean.
    split; [reflexivity|]. split; [exact Hnet|]. split; [exact Havg|].
    split; [reflexivity|]. split; [reflexivity|]. split; [reflexivity|].
    split; [reflexivity|].
    repeat split; apply elem_of_app; right; apply elem_of_app; left; printed_here.
Qed.

End OuterLoopTheorems.

Section ParameterUpdates.
Context `{Torch}.

Lemma after_tasks_head n logs k :
  head (after_tasks n logs) !! k =
  (fun p => mkParam (data p) (foldl add_grad (grad p) (contributions logs (InHead k))))
  <$> head n !! k.
Proof.
  unfold contributions.
  revert n. induction logs as [|l logs IH]; intros n; cbn [after_tasks foldl fmap list_fmap].
  - destruct (head n !! k) as [[v g]|]; reflexivity.
  - unfold after_tasks in IH. rewrite IH, backward_head.
    destruct (head n !! k) as [p|]; [|reflexivity].
    cbn. rewrite accumulate_spec. reflexivity.
Qed.

(** Averaging, then Adam: what becomes of the k-th parameter. *)
Lemma step_on_averaged (lr : Scalar) (B : Z) (ps avg : list Param) (ss : list OptSlot)
    (k : nat) (q : Param) :
  average_grads B ps = Ok avg -> ps !! k = Some q ->
  exists g p',
    grad q = Some g /\
    (adam_step lr avg ss).1 !! k = Some p' /\
    grad p' = Some (tscale (fdiv (float_of_literal "1.0") B) g) /\
    match ss !! k with
    | Some s =>
        data p' = (adam lr s (data q) (tscale (fdiv (float_of_literal "1.0") B) g)).1 /\
        (adam_step lr avg ss).2 !! k =
          Some (adam lr s (data q) (tscale (fdiv (float_of_literal "1.0") B) g)).2
    | None => data p' = data q
    end.
Proof.
  intros [_ Havg]%average_grads_inv Hq.
  destruct (Havg k q Hq) as (g & Hg & _ & Hk).
  destruct (adam_step_spec lr avg ss) as (_ & _ & Hstep).
  destruct (Hstep k _ Hk) as (p' & Hp' & Hgrad & Hdata). cbn in Hgrad, Hdata.
  exists g, p'. split; [exact Hg|]. split; [exact Hp'|]. split; [exact Hgrad|].
  destruct (ss !! k); exact Hdata.
Qed.

Lemma grad_sum_nonempty (gs : list (option Tensor)) (g : Tensor) :
  grad_sum gs = Some g -> gs <> [].
Proof. intros Hg ->. discriminate. Qed.

(** maml.py: every element of [maml.parameters()] after an iteration. *)
Lemma maml_iteration_params (h : MAML.Hyper) (t : Scalar) (i : nat) (st st' : Training) :
  MAML.iteration h t i st = Ok st' ->
  let B := MAML.meta_batch_size h in
  let c := fdiv (float_of_literal "1.0") B in
  exists logs,
    history st' = history st ++ [logs] /\
    length logs = Z.to_nat B /\
    length (features (net st')) = length (features (net st)) /\
    length (head (net st')) = length (head (net st)) /\
    forall k p, MAML.parameters (net st) !! k = Some p ->
      1 <= B /\
      exists total p',
        grad_sum (contributions logs (ref_of (net st) k)) = Some total /\
        MAML.parameters (net st') !! k = Some p' /\
        grad p' = Some (tscale c total) /\
        match slots st !! k with
        | Some s =>
            data p' = (adam (MAML.meta_lr h) s (data p) (tscale c total)).1 /\
            slots st' !! k = Some (adam (MAML.meta_lr h) s (data p) (tscale c total)).2
        | None => data p' = data p
        end.
Proof.
  intros Hit. cbn zeta.
  destruct (maml_iteration_inv h t i st st' Hit)
    as (ts & avg & Hts & HB & Hi1 & Hi2 & Hi3 & Havg & ->).
  rewrite with_parameters_zero_grad in Hts.
  destruct (maml_tasks _ _ _ _ Hts) as (Hlen & Hnet & Hsums & Hacc).
  exists (t_log ts). cbn [net history slots].
  assert (Hstepped : length (adam_step (MAML.meta_lr h) avg (slots st)).1 =
                     length (MAML.parameters (t_net ts))).
  { destruct (adam_step_spec (MAML.meta_lr h) avg (slots st)) as (-> & _).
    apply average_grads_inv in Havg as [-> _]. reflexivity. }
  assert (Hf : length (features (t_net ts)) = length (features (net st))).
  { rewrite Hnet, after_tasks_length_features. cbn. unfold zero_grad.
    apply length_fmap. }
  assert (Hh : length (head (t_net ts)) = length (head (net st))).
  { rewrite Hnet, after_tasks_length_head. cbn. unfold zero_grad.
    apply length_fmap. }
  split; [reflexivity|]. split; [exact Hlen|]. split.
  { rewrite with_parameters_length_features by exact Hstepped. exact Hf. }
  split.
  { rewrite with_parameters_length_head by exact Hstepped. exact Hh. }
  rewrite with_parameters_parameters.
  intros k p Hp.
  assert (Hq : MAML.parameters (t_net ts) !! k =
               Some (mkParam (data p)
                       (grad_sum (contributions (t_log ts) (ref_of (net st) k))))).
  { rewrite Hnet, after_tasks_parameters.
    replace (MAML.parameters _ !! k) with (Some (mkParam (data p) None)).
    - cbn. f_equal. f_equal. unfold grad_sum, contributions, ref_of. cbn.
      unfold zero_grad. rewrite length_fmap. reflexivity.
    - unfold MAML.parameters in *. cbn. unfold zero_grad. rewrite <- fmap_app.
      rewrite list_lookup_fmap, Hp. reflexivity. }
  destruct (step_on_averaged (MAML.meta_lr h) _ _ _ (slots st) k _ Havg Hq)
    as (g & p' & Hg & Hp' & Hgrad & Hdata).
  cbn in Hg, Hdata. split.
  { apply grad_sum_nonempty in Hg. unfold contributions in Hg.
    destruct (t_log ts); [contradiction|]. cbn in Hlen. lia. }
  exists g, p'. auto.
Qed.

(** ITD-BiO.py: the backbone's parameters are stepped, the head's are
    not. *)
Lemma itd_iteration_params (h : ITDBiO.Hyper) (t : Scalar) (i : nat) (st st' : Training) :
  ITDBiO.iteration h t i st = Ok st' ->
  let B := ITDBiO.meta_bsz h in
  let c := fdiv (float_of_literal "1.0") B in
  exists logs,
    history st' = history st ++ [logs] /\
    length logs = Z.to_nat B /\
    length (features (net st')) = length (features (net st)) /\
    length (head (net st')) = length (head (net st)) /\
    (forall k p, features (net st) !! k = Some p ->
      1 <= B /\
      exists total p',
        grad_sum (contributions logs (InFeatures k)) = Some total /\
        features (net st') !! k = Some p' /\
        grad p' = Some (tscale c total) /\
        match slots st !! k with
        | Some s =>
            data p' = (adam (ITDBiO.meta_lr h) s (data p) (tscale c total)).1 /\
            slots st' !! k = Some (adam (ITDBiO.meta_lr h) s (data p) (tscale c total)).2
        | None => data p' = data p
        end) /\
    (forall k p, head (net st) !! k = Some p ->
       head (net st') !! k =
         Some (mkParam (data p) (foldl add_grad (grad p) (contributions logs (InHead k))))).
Proof.
  intros Hit. cbn zeta.
  destruct (itd_iteration_inv h t i st st' Hit)
    as (ts & avg & Hts & HB & Hi1 & Hi2 & Hi3 & Havg & ->).
  destruct (itd_tasks _ _ _ _ Hts) as (Hlen & Hnet & Hsums & Hacc).
  exists (t_log ts). cbn [net history slots features head].
  split; [reflexivity|]. split; [exact Hlen|]. split.
  { destruct (adam_step_spec (ITDBiO.meta_lr h) avg (slots st)) as (-> & _).
    apply average_grads_inv in Havg as [-> _]. rewrite Hnet.
    rewrite after_tasks_length_features. cbn.
    unfold zero_grad. rewrite !length_fmap. reflexivity. }
  split.
  { rewrite Hnet, after_tasks_length_head. reflexivity. }
  split.
  - intros k p Hp.
    assert (Hq : features (t_net ts) !! k =
                 Some (mkParam (data p) (grad_sum (contributions (t_log ts) (InFeatures k))))).
    { rewrite Hnet, after_tasks_features. cbn [features].
      rewrite zero_grad_lookup, Hp. reflexivity. }
    destruct (step_on_averaged (ITDBiO.meta_lr h) _ _ _ (slots st) k _ Havg Hq)
      as (g & p' & Hg & Hp' & Hgrad & Hdata).
    cbn in Hg, Hdata. split.
    { apply grad_sum_nonempty in Hg. unfold contributions in Hg.
      destruct (t_log ts); [contradiction|]. cbn in Hlen. lia. }
    exists g, p'. auto.
  - intros k p Hp. rewrite Hnet, after_tasks_head. cbn [head]. rewrite Hp. reflexivity.
Qed.

(** The step, parameter by parameter: Adam on the value, from the gradient
    the parameter holds, which stays where it is. *)
Lemma step_exact (lr : Scalar) (B : Z) (ps avg : list Param) (ss : list OptSlot)
    (k : nat) (q : Param) :
  average_grads B ps = Ok avg -> length ss = length avg -> avg !! k = Some q ->
  exists g s,
    grad q = Some g /\ ss !! k = Some s /\
    (adam_step lr avg ss).1 !! k = Some (mkParam (adam lr s (data q) g).1 (Some g)) /\
    (adam_step lr avg ss).2 !! k = Some (adam lr s (data q) g).2.
Proof.
  intros [Hlen Havg]%average_grads_inv Hss Hq.
  pose proof (lookup_lt_Some _ _ _ Hq) as Hk.
  destruct (lookup_lt_is_Some_2 ps k) as [p Hp]; [lia|].
  destruct (Havg k p Hp) as (g0 & _ & _ & Hq'). rewrite Hq in Hq'. injection Hq' as ->.
  destruct (lookup_lt_is_Some_2 ss k) as [s Hs]; [lia|].
  destruct (adam_step_spec lr avg ss) as (_ & _ & Hstep).
  destruct (Hstep k _ Hq) as ([v g'] & Hp' & Hg & Hd). cbn in Hg, Hd.
  rewrite Hs in Hd. destruct Hd as [Hv Hs']. subst v g'.
  eexists _, s. split; [reflexivity|]. split; [exact Hs|]. split; [exact Hp'|exact Hs'].
Qed.

Lemma parameters_features (n : Net) (k : nat) :
  (k < length (features n))%nat -> MAML.parameters n !! k = features n !! k.
Proof. intros Hk. unfold MAML.parameters. apply lookup_app_l. exact Hk. Qed.

Lemma parameters_head (n : Net) (k : nat) :
  MAML.parameters n !! (length (features n) + k)%nat = head n !! k.
Proof.
  unfold MAML.parameters. rewrite lookup_app_r by lia. f_equal. lia.
Qed.

Lemma ref_of_features (n : Net) (k : nat) :
  (k < length (features n))%nat -> ref_of n k = InFeatures k.
Proof.
  intros Hk. unfold ref_of. destruct (Nat.ltb_spec k (length (features n))); [reflexivity|lia].
Qed.

Lemma ref_of_head (n : Net) (k : nat) :
  ref_of n (length (features n) + k) = InHead k.
Proof.
  unfold ref_of.
  destruct (Nat.ltb_spec (length (features n) + k) (length (features n))); [lia|].
  f_equal. lia.
Qed.

(** maml.py: the meta-model when [opt.step()] is called, and what the step
    makes of it. *)
Lemma maml_iteration_step (h : MAML.Hyper) (t : Scalar) (i : nat) (st st' : Training) :
  MAML.iteration h t i st = Ok st' ->
  length (slots st) = length (MAML.parameters (net st)) ->
  let B := MAML.meta_batch_size h in
  let c := fdiv (float_of_literal "1.0") B in
  let lr := MAML.meta_lr h in
  exists logs pre,
    history st' = history st ++ [logs] /\
    average_grads B
      (MAML.parameters
         (after_tasks (MAML.with_parameters (net st) (zero_grad (MAML.parameters (net st))))
                      logs)) = Ok (MAML.parameters pre) /\
    length (features pre) = length (features (net st)) /\
    length (head pre) = length (head (net st)) /\
    (forall k p, MAML.parameters (net st) !! k = Some p ->
       exists total,
         grad_sum (contributions logs (ref_of (net st) k)) = Some total /\
         MAML.parameters pre !! k = Some (mkParam (data p) (Some (tscale c total)))) /\
    length (features (net st')) = length (features (net st)) /\
    length (head (net st')) = length (head (net st)) /\
    length (slots st') = length (slots st) /\
    (forall k q, MAML.parameters pre !! k = Some q ->
       exists g s,
         grad q = Some g /\ slots st !! k = Some s /\
         MAML.parameters (net st') !! k = Some (mkParam (adam lr s (data q) g).1 (Some g)) /\
         slots st' !! k = Some (adam lr s (data q) g).2).
Proof.
  intros Hit Hslots. cbn zeta.
  destruct (maml_iteration_inv h t i st st' Hit)
    as (ts & avg & Hts & HB & Hi1 & Hi2 & Hi3 & Havg & ->).
  destruct (maml_tasks _ _ _ _ Hts) as (Hlen & Hnet & Hsums & Hacc).
  exists (t_log ts), (MAML.with_parameters (t_net ts) avg). cbn [net history slots].
  rewrite !with_parameters_parameters.
  pose proof (average_grads_inv _ _ _ Havg) as [Hlavg Hlook].
  destruct (adam_step_spec (MAML.meta_lr h) avg (slots st)) as (Hl1 & Hl2 & _).
  assert (Hf : length (features (t_net ts)) = length (features (net st))).
  { rewrite Hnet, after_tasks_length_features, with_parameters_zero_grad. cbn.
    unfold zero_grad. apply length_fmap. }
  assert (Hh : length (head (t_net ts)) = length (head (net st))).
  { rewrite Hnet, after_tasks_length_head, with_parameters_zero_grad. cbn.
    unfold zero_grad. apply length_fmap. }
  split; [reflexivity|]. split; [rewrite <- Hnet; exact Havg|].
  split; [rewrite with_parameters_length_features by exact Hlavg; exact Hf|].
  split; [rewrite with_parameters_length_head by exact Hlavg; exact Hh|].
  split.
  { intros k p Hp.
    assert (Hq : MAML.parameters (t_net ts) !! k =
                 Some (mkParam (data p)
                         (grad_sum (contributions (t_log ts) (ref_of (net st) k))))).
    { rewrite Hnet, with_parameters_zero_grad, after_tasks_parameters.
      replace (MAML.parameters _ !! k) with (Some (mkParam (data p) None)).
      - cbn. f_equal. f_equal. unfold grad_sum, contributions, ref_of. cbn.
        unfold zero_grad. rewrite length_fmap. reflexivity.
      - unfold MAML.parameters in *. cbn. unfold zero_grad. rewrite <- fmap_app.
        rewrite list_lookup_fmap, Hp. reflexivity. }
    destruct (Hlook k _ Hq) as (g & Hg & _ & Hk). cbn in Hg, Hk.
    exists g. split; [exact Hg|exact Hk]. }
  split; [rewrite with_parameters_length_features by congruence; exact Hf|].
  split; [rewrite with_parameters_length_head by congruence; exact Hh|].
  split; [exact Hl2|].
  intros k q Hq.
  apply (step_exact (MAML.meta_lr h) _ _ _ (slots st) k q Havg); [|exact Hq].
  rewrite Hlavg. unfold MAML.parameters in *. rewrite length_app in *. lia.
Qed.

(** ITD-BiO.py: the same for the backbone; the head is not the
    optimizer's. *)
Lemma itd_iteration_step (h : ITDBiO.Hyper) (t : Scalar) (i : nat) (st st' : Training) :
  ITDBiO.iteration h t i st = Ok st' ->
  length (slots st) = length (features (net st)) ->
  let B := ITDBiO.meta_bsz h in
  let c := fdiv (float_of_literal "1.0") B in
  let lr := ITDBiO.meta_lr h in
  let started := mkNet (zero_grad (features (net st))) (head (net st)) in
  exists logs pre,
    history st' = history st ++ [logs] /\
    average_grads B (features (after_tasks started logs)) = Ok (features pre) /\
    head pre = head (after_tasks started logs) /\
    length (features pre) = length (features (net st)) /\
    (forall k p, features (net st) !! k = Some p ->
       exists total,
         grad_sum (contributions logs (InFeatures k)) = Some total /\
         features pre !! k = Some (mkParam (data p) (Some (tscale c total)))) /\
    (forall k p, head (net st) !! k = Some p ->
       head pre !! k =
         Some (mkParam (data p) (foldl add_grad (grad p) (contributions logs (InHead k))))) /\
    length (features (net st')) = length (features (net st)) /\
    length (slots st') = length (slots st) /\
    (forall k q, features pre !! k = Some q ->
       exists g s,
         grad q = Some g /\ slots st !! k = Some s /\
         features (net st') !! k = Some (mkParam (adam lr s (data q) g).1 (Some g)) /\
         slots st' !! k = Some (adam lr s (data q) g).2) /\
    head (net st') = head pre.
Proof.
  intros Hit Hslots. cbn zeta.
  destruct (itd_iteration_inv h t i st st' Hit)
    as (ts & avg & Hts & HB & Hi1 & Hi2 & Hi3 & Havg & ->).
  destruct (itd_tasks _ _ _ _ Hts) as (Hlen & Hnet & Hsums & Hacc).
  exists (t_log ts), (mkNet avg (head (t_net ts))). cbn [net history slots features head].
  pose proof (average_grads_inv _ _ _ Havg) as [Hlavg Hlook].
  destruct (adam_step_spec (ITDBiO.meta_lr h) avg (slots st)) as (Hl1 & Hl2 & _).
  assert (Hf : length (features (t_net ts)) = length (features (net st))).
  { rewrite Hnet, after_tasks_length_features. cbn. unfold zero_grad. apply length_fmap. }
  split; [reflexivity|]. split; [rewrite <- Hnet; exact Havg|].
  split; [rewrite <- Hnet; reflexivity|]. split; [congruence|].
  split.
  { intros k p Hp.
    assert (Hq : features (t_net ts) !! k =
                 Some (mkParam (data p) (grad_sum (contributions (t_log ts) (InFeatures k))))).
    { rewrite Hnet, after_tasks_features. cbn [features].
      rewrite zero_grad_lookup, Hp. reflexivity. }
    destruct (Hlook k _ Hq) as (g & Hg & _ & Hk). cbn in Hg, Hk.
    exists g. split; [exact Hg|exact Hk]. }
  split.
  { intros k p Hp. rewrite Hnet, after_tasks_head. cbn [head]. rewrite Hp. reflexivity. }
  split; [congruence|]. split; [exact Hl2|].
  split; [|reflexivity].
  intros k q Hq.
  apply (step_exact (ITDBiO.meta_lr h) _ _ _ (slots st) k q Havg); [congruence|exact Hq].
Qed.

End ParameterUpdates.

Section OuterStepTheorems.
Context `{Torch}.

(** C4. At an outer iteration the gradient of every parameter the
    optimizer holds is, when the step is taken, the sum of the gradients
    of the meta-training errors of that iteration's tasks multiplied by
    [1.0 / meta_batch_size], and the meta batch has [meta_batch_size] >= 1
    tasks: the step applies the mean of the per-task gradients.  In
    maml.py these are all parameters, in ITD-BiO.py the backbone's. *)
Theorem gradients_are_averaged (hm : MAML.Hyper) (hi : ITDBiO.Hyper) (t : Scalar) (i : nat)
    (st st' : Training) :
  (MAML.iteration hm t i st = Ok st' ->
   let B := MAML.meta_batch_size hm in
   let c := fdiv (float_of_literal "1.0") B in
   exists logs,
     history st' = history st ++ [logs] /\
     forall k p, MAML.parameters (net st) !! k = Some p ->
       1 <= B /\ len logs = B /\
       exists total p',
         grad_sum (contributions logs (ref_of (net st) k)) = Some total /\
         (forall g gs, contributions logs (ref_of (net st) k) = Some <$> g :: gs ->
            total = foldl tadd g gs) /\
         MAML.parameters (net st') !! k = Some p' /\
         grad p' = Some (tscale c total) /\
         forall s, slots st !! k = Some s ->
           data p' = (adam (MAML.meta_lr hm) s (data p) (tscale c total)).1) /\
  (ITDBiO.iteration hi t i st = Ok st' ->
   let B := ITDBiO.meta_bsz hi in
   let c := fdiv (float_of_literal "1.0") B in
   exists logs,
     history st' = history st ++ [logs] /\
     forall k p, features (net st) !! k = Some p ->
       1 <= B /\ len logs = B /\
       exists total p',
         grad_sum (contributions logs (InFeatures k)) = Some total /\
         (forall g gs, contributions logs (InFeatures k) = Some <$> g :: gs ->
            total = foldl tadd g gs) /\
         features (net st') !! k = Some p' /\
         grad p' = Some (tscale c total) /\
         forall s, slots st !! k = Some s ->
           data p' = (adam (ITDBiO.meta_lr hi) s (data p) (tscale c total)).1).
Proof.
  split; intros Hit; cbn zeta.
  - destruct (maml_iteration_params hm t i st st' Hit) as (logs & Hh & Hlen & _ & _ & Hp).
    exists logs. split; [exact Hh|]. intros k p Hk.
    destruct (Hp k p Hk) as (HB & total & p' & Hsum & Hp' & Hg & Hd).
    split; [exact HB|]. split; [unfold len; lia|].
    exists total, p'. split; [exact Hsum|]. split.
    { intros g gs Hc. rewrite Hc, grad_sum_all in Hsum. congruence. }
    split; [exact Hp'|]. split; [exact Hg|].
    intros s Hs. rewrite Hs in Hd. apply Hd.
  - destruct (itd_iteration_params hi t i st st' Hit)
      as (logs & Hh & Hlen & _ & _ & Hp & _).
    exists logs. split; [exact Hh|]. intros k p Hk.
    destruct (Hp k p Hk) as (HB & total & p' & Hsum & Hp' & Hg & Hd).
    split; [exact HB|]. split; [unfold len; lia|].
    exists total, p'. split; [exact Hsum|]. split.
    { intros g gs Hc. rewrite Hc, grad_sum_all in Hsum. congruence. }
    split; [exact Hp'|]. split; [exact Hg|].
    intros s Hs. rewrite Hs in Hd. apply Hd.
Qed.

(** C3, as the code has it.  [pre] is the meta-model when the optimizer's
    [step()] is called: every parameter has the value it had at the start
    of the iteration, and every parameter the optimizer holds has as
    gradient the sum of this iteration's meta-training gradients times
    [1.0 / meta_batch_size].  In maml.py the optimizer holds the
    parameters of the backbone and of the linear head: the step replaces
    the value of each by Adam's update from the gradient it holds and
    leaves that gradient where it is.  In ITD-BiO.py the optimizer holds
    the backbone's parameters only: they are updated in the same way, and
    the head after the step is the head before it, with its initial values
    and with gradients that are those it had at the start of the iteration
    plus this iteration's, neither cleared nor averaged.  Nothing else of
    the meta-model changes: both modules keep their number of
    parameters, and the optimizer its number of slots. *)
Theorem outer_step_updates (hm : MAML.Hyper) (hi : ITDBiO.Hyper) (t : Scalar) (i : nat)
    (st st' : Training) :
  (MAML.iteration hm t i st = Ok st' ->
   length (slots st) = length (MAML.parameters (net st)) ->
   let B := MAML.meta_batch_size hm in
   let c := fdiv (float_of_literal "1.0") B in
   let lr := MAML.meta_lr hm in
   let nf := length (features (net st)) in
   exists logs pre,
     history st' = history st ++ [logs] /\
     average_grads B
       (MAML.parameters
          (after_tasks (MAML.with_parameters (net st) (zero_grad (MAML.parameters (net st))))
                       logs)) = Ok (MAML.parameters pre) /\
     length (features pre) = nf /\
     length (head pre) = length (head (net st)) /\
     (forall k p, features (net st) !! k = Some p ->
        exists total,
          grad_sum (contributions logs (InFeatures k)) = Some total /\
          features pre !! k = Some (mkParam (data p) (Some (tscale c total)))) /\
     (forall k p, head (net st) !! k = Some p ->
        exists total,
          grad_sum (contributions logs (InHead k)) = Some total /\
          head pre !! k = Some (mkParam (data p) (Some (tscale c total)))) /\
     length (features (net st')) = nf /\
     length (head (net st')) = length (head (net st)) /\
     length (slots st') = length (slots st) /\
     (forall k q, features pre !! k = Some q ->
        exists g s,
          grad q = Some g /\ slots st !! k = Some s /\
          features (net st') !! k = Some (mkParam (adam lr s (data q) g).1 (Some g)) /\
          slots st' !! k = Some (adam lr s (data q) g).2) /\
     (forall k q, head pre !! k = Some q ->
        exists g s,
          grad q = Some g /\ slots st !! (nf + k)%nat = Some s /\
          head (net st') !! k = Some (mkParam (adam lr s (data q) g).1 (Some g)) /\
          slots st' !! (nf + k)%nat = Some (adam lr s (data q) g).2)) /\
  (ITDBiO.iteration hi t i st = Ok st' ->
   length (slots st) = length (features (net st)) ->
   let B := ITDBiO.meta_bsz hi in
   let c := fdiv (float_of_literal "1.0") B in
   let lr := ITDBiO.meta_lr hi in
   let started := mkNet (zero_grad (features (net st))) (head (net st)) in
   exists logs pre,
     history st' = history st ++ [logs] /\
     average_grads B (features (after_tasks started logs)) = Ok (features pre) /\
     head pre = head (after_tasks started logs) /\
     length (features pre) = length (features (net st)) /\
     length (head pre) = length (head (net st)) /\
     (forall k p, features (net st) !! k = Some p ->
        exists total,
          grad_sum (contributions logs (InFeatures k)) = Some total /\
          features pre !! k = Some (mkParam (data p) (Some (tscale c total)))) /\
     (forall k p, head (net st) !! k = Some p ->
        head pre !! k =
          Some (mkParam (data p)
                  (foldl add_grad (grad p) (contributions logs (InHead k))))) /\
     length (features (net st')) = length (features (net st)) /\
     length (slots st') = length (slots st) /\
     (forall k q, features pre !! k = Some q ->
        exists g s,
          grad q = Some g /\ slots st !! k = Some s /\
          features (net st') !! k = Some (mkParam (adam lr s (data q) g).1 (Some g)) /\
          slots st' !! k = Some (adam lr s (data q) g).2) /\
     head (net st') = head pre /\
     data <$> head (net st') = data <$> head (net st)).
Proof.
  split; intros Hit Hslots; cbn zeta.
  - destruct (maml_iteration_step hm t i st st' Hit Hslots)
      as (logs & pre & Hh & Havg & Lf & Lh & Hpre & Lf' & Lh' & Ls & Hstep).
    exists logs, pre.
    split; [exact Hh|]. split; [exact Havg|]. split; [exact Lf|]. split; [exact Lh|].
    split.
    { intros k p Hk. pose proof (lookup_lt_Some _ _ _ Hk) as Hlt.
      destruct (Hpre k p) as (total & Hsum & Hq).
      { rewrite parameters_features by exact Hlt. exact Hk. }
      rewrite ref_of_features in Hsum by exact Hlt.
      rewrite parameters_features in Hq by lia.
      exists total. split; [exact Hsum|exact Hq]. }
    split.
    { intros k p Hk.
      destruct (Hpre (length (features (net st)) + k)%nat p) as (total & Hsum & Hq).
      { rewrite parameters_head. exact Hk. }
      rewrite ref_of_head in Hsum.
      rewrite <- Lf, parameters_head in Hq.
      exists total. split; [exact Hsum|exact Hq]. }
    split; [exact Lf'|]. split; [exact Lh'|]. split; [exact Ls|].
    split.
    + intros k q Hk. pose proof (lookup_lt_Some _ _ _ Hk) as Hlt.
      destruct (Hstep k q) as (g & s & Hg & Hs & Hp' & Hs').
      { rewrite parameters_features by exact Hlt. exact Hk. }
      rewrite parameters_features in Hp' by lia.
      exists g, s. auto.
    + intros k q Hk.
      destruct (Hstep (length (features pre) + k)%nat q) as (g & s & Hg & Hs & Hp' & Hs').
      { rewrite parameters_head. exact Hk. }
      rewrite Lf in Hs, Hs', Hp'. rewrite <- Lf', parameters_head in Hp'.
      exists g, s. auto.
  - destruct (itd_iteration_step hi t i st st' Hit Hslots)
      as (logs & pre & Hh & Havg & Hhd & Lf & Hpre & Hhead & Lf' & Ls & Hstep & Hkeep).
    assert (Hdata : data <$> head pre = data <$> head (net st)).
    { apply list_eq. intros k. rewrite !list_lookup_fmap.
      destruct (head (net st) !! k) as [p|] eqn:Hk.
      - rewrite (Hhead k p Hk). reflexivity.
      - apply lookup_ge_None in Hk. rewrite lookup_ge_None_2; [reflexivity|].
        rewrite Hhd, after_tasks_length_head. cbn. exact Hk. }
    exists logs, pre.
    split; [exact Hh|]. split; [exact Havg|]. split; [exact Hhd|]. split; [exact Lf|].
    split; [rewrite Hhd, after_tasks_length_head; reflexivity|].
    split; [exact Hpre|]. split; [exact Hhead|]. split; [exact Lf'|]. split; [exact Ls|].
    split; [exact Hstep|]. split; [exact Hkeep|]. rewrite Hkeep. exact Hdata.
Qed.

End OuterStepTheorems.

(** ** The whole training loop *)

Section Training.
Context `{Torch}.

Lemma training_loop (B : Z) (t : Scalar) (body : nat -> Training -> Result Training)
    (n : nat) (st0 st : Training) :
  records B t body ->
  history st0 = [] ->
  for_each (seq 0 n) body st0 = Ok st ->
  length (training_accuracy st) = length (training_accuracy st0) /\
  length (test_accuracy st) = length (test_accuracy st0) /\
  length (running_time st) = length (running_time st0) /\
  length (history st) = n /\
  forall i, (i < n)%nat -> recorded B t st i.
Proof.
  intros Hbody Hh0 Hloop.
  pose (Inv := fun (k : nat) (s : Training) =>
    length (training_accuracy s) = length (training_accuracy st0) /\
    length (test_accuracy s) = length (test_accuracy st0) /\
    length (running_time s) = length (running_time st0) /\
    length (history s) = k /\
    forall i, (i < k)%nat -> recorded B t s i).
  change (Inv (0 + n)%nat st).
  apply (for_each_seq_inv body Inv n 0 st0 st); [| |exact Hloop].
  - unfold Inv. rewrite Hh0. repeat split; try reflexivity. intros i Hi. lia.
  - intros i s s1 _ (L1 & L2 & L3 & L4 & Hrec) Hb.
    destruct (Hbody i s s1 Hb)
      as (logs & w & Hlen & Hacc & Hi1 & Hi2 & Hi3 & Htr & Hte & Hrt & Hhist).
    unfold Inv, recorded in *.
    rewrite Htr, Hte, Hrt, Hhist, !length_insert, length_app. cbn [length].
    split; [exact L1|]. split; [exact L2|]. split; [exact L3|]. split; [lia|].
    intros j Hj. destruct (decide (j = i)) as [->|Hne].
    + exists logs, w. rewrite lookup_app_r by lia.
      rewrite L4, Nat.sub_diag, !list_lookup_insert_eq by lia. auto 10.
    + destruct (Hrec j ltac:(lia)) as (logs' & w' & Hl' & Hlen' & Hacc' & Htr' & Hte' & Hrt').
      exists logs', w'. rewrite lookup_app_l by lia.
      rewrite !list_lookup_insert_ne by lia. auto 10.
Qed.

Lemma ones_inv (n : Z) (a : list Scalar) :
  ones n = Ok a -> 0 <= n /\ a = replicate (Z.to_nat n) (float_of_literal "1.0").
Proof.
  unfold ones. destruct (decide _) as [|Hn]; [discriminate|].
  intros [= <-]. split; [lia|reflexivity].
Qed.

Lemma maml_main_inv (h : MAML.Hyper) (w : World) (st : Training) :
  MAML.main h w = Ok st ->
  exists t st0,
    0 <= MAML.num_iterations h /\
    history st0 = [] /\
    length (training_accuracy st0) = Z.to_nat (MAML.num_iterations h) /\
    length (test_accuracy st0) = Z.to_nat (MAML.num_iterations h) /\
    length (running_time st0) = Z.to_nat (MAML.num_iterations h) /\
    length (slots st0) = length (MAML.parameters (net st0)) /\
    for_each (py_range (MAML.num_iterations h)) (MAML.iteration h t) st0 = Ok st.
Proof.
  unfold MAML.main.
  destruct (init_features _) as [fs w1]. destruct (init_linear _ _) as [hd w2].
  intros (a1 & [Hn ->]%ones_inv & (a2 & [_ ->]%ones_inv & (a3 & [_ ->]%ones_inv & Hloop)%bind_Ok)%bind_Ok)%bind_Ok.
  destruct (time w2) as [t w3]. eexists t, _. split; [exact Hn|].
  split; [|split; [|split; [|split; [|split; [|exact Hloop]]]]]; cbn;
    rewrite ?length_replicate; reflexivity.
Qed.

Lemma itd_main_inv (h : ITDBiO.Hyper) (w : World) (st : Training) :
  ITDBiO.main h w = Ok st ->
  exists t st0,
    0 <= ITDBiO.iters h /\
    history st0 = [] /\
    length (training_accuracy st0) = Z.to_nat (ITDBiO.iters h) /\
    length (test_accuracy st0) = Z.to_nat (ITDBiO.iters h) /\
    length (running_time st0) = Z.to_nat (ITDBiO.iters h) /\
    length (slots st0) = length (features (net st0)) /\
    for_each (py_range (ITDBiO.iters h)) (ITDBiO.iteration h t) st0 = Ok st.
Proof.
  unfold ITDBiO.main.
  destruct (init_features _) as [fs w1]. destruct (init_linear _ _) as [hd w2].
  intros (a1 & [Hn ->]%ones_inv & (a2 & [_ ->]%ones_inv & (a3 & [_ ->]%ones_inv & Hloop)%bind_Ok)%bind_Ok)%bind_Ok.
  destruct (time w2) as [t w3]. eexists t, _. split; [exact Hn|].
  split; [|split; [|split; [|split; [|split; [|exact Hloop]]]]]; cbn;
    rewrite ?length_replicate; reflexivity.
Qed.


End Training.

(** ** The scripts run to the end *)

Section Totality.
Context `{Torch} `{!TorchShapes} `{!Reliable}.

Lemma sampled_batch_fits (m : Mode) (ways shots : Z) (w : World) :
  let b := (sample m ways (2 * shots) w).1 in
  2 * (shots * ways) - 1 <= len b.1 /\ length b.2 = length b.1.
Proof.
  cbn zeta. destruct (sample_rows m ways (2 * shots) w) as [Hd Hl].
  unfold len. rewrite Hd, Hl. split; [|reflexivity].
  replace (ways * (2 * shots)) with (2 * (shots * ways)) by ring. lia.
Qed.

Lemma backward_all_grads (err : Tensor0) (n : Net) :
  Forall (fun p => is_Some (grad p)) (MAML.parameters (backward err n)).
Proof.
  apply Forall_lookup. intros k p. rewrite backward_parameters.
  destruct (MAML.parameters n !! k) as [q|]; [|discriminate].
  intros [= <-]. rewrite accumulate_spec. cbn.
  destruct (grad_defined err (ref_of n k)) as [g ->]. cbn. eauto.
Qed.

Lemma maml_task_ok (h : MAML.Hyper) (i : nat) (st : Tasks) :
  exists st', MAML.task h i st = Ok st' /\
    Forall (fun p => is_Some (grad p)) (MAML.parameters (t_net st')).
Proof.
  unfold MAML.task. cbn zeta.
  pose proof (sampled_batch_fits TrainTasks (MAML.ways h) (MAML.shots h) (t_world st)) as Hb1.
  destruct (sample TrainTasks _ _ _) as [[d1 l1] w1]. cbn in Hb1.
  destruct (maml_run_ok d1 l1 (clone (MAML.fast_lr h) (data <$> MAML.parameters (t_net st)))
              cross_entropy (MAML.adaptation_steps h) (MAML.shots h) (MAML.ways h))
    as [r1 Hr1]; [tauto..|].
  rewrite Hr1. cbn [mbind Result_bind].
  pose proof (sampled_batch_fits ValidTasks (MAML.ways h) (MAML.shots h) w1) as Hb2.
  destruct (sample ValidTasks _ _ _) as [[d2 l2] w2]. cbn in Hb2.
  destruct (maml_run_ok d2 l2
              (clone (MAML.fast_lr h)
                 (data <$> MAML.parameters (backward (valid_error r1) (t_net st))))
              cross_entropy (MAML.adaptation_steps h) (MAML.shots h) (MAML.ways h))
    as [r2 Hr2]; [tauto..|].
  rewrite Hr2. cbn [mbind Result_bind].
  pose proof (sampled_batch_fits TestTasks (MAML.ways h) (MAML.shots h) w2) as Hb3.
  destruct (sample TestTasks _ _ _) as [[d3 l3] w3]. cbn in Hb3.
  destruct (maml_run_ok d3 l3
              (clone (MAML.fast_lr h)
                 (data <$> MAML.parameters (backward (valid_error r1) (t_net st))))
              cross_entropy (MAML.adaptation_steps h) (MAML.shots h) (MAML.ways h))
    as [r3 Hr3]; [tauto..|].
  rewrite Hr3. cbn [mbind Result_bind].
  eexists. split; [reflexivity|]. cbn. apply backward_all_grads.
Qed.

Lemma maml_tasks_ok (h : MAML.Hyper) (ts0 : Tasks) :
  1 <= MAML.meta_batch_size h ->
  exists ts, for_each (py_range (MAML.meta_batch_size h)) (MAML.task h) ts0 = Ok ts /\
    Forall (fun p => is_Some (grad p)) (MAML.parameters (t_net ts)).
Proof.
  intros HB.
  destruct (for_each_seq_total (MAML.task h)
              (fun k ts => (1 <= k)%nat ->
                 Forall (fun p => is_Some (grad p)) (MAML.parameters (t_net ts)))
              (Z.to_nat (MAML.meta_batch_size h)) 0 ts0) as (ts & Hts & Hinv).
  - intros Hk. lia.
  - intros i st _ _. destruct (maml_task_ok h i st) as (st' & Hst' & Hg).
    exists st'. auto.
  - exists ts. split; [exact Hts|]. apply Hinv. lia.
Qed.

Lemma setitem_ok {A} (i : nat) (x : A) (a : list A) :
  (i < length a)%nat -> setitem i x a = Ok (<[i:=x]> a).
Proof. intros Hi. unfold setitem. rewrite decide_True by exact Hi. reflexivity. Qed.

Lemma py_div_ok (x : Scalar) (n : Z) : n <> 0 -> py_div x n = Ok (fdiv x n).
Proof. intros Hn. unfold py_div. rewrite decide_False by exact Hn. reflexivity. Qed.

Lemma maml_iteration_ok (h : MAML.Hyper) (t : Scalar) (n i : nat) (st : Training) :
  1 <= MAML.meta_batch_size h -> (i < n)%nat -> arrays n st ->
  exists st', MAML.iteration h t i st = Ok st' /\ arrays n st'.
Proof.
  intros HB Hi (L1 & L2 & L3). unfold MAML.iteration.
  destruct (maml_tasks_ok h
              (mkTasks (MAML.with_parameters (net st) (zero_grad (MAML.parameters (net st))))
                       (world st) zero_sums []) HB) as (ts & -> & Hg).
  cbn [mbind Result_bind].
  repeat (first [rewrite py_div_ok by lia | rewrite setitem_ok by lia];
          cbn [mbind Result_bind]).
  destruct (print_metrics_ok i (t_sums ts) (MAML.meta_batch_size h)) as [out ->]; [lia|].
  cbn [mbind Result_bind].
  destruct (average_grads_ok (MAML.meta_batch_size h) (MAML.parameters (t_net ts)))
    as [avg ->]; [lia|exact Hg|].
  cbn [mbind Result_bind].
  destruct (adam_step _ avg _) as [ps ss]. destruct (time _) as [t_end w'].
  rewrite setitem_ok by lia. cbn [mbind Result_bind].
  eexists. split; [reflexivity|]. unfold arrays. cbn. rewrite !length_insert. auto.
Qed.

Lemma maml_main_ok (h : MAML.Hyper) (w : World) :
  1 <= MAML.meta_batch_size h -> 0 <= MAML.num_iterations h ->
  succeeds (MAML.main h w).
Proof.
  intros HB Hn. unfold MAML.main, succeeds.
  destruct (init_features _) as [fs w1]. destruct (init_linear _ _) as [hd w2].
  unfold ones. rewrite decide_False by lia. cbn [mbind Result_bind].
  destruct (time w2) as [t w3].
  edestruct (for_each_seq_total (MAML.iteration h t)
               (fun _ => arrays (Z.to_nat (MAML.num_iterations h)))
               (Z.to_nat (MAML.num_iterations h)) 0) as (st & Hst & _);
    [|intros i s Hi Ha; apply maml_iteration_ok; [exact HB|lia|exact Ha]|].
  2: { exists st. exact Hst. }
  unfold arrays. cbn. rewrite !length_replicate. auto.
Qed.

(** *** ITD-BiO.py *)

Lemma backward_all_feature_grads (err : Tensor0) (n : Net) :
  Forall (fun p => is_Some (grad p)) (features (backward err n)).
Proof.
  apply Forall_lookup. intros k p. rewrite backward_features.
  destruct (features n !! k) as [q|]; [|discriminate].
  intros [= <-]. rewrite accumulate_spec. cbn.
  destruct (grad_defined err (InFeatures k)) as [g ->]. cbn. eauto.
Qed.

Lemma itd_task_ok (h : ITDBiO.Hyper) (i : nat) (st : Tasks) :
  exists st', ITDBiO.task h i st = Ok st' /\
    Forall (fun p => is_Some (grad p)) (features (t_net st')).
Proof.
  unfold ITDBiO.task. cbn zeta.
  pose proof (sampled_batch_fits TrainTasks (ITDBiO.ways h) (ITDBiO.shots h) (t_world st)) as Hb1.
  destruct (sample TrainTasks _ _ _) as [[d1 l1] w1]. cbn in Hb1.
  destruct (itd_run_ok d1 l1 (clone (ITDBiO.fast_lr h) (data <$> head (t_net st)))
              (features_forward (data <$> features (t_net st)))
              cross_entropy (ITDBiO.reg_lambda h) (ITDBiO.adapt_steps h)
              (ITDBiO.shots h) (ITDBiO.ways h))
    as [r1 Hr1]; [unfold len in *; rewrite features_length; tauto..|].
  rewrite Hr1. cbn [mbind Result_bind].
  pose proof (sampled_batch_fits ValidTasks (ITDBiO.ways h) (ITDBiO.shots h) w1) as Hb2.
  destruct (sample ValidTasks _ _ _) as [[d2 l2] w2]. cbn in Hb2.
  destruct (itd_run_ok d2 l2
              (clone (ITDBiO.fast_lr h)
                 (data <$> head (backward (valid_error r1) (t_net st))))
              (features_forward (data <$> features (backward (valid_error r1) (t_net st))))
              cross_entropy (ITDBiO.reg_lambda h) (ITDBiO.adapt_steps h)
              (ITDBiO.shots h) (ITDBiO.ways h))
    as [r2 Hr2]; [unfold len in *; rewrite features_length; tauto..|].
  rewrite Hr2. cbn [mbind Result_bind].
  pose proof (sampled_batch_fits TestTasks (ITDBiO.ways h) (ITDBiO.shots h) w2) as Hb3.
  destruct (sample TestTasks _ _ _) as [[d3 l3] w3]. cbn in Hb3.
  destruct (itd_run_ok d3 l3
              (clone (ITDBiO.fast_lr h)
                 (data <$> head (backward (valid_error r1) (t_net st))))
              (features_forward (data <$> features (backward (valid_error r1) (t_net st))))
              cross_entropy (ITDBiO.reg_lambda h) (ITDBiO.adapt_steps h)
              (ITDBiO.shots h) (ITDBiO.ways h))
    as [r3 Hr3]; [unfold len in *; rewrite features_length; tauto..|].
  rewrite Hr3. cbn [mbind Result_bind].
  eexists. split; [reflexivity|]. cbn. apply backward_all_feature_grads.
Qed.

Lemma itd_tasks_ok (h : ITDBiO.Hyper) (ts0 : Tasks) :
  1 <= ITDBiO.meta_bsz h ->
  exists ts, for_each (py_range (ITDBiO.meta_bsz h)) (ITDBiO.task h) ts0 = Ok ts /\
    Forall (fun p => is_Some (grad p)) (features (t_net ts)).
Proof.
  intros HB.
  destruct (for_each_seq_total (ITDBiO.task h)
              (fun k ts => (1 <= k)%nat ->
                 Forall (fun p => is_Some (grad p)) (features (t_net ts)))
              (Z.to_nat (ITDBiO.meta_bsz h)) 0 ts0) as (ts & Hts & Hinv).
  - intros Hk. lia.
  - intros i st _ _. destruct (itd_task_ok h i st) as (st' & Hst' & Hg).
    exists st'. auto.
  - exists ts. split; [exact Hts|]. apply Hinv. lia.
Qed.

Lemma itd_iteration_ok (h : ITDBiO.Hyper) (t : Scalar) (n i : nat) (st : Training) :
  1 <= ITDBiO.meta_bsz h -> (i < n)%nat -> arrays n st ->
  exists st', ITDBiO.iteration h t i st = Ok st' /\ arrays n st'.
Proof.
  intros HB Hi (L1 & L2 & L3). unfold ITDBiO.iteration.
  destruct (itd_tasks_ok h
              (mkTasks (mkNet (zero_grad (features (net st))) (head (net st)))
                       (world st) zero_sums []) HB) as (ts & -> & Hg).
  cbn [mbind Result_bind].
  repeat (first [rewrite py_div_ok by lia | rewrite setitem_ok by lia];
          cbn [mbind Result_bind]).
  destruct (print_metrics_ok i (t_sums ts) (ITDBiO.meta_bsz h)) as [out ->]; [lia|].
  cbn [mbind Result_bind].
  destruct (average_grads_ok (ITDBiO.meta_bsz h) (features (t_net ts)))
    as [avg ->]; [lia|exact Hg|].
  cbn [mbind Result_bind].
  destruct (adam_step _ avg _) as [ps ss]. destruct (time _) as [t_end w'].
  rewrite setitem_ok by lia. cbn [mbind Result_bind].
  eexists. split; [reflexivity|]. unfold arrays. cbn. rewrite !length_insert. auto.
Qed.

Lemma itd_main_ok (h : ITDBiO.Hyper) (w : World) :
  1 <= ITDBiO.meta_bsz h -> 0 <= ITDBiO.iters h ->
  succeeds (ITDBiO.main h w).
Proof.
  intros HB Hn. unfold ITDBiO.main, succeeds.
  destruct (init_features _) as [fs w1]. destruct (init_linear _ _) as [hd w2].
  unfold ones. rewrite decide_False by lia. cbn [mbind Result_bind].
  destruct (time w2) as [t w3].
  edestruct (for_each_seq_total (ITDBiO.iteration h t)
               (fun _ => arrays (Z.to_nat (ITDBiO.iters h)))
               (Z.to_nat (ITDBiO.iters h)) 0) as (st & Hst & _);
    [|intros i s Hi Ha; apply itd_iteration_ok; [exact HB|lia|exact Ha]|].
  2: { exists st. exact Hst. }
  unfold arrays. cbn. rewrite !length_replicate. auto.
Qed.

End Totality.

(** ** The [__main__] blocks *)

Section Scripts.
Context `{Torch}.

Lemma dump_ok {C} (dir name : string) (obj : C) (fs : FileSystem C) :
  dir ∈ directories fs ->
  dump dir name obj fs =
    Ok (mkFS (directories fs)
             (without (dir ++ "/" ++ name) (files fs) ++ [((dir ++ "/" ++ name)%string, obj)])).
Proof. intros Hd. unfold dump. rewrite decide_True by exact Hd. reflexivity. Qed.

Lemma dump_missing {C} (dir name : string) (obj : C) (fs : FileSystem C) :
  dir ∉ directories fs -> dump dir name obj fs = Raise FileNotFoundError.
Proof. intros Hd. unfold dump. rewrite decide_False by exact Hd. reflexivity. Qed.

Lemma without_app {C} (path : string) (xs ys : list (string * C)) :
  without path (xs ++ ys) = without path xs ++ without path ys.
Proof. apply List.filter_app. Qed.

Lemma maml_arrays (seed : Z) (w : World) (st : Training) :
  MAML.main (MAML.hyper seed) w = Ok st -> arrays 1200 st /\ elapsed_times st.
Proof.
  intros Hmain.
  destruct (maml_main_inv _ w st Hmain) as (t & st0 & _ & Hh & L1 & L2 & L3 & _ & Hloop).
  destruct (training_loop _ _ _ _ _ _ (maml_records (MAML.hyper seed) t ltac:(cbn; lia)) Hh Hloop)
    as (M1 & M2 & M3 & _ & Hrec).
  split.
  - unfold arrays. rewrite M1, M2, M3, L1, L2, L3. cbn. auto.
  - exists t. intros i Hi. rewrite M3, L3 in Hi.
    destruct (Hrec i Hi) as (_ & w' & _ & _ & _ & _ & _ & Hrt). exists w'. exact Hrt.
Qed.

Lemma itd_arrays (seed : Z) (w : World) (st : Training) :
  ITDBiO.main (ITDBiO.hyper seed) w = Ok st -> arrays 1500 st /\ elapsed_times st.
Proof.
  intros Hmain.
  destruct (itd_main_inv _ w st Hmain) as (t & st0 & _ & Hh & L1 & L2 & L3 & _ & Hloop).
  destruct (training_loop _ _ _ _ _ _ (itd_records (ITDBiO.hyper seed) t ltac:(cbn; lia)) Hh Hloop)
    as (M1 & M2 & M3 & _ & Hrec).
  split.
  - unfold arrays. rewrite M1, M2, M3, L1, L2, L3. cbn. auto.
  - exists t. intros i Hi. rewrite M3, L3 in Hi.
    destruct (Hrec i Hi) as (_ & w' & _ & _ & _ & _ & _ & Hrt). exists w'. exact Hrt.
Qed.

Lemma maml_run_seed_inv (seed : Z) (c c' : MAML.Collected) :
  MAML.run_seed seed c = Ok c' ->
  exists st,
    MAML.main (MAML.hyper seed) (MAML.c_world c) = Ok st /\
    c' = MAML.mkCollected (world st)
           (MAML.train_accuracy c ++ [training_accuracy st])
           (MAML.c_test_accuracy c ++ [test_accuracy st])
           (MAML.run_time c ++ [running_time st]).
Proof.
  unfold MAML.run_seed. intros (st & Hst & [= <-])%bind_Ok. exists st. auto.
Qed.

Lemma maml_seeds_inv (w : World) (c : MAML.Collected) :
  for_each MAML.seeds MAML.run_seed (MAML.mkCollected w [] [] []) = Ok c ->
  exists s42 s52 s62 s72 s82,
    MAML.main (MAML.hyper 42) w = Ok s42 /\
    MAML.main (MAML.hyper 52) (world s42) = Ok s52 /\
    MAML.main (MAML.hyper 62) (world s52) = Ok s62 /\
    MAML.main (MAML.hyper 72) (world s62) = Ok s72 /\
    MAML.main (MAML.hyper 82) (world s72) = Ok s82 /\
    c = MAML.mkCollected (world s82)
          (training_accuracy <$> [s42; s52; s62; s72; s82])
          (test_accuracy <$> [s42; s52; s62; s72; s82])
          (running_time <$> [s42; s52; s62; s72; s82]).
Proof.
  unfold MAML.seeds. cbn [for_each].
  intros (c1 & (s42 & H42 & ->)%maml_run_seed_inv & Hrest)%bind_Ok. revert Hrest.
  intros (c2 & (s52 & H52 & ->)%maml_run_seed_inv & Hrest)%bind_Ok. revert Hrest.
  intros (c3 & (s62 & H62 & ->)%maml_run_seed_inv & Hrest)%bind_Ok. revert Hrest.
  intros (c4 & (s72 & H72 & ->)%maml_run_seed_inv & Hrest)%bind_Ok. revert Hrest.
  intros (c5 & (s82 & H82 & ->)%maml_run_seed_inv & [= <-])%bind_Ok.
  exists s42, s52, s62, s72, s82. cbn in *. auto 10.
Qed.

Lemma itd_run_seed_inv (seed : Z) (c c' : ITDBiO.Collected) :
  ITDBiO.run_seed seed c = Ok c' ->
  exists st,
    ITDBiO.main (ITDBiO.hyper seed) (ITDBiO.c_world c) = Ok st /\
    c' = ITDBiO.mkCollected (world st)
           (ITDBiO.train_accuracy c ++ [training_accuracy st])
           (ITDBiO.c_test_accuracy c ++ [test_accuracy st])
           (ITDBiO.run_time c ++ [running_time st]).
Proof.
  unfold ITDBiO.run_seed. intros (st & Hst & [= <-])%bind_Ok. exists st. auto.
Qed.

Lemma itd_seeds_inv (w : World) (c : ITDBiO.Collected) :
  for_each ITDBiO.seeds ITDBiO.run_seed (ITDBiO.mkCollected w [] [] []) = Ok c ->
  exists s42 s52 s62 s72 s82,
    ITDBiO.main (ITDBiO.hyper 42) w = Ok s42 /\
    ITDBiO.main (ITDBiO.hyper 52) (world s42) = Ok s52 /\
    ITDBiO.main (ITDBiO.hyper 62) (world s52) = Ok s62 /\
    ITDBiO.main (ITDBiO.hyper 72) (world s62) = Ok s72 /\
    ITDBiO.main (ITDBiO.hyper 82) (world s72) = Ok s82 /\
    c = ITDBiO.mkCollected (world s82)
          (training_accuracy <$> [s42; s52; s62; s72; s82])
          (test_accuracy <$> [s42; s52; s62; s72; s82])
          (running_time <$> [s42; s52; s62; s72; s82]).
Proof.
  unfold ITDBiO.seeds. cbn [for_each].
  intros (c1 & (s42 & H42 & ->)%itd_run_seed_inv & Hrest)%bind_Ok. revert Hrest.
  intros (c2 & (s52 & H52 & ->)%itd_run_seed_inv & Hrest)%bind_Ok. revert Hrest.
  intros (c3 & (s62 & H62 & ->)%itd_run_seed_inv & Hrest)%bind_Ok. revert Hrest.
  intros (c4 & (s72 & H72 & ->)%itd_run_seed_inv & Hrest)%bind_Ok. revert Hrest.
  intros (c5 & (s82 & H82 & ->)%itd_run_seed_inv & [= <-])%bind_Ok.
  exists s42, s52, s62, s72, s82. cbn in *. auto 10.
Qed.

Lemma without_other {C} (p q : string) (x : C) :
  String.eqb q p = false -> without p [(q, x)] = [(q, x)].
Proof. intros Hq. unfold without. cbn. rewrite Hq. reflexivity. Qed.

(** Three files written one after the other into an existing directory. *)
Lemma three_dumps {C} (n1 n2 n3 : string) (a b c : C) (fs : FileSystem C) :
  "exp_data" ∈ directories fs ->
  String.eqb ("exp_data/" ++ n1) ("exp_data/" ++ n2) = false ->
  String.eqb ("exp_data/" ++ n1) ("exp_data/" ++ n3) = false ->
  String.eqb ("exp_data/" ++ n2) ("exp_data/" ++ n3) = false ->
  (fs ← dump "exp_data" n1 a fs; fs ← dump "exp_data" n2 b fs; dump "exp_data" n3 c fs) =
  Ok (mkFS (directories fs)
        (without ("exp_data/" ++ n3) (without ("exp_data/" ++ n2)
           (without ("exp_data/" ++ n1) (files fs))) ++
         [(("exp_data/" ++ n1)%string, a); (("exp_data/" ++ n2)%string, b);
          (("exp_data/" ++ n3)%string, c)])).
Proof.
  intros Hd H12 H13 H23.
  rewrite dump_ok by exact Hd. cbn [mbind Result_bind].
  rewrite dump_ok by exact Hd. cbn [mbind Result_bind].
  rewrite dump_ok by exact Hd. cbn [directories files].
  change ("exp_data" ++ "/" ++ ?n)%string with ("exp_data/" ++ n)%string.
  rewrite !without_app.
  rewrite (without_other _ _ a H12), (without_other _ _ a H13), (without_other _ _ b H23).
  rewrite <- !app_assoc. reflexivity.
Qed.

End Scripts.

Section ScriptTheorems.
Context `{Torch}.

(** C7, as the code has it.  Provided the directory [exp_data] exists
    (the scripts do not create it), a script whose five runs of [main]
    have completed writes three files into it, [train_accuracy],
    [test_accuracy] and [run_time] followed by
    [_lr_<lr>_fastlr_<fastlr>_steps_<stp>], and no other file; each holds a
    list of five arrays, one per seed 42, 52, 62, 72, 82 in this order:
    the training accuracies, the test accuracies and the running times
    that [main] returned, one entry per outer iteration (1200 in maml.py,
    1500 in ITD-BiO.py), a running time being the clock at the end of the
    iteration minus the clock at the start of the loop. *)
Theorem script_outputs (w : World) (fs : FileSystem (list (list Scalar))) :
  "exp_data" ∈ directories fs ->
  (forall c,
     for_each MAML.seeds MAML.run_seed (MAML.mkCollected w [] [] []) = Ok c ->
     let p1 := "exp_data/train_accuracy_lr_0.001_fastlr_0.5_steps_3" in
     let p2 := "exp_data/test_accuracy_lr_0.001_fastlr_0.5_steps_3" in
     let p3 := "exp_data/run_time_lr_0.001_fastlr_0.5_steps_3" in
     MAML.script w fs =
       Ok (c, mkFS (directories fs)
                (without p3 (without p2 (without p1 (files fs))) ++
                 [(p1, MAML.train_accuracy c); (p2, MAML.c_test_accuracy c);
                  (p3, MAML.run_time c)])) /\
     exists s42 s52 s62 s72 s82,
       MAML.main (MAML.hyper 42) w = Ok s42 /\
       MAML.main (MAML.hyper 52) (world s42) = Ok s52 /\
       MAML.main (MAML.hyper 62) (world s52) = Ok s62 /\
       MAML.main (MAML.hyper 72) (world s62) = Ok s72 /\
       MAML.main (MAML.hyper 82) (world s72) = Ok s82 /\
       MAML.train_accuracy c = training_accuracy <$> [s42; s52; s62; s72; s82] /\
       MAML.c_test_accuracy c = test_accuracy <$> [s42; s52; s62; s72; s82] /\
       MAML.run_time c = running_time <$> [s42; s52; s62; s72; s82] /\
       Forall (fun s => arrays 1200 s /\ elapsed_times s) [s42; s52; s62; s72; s82]) /\
  (forall c,
     for_each ITDBiO.seeds ITDBiO.run_seed (ITDBiO.mkCollected w [] [] []) = Ok c ->
     let p1 := "exp_data/train_accuracy_lr_0.001_fastlr_0.1_steps_20" in
     let p2 := "exp_data/test_accuracy_lr_0.001_fastlr_0.1_steps_20" in
     let p3 := "exp_data/run_time_lr_0.001_fastlr_0.1_steps_20" in
     ITDBiO.script w fs =
       Ok (c, mkFS (directories fs)
                (without p3 (without p2 (without p1 (files fs))) ++
                 [(p1, ITDBiO.train_accuracy c); (p2, ITDBiO.c_test_accuracy c);
                  (p3, ITDBiO.run_time c)])) /\
     exists s42 s52 s62 s72 s82,
       ITDBiO.main (ITDBiO.hyper 42) w = Ok s42 /\
       ITDBiO.main (ITDBiO.hyper 52) (world s42) = Ok s52 /\
       ITDBiO.main (ITDBiO.hyper 62) (world s52) = Ok s62 /\
       ITDBiO.main (ITDBiO.hyper 72) (world s62) = Ok s72 /\
       ITDBiO.main (ITDBiO.hyper 82) (world s72) = Ok s82 /\
       ITDBiO.train_accuracy c = training_accuracy <$> [s42; s52; s62; s72; s82] /\
       ITDBiO.c_test_accuracy c = test_accuracy <$> [s42; s52; s62; s72; s82] /\
       ITDBiO.run_time c = running_time <$> [s42; s52; s62; s72; s82] /\
       Forall (fun s => arrays 1500 s /\ elapsed_times s) [s42; s52; s62; s72; s82]).
Proof.
  intros Hdir. split; intros c Hc; cbn zeta.
  - split.
    + unfold MAML.script. rewrite Hc. cbn [mbind Result_bind].
      pose proof (three_dumps ("train_accuracy" ++ MAML.pstr) ("test_accuracy" ++ MAML.pstr)
                    ("run_time" ++ MAML.pstr) (MAML.train_accuracy c)
                    (MAML.c_test_accuracy c) (MAML.run_time c) fs Hdir
                    eq_refl eq_refl eq_refl) as Hd.
      destruct (dump "exp_data" ("train_accuracy" ++ MAML.pstr) _ fs) as [fs1|]; [|discriminate].
      cbn [mbind Result_bind] in *.
      destruct (dump "exp_data" ("test_accuracy" ++ MAML.pstr) _ fs1) as [fs2|]; [|discriminate].
      cbn [mbind Result_bind] in *.
      rewrite Hd. reflexivity.
    + destruct (maml_seeds_inv w c Hc) as (s42 & s52 & s62 & s72 & s82 & H42 & H52 & H62 & H72 & H82 & ->).
      exists s42, s52, s62, s72, s82. cbn [MAML.train_accuracy MAML.c_test_accuracy MAML.run_time].
      repeat (split; [first [assumption | reflexivity]|]).
      repeat constructor; eapply maml_arrays; eassumption.
  - split.
    + unfold ITDBiO.script. rewrite Hc. cbn [mbind Result_bind].
      pose proof (three_dumps ("train_accuracy" ++ ITDBiO.pstr) ("test_accuracy" ++ ITDBiO.pstr)
                    ("run_time" ++ ITDBiO.pstr) (ITDBiO.train_accuracy c)
                    (ITDBiO.c_test_accuracy c) (ITDBiO.run_time c) fs Hdir
                    eq_refl eq_refl eq_refl) as Hd.
      destruct (dump "exp_data" ("train_accuracy" ++ ITDBiO.pstr) _ fs) as [fs1|]; [|discriminate].
      cbn [mbind Result_bind] in *.
      destruct (dump "exp_data" ("test_accuracy" ++ ITDBiO.pstr) _ fs1) as [fs2|]; [|discriminate].
      cbn [mbind Result_bind] in *.
      rewrite Hd. reflexivity.
    + destruct (itd_seeds_inv w c Hc) as (s42 & s52 & s62 & s72 & s82 & H42 & H52 & H62 & H72 & H82 & ->).
      exists s42, s52, s62, s72, s82. cbn [ITDBiO.train_accuracy ITDBiO.c_test_accuracy ITDBiO.run_time].
      repeat (split; [first [assumption | reflexivity]|]).
      repeat constructor; eapply itd_arrays; eassumption.
Qed.

Lemma for_each_total {I S} (body : I -> S -> Result S) (l : list I) (s : S) :
  (forall i s, succeeds (body i s)) -> succeeds (for_each l body s).
Proof.
  intros Hbody. revert s. induction l as [|i l IH]; intros s; cbn.
  - eexists. reflexivity.
  - destruct (Hbody i s) as [s' ->]. cbn. apply IH.
Qed.

Lemma maml_seeds_ok `{!TorchShapes} `{!Reliable} (w : World) :
  succeeds (for_each MAML.seeds MAML.run_seed (MAML.mkCollected w [] [] [])).
Proof.
  apply for_each_total. intros seed c. unfold MAML.run_seed.
  destruct (maml_main_ok (MAML.hyper seed) (MAML.c_world c)) as [st ->]; [cbn; lia..|].
  eexists. reflexivity.
Qed.

Lemma itd_seeds_ok `{!TorchShapes} `{!Reliable} (w : World) :
  succeeds (for_each ITDBiO.seeds ITDBiO.run_seed (ITDBiO.mkCollected w [] [] [])).
Proof.
  apply for_each_total. intros seed c. unfold ITDBiO.run_seed.
  destruct (itd_main_ok (ITDBiO.hyper seed) (ITDBiO.c_world c)) as [st ->]; [cbn; lia..|].
  eexists. reflexivity.
Qed.

Lemma script_missing_directory (w : World) (fs : FileSystem (list (list Scalar))) c :
  "exp_data" ∉ directories fs ->
  for_each MAML.seeds MAML.run_seed (MAML.mkCollected w [] [] []) = Ok c ->
  MAML.script w fs = Raise FileNotFoundError.
Proof.
  intros Hd Hc. unfold MAML.script. rewrite Hc. cbn [mbind Result_bind].
  rewrite dump_missing by exact Hd. reflexivity.
Qed.

End ScriptTheorems.

(** ** The theorems on concrete inputs *)

Section SingleParam.
Context `{Torch}.

Lemma single_param (ps : list Param) (d : Tensor) (g : option Tensor) :
  (fun p : Param => (data p, grad p)) <$> ps = [(d, g)] ->
  exists p, ps !! 0%nat = Some p /\ data p = d /\ grad p = g.
Proof.
  destruct ps as [|p [|q tl]]; intros Hps; try discriminate.
  injection Hps as Hd Hg. exists p. auto.
Qed.

End SingleParam.

Section Concrete.
Import Small.

Lemma fast_adapt_even_odd_split_witness :
  len rows = 2 * 1 * 2 /\ len labels = 2 * 1 * 2 /\
  exists r,
    MAML.fast_adapt_run (rows, labels) learner cross_entropy 3 1 2 = Ok r /\
    even_odd_split rows labels 1 2 (episode r).
Proof.
  split; [reflexivity|]. split; [reflexivity|].
  destruct (fast_adapt_even_odd_split rows labels 1 2) as [Hm _]; [reflexivity..|].
  apply Hm.
Defined.

Lemma fast_adapt_index_bounds_witness :
  (2 * 1 * 2 - 1 <= len rows /\ succeeds (separate rows labels 1 2)) /\
  (len short_rows < 2 * 1 * 2 - 1 /\
   MAML.fast_adapt (short_rows, [0; 1]) learner cross_entropy 3 1 2 = Raise IndexError).
Proof.
  split.
  - assert (Hn : 2 * 1 * 2 - 1 <= len rows) by (vm_compute; discriminate).
    split; [exact Hn|].
    destruct (fast_adapt_index_bounds rows labels 1 2 learner cross_entropy 3) as [Hok _].
    destruct (Hok Hn) as [_ Hsep]. apply Hsep. reflexivity.
  - assert (Hn : len short_rows < 2 * 1 * 2 - 1) by reflexivity.
    split; [exact Hn|].
    destruct (fast_adapt_index_bounds short_rows [0; 1] 1 2 learner cross_entropy 3) as [_ [Herr _]].
    apply (Herr Hn).
Defined.

Lemma fast_adapt_steps_witness :
  0 <= 3 /\ 2 * 1 * 2 - 1 <= len rows /\ length labels = length rows /\
  exists r,
    MAML.fast_adapt_run (rows, labels) learner cross_entropy 3 1 2 = Ok r /\
    len (adapt_calls r) = 3.
Proof.
  assert (H0 : 0 <= 3) by lia.
  assert (Hn : 2 * 1 * 2 - 1 <= len rows) by (vm_compute; discriminate).
  assert (Hl : length labels = length rows) by reflexivity.
  split; [exact H0|]. split; [exact Hn|]. split; [exact Hl|].
  destruct (fast_adapt_steps rows labels learner cross_entropy 3 1 2) as (_ & _ & Hsteps).
  destruct (Hsteps H0 Hn Hl) as [(r & Hr & _ & _ & Hcalls & _) _].
  exists r. split; [exact Hr|exact Hcalls].
Defined.

Lemma inner_loop_train_error_witness :
  exists r,
    ITDBiO.fast_adapt_run (rows, labels) learner (@features_forward torch [1; 2]) cross_entropy 1
      2 1 2 = Ok r /\
    length (adapt_calls r) = Z.to_nat 2.
Proof.
  destruct (itd_run_ok rows labels learner (@features_forward torch [1; 2]) cross_entropy 1
              2 1 2) as [r Hr]; [vm_compute; discriminate|reflexivity|].
  exists r. split; [exact Hr|].
  destruct (inner_loop_train_error (rows, labels) learner (@features_forward torch [1; 2])
              cross_entropy 1 2 1 2) as [Hitd _].
  apply (Hitd r Hr).
Defined.

Lemma only_training_error_is_backpropagated_witness :
  exists st',
    MAML.task maml_hyper 0 tasks = Ok st' /\
    data <$> MAML.parameters (t_net st') = data <$> MAML.parameters (t_net tasks).
Proof.
  destruct (maml_task_ok maml_hyper 0 tasks) as (st' & Hst & _).
  exists st'. split; [exact Hst|].
  destruct (only_training_error_is_backpropagated maml_hyper itd_hyper 0 0%nat)
    as [Htask _].
  destruct (Htask tasks st' Hst) as (b1 & b2 & b3 & r1 & r2 & r3 & _ & _ & _ & _ & Hd & _).
  exact Hd.
Defined.

Lemma gradients_are_averaged_witness :
  exists st' logs,
    ITDBiO.iteration itd_hyper 0 0%nat itd_training = Ok st' /\
    history st' = history itd_training ++ [logs].
Proof.
  destruct (itd_iteration_ok itd_hyper 0 2 0 itd_training) as (st' & Hst & _);
    [cbn; lia|lia|repeat split|].
  destruct (gradients_are_averaged maml_hyper itd_hyper 0 0%nat itd_training st')
    as [_ Hitd].
  destruct (Hitd Hst) as (logs & Hh & _).
  exists st', logs. split; [exact Hst|exact Hh].
Defined.

Lemma outer_step_updates_witness :
  (exists st',
     MAML.iteration maml_hyper 0 0%nat maml_training = Ok st' /\
     length (head (net st')) = length (head (net maml_training))) /\
  (exists st',
     ITDBiO.iteration itd_hyper 0 0%nat itd_training = Ok st' /\
     data <$> head (net st') = data <$> head (net itd_training)).
Proof.
  split.
  - destruct (maml_iteration_ok maml_hyper 0 2 0 maml_training) as (st' & Hst & _);
      [cbn; lia|lia|repeat split|].
    exists st'. split; [exact Hst|].
    destruct (outer_step_updates maml_hyper itd_hyper 0 0%nat maml_training st')
      as [Hmaml _].
    destruct (Hmaml Hst eq_refl) as (logs & pre & Hparts). apply Hparts.
  - destruct (itd_iteration_ok itd_hyper 0 2 0 itd_training) as (st' & Hst & _);
      [cbn; lia|lia|repeat split|].
    exists st'. split; [exact Hst|].
    destruct (outer_step_updates maml_hyper itd_hyper 0 0%nat itd_training st')
      as [_ Hitd].
    destruct (Hitd Hst eq_refl) as (logs & pre & Hparts). apply Hparts.
Defined.

(** The head after the first outer iteration on [itd_training]: the value
    it started with, and the accumulated gradient. *)
Lemma itd_iteration_head :
  match ITDBiO.iteration itd_hyper 0 0%nat itd_training with
  | Ok st' => (fun p : Param => (data p, grad p)) <$> head (net st') = [(2, Some 3)]
  | Raise _ => False
  end.
Proof. vm_compute. reflexivity. Qed.

(** C3 fails in ITD-BiO.py: after an outer iteration the head's parameter
    holds an accumulated gradient, and its value is the one it had, not
    Adam's update from that gradient. *)
Lemma head_is_not_meta_updated :
  exists st' p p' g,
    ITDBiO.iteration itd_hyper 0 0%nat itd_training = Ok st' /\
    head (net itd_training) !! 0%nat = Some p /\
    head (net st') !! 0%nat = Some p' /\
    grad p' = Some g /\
    data p' = data p /\
    forall s, (adam (ITDBiO.meta_lr itd_hyper) s (data p) g).1 <> data p'.
Proof.
  destruct (itd_iteration_ok itd_hyper 0 2 0 itd_training) as (st' & Hst & _);
    [cbn; lia|lia|repeat split|].
  pose proof itd_iteration_head as Hhd. rewrite Hst in Hhd.
  destruct (single_param _ _ _ Hhd) as (p' & Hp' & Hd & Hg).
  exists st'. eexists _, p', _. split; [exact Hst|].
  split; [reflexivity|]. split; [exact Hp'|]. split; [exact Hg|].
  split; [rewrite Hd; reflexivity|]. intros s. rewrite Hd. vm_compute. discriminate.
Qed.


(** C7 fails without the directory: the five runs complete and the first
    [open] raises, so nothing is written. *)
Lemma script_without_directory :
  exists c,
    for_each MAML.seeds MAML.run_seed (MAML.mkCollected world0 [] [] []) = Ok c /\
    MAML.script world0 (mkFS [] []) = Raise FileNotFoundError.
Proof.
  destruct (maml_seeds_ok world0) as [c Hc]. exists c. split; [exact Hc|].
  apply (script_missing_directory world0 (mkFS [] []) c); [|exact Hc].
  cbn. apply not_elem_of_nil.
Qed.

Lemma script_outputs_witness :
  "exp_data" ∈ ["exp_data"] /\
  exists c,
    for_each MAML.seeds MAML.run_seed (MAML.mkCollected world0 [] [] []) = Ok c /\
    MAML.script world0 (mkFS ["exp_data"] []) =
      Ok (c, mkFS ["exp_data"]
               [("exp_data/train_accuracy_lr_0.001_fastlr_0.5_steps_3", MAML.train_accuracy c);
                ("exp_data/test_accuracy_lr_0.001_fastlr_0.5_steps_3", MAML.c_test_accuracy c);
                ("exp_data/run_time_lr_0.001_fastlr_0.5_steps_3", MAML.run_time c)]).
Proof.
  assert (Hd : "exp_data" ∈ ["exp_data"]) by apply list_elem_of_here.
  split; [exact Hd|].
  destruct (maml_seeds_ok world0) as [c Hc]. exists c. split; [exact Hc|].
  destruct (script_outputs world0 (mkFS ["exp_data"] []) Hd) as [Hmaml _].
  destruct (Hmaml c Hc) as [Hs _]. exact Hs.
Defined.

End Concrete.

(** * Further properties of the scripts *)

(** ** The split on batches of any size *)

Section SplitAnySize.
Context {A : Type}.

Lemma masked_all_false {B} (xs : list B) (n : nat) : masked xs (replicate n false) = [].
Proof.
  revert n. induction xs as [|x xs IH]; intros [|n]; cbn; try reflexivity. apply IH.
Qed.

Lemma masked_all_true {B} (xs : list B) : masked xs (replicate (length xs) true) = xs.
Proof. induction xs as [|x xs IH]; cbn; [reflexivity|]. rewrite IH. reflexivity. Qed.

Lemma mask_without_rows (n : nat) (m : list bool) :
  length m = n -> (forall i, (i < n)%nat -> m !! i = Some false) -> m = replicate n false.
Proof.
  intros Hl Hm. apply list_eq. intros i.
  destruct (decide (i < n)%nat) as [Hi|Hi].
  - rewrite Hm by exact Hi. symmetry. apply lookup_replicate_2. exact Hi.
  - rewrite !lookup_ge_None_2; [reflexivity|rewrite length_replicate; lia|lia].
Qed.

(** Selection by a mask that alternates over the first [2*s] positions and
    is false after them; the list may end one position early. *)
Lemma masked_evens_prefix {B} (s : nat) (xs : list B) (m : list bool) :
  length m = length xs -> (2 * s - 1 <= length xs)%nat ->
  (forall i, (i < length xs)%nat -> m !! i = Some (Nat.even i && (i <? 2 * s)%nat)) ->
  length (masked xs m) = s /\
  (forall k, (k < s)%nat -> masked xs m !! k = xs !! (2 * k)%nat) /\
  (forall k, (k < s)%nat -> masked xs (Numpy.invert m) !! k = xs !! (2 * k + 1)%nat) /\
  (forall j, masked xs (Numpy.invert m) !! (s + j)%nat = xs !! (2 * s + j)%nat) /\
  masked xs m ++ masked xs (Numpy.invert m) ≡ₚ xs.
Proof.
  revert xs m. induction s as [|s IH]; intros xs m Hl Hn Hm.
  - rewrite (mask_without_rows (length xs) m Hl).
    2: { intros i Hi. rewrite Hm by exact Hi. rewrite andb_false_r. reflexivity. }
    unfold Numpy.invert. rewrite fmap_replicate. cbn [negb].
    rewrite masked_all_false, masked_all_true.
    repeat split; try reflexivity; intros k Hk; lia.
  - destruct xs as [|x xs]; [cbn in Hn; lia|].
    destruct m as [|b0 m]; [discriminate|].
    pose proof (Hm 0%nat ltac:(cbn; lia)) as H0. cbn in H0. injection H0 as ->.
    destruct xs as [|y xs].
    + destruct m; [|discriminate]. assert (s = 0%nat) as -> by (cbn in Hn; lia).
      cbn. repeat split; try reflexivity.
      * intros [|k] Hk; [reflexivity|lia].
      * intros [|k] Hk; [reflexivity|lia].
    + destruct m as [|b1 m]; [discriminate|].
      pose proof (Hm 1%nat ltac:(cbn; lia)) as H1. cbn in H1. injection H1 as ->.
      destruct (IH xs m) as (L & He & Ho & Hr & Hp).
      { cbn in Hl. lia. }
      { cbn in Hn. lia. }
      { intros i Hi. specialize (Hm (S (S i)) ltac:(cbn; lia)).
        change (m !! i = Some (Nat.even (S (S i)) && (S (S i) <? 2 * S s)%nat)) in Hm.
        rewrite Hm. f_equal.
        change (Nat.even (S (S i))) with (Nat.even i). f_equal.
        destruct (Nat.ltb_spec (S (S i)) (2 * S s)), (Nat.ltb_spec i (2 * s));
          try reflexivity; lia. }
      cbn [masked Numpy.invert fmap list_fmap negb].
      change (list_fmap bool bool negb m) with (Numpy.invert m).
      split; [cbn [length]; f_equal; exact L|]. split; [|split; [|split]].
      * intros [|k] Hk; [reflexivity|].
        replace (2 * S k)%nat with (S (S (2 * k))) by lia. cbn. apply He. lia.
      * intros [|k] Hk; [reflexivity|].
        replace (2 * S k + 1)%nat with (S (S (2 * k + 1))) by lia. cbn. apply Ho. lia.
      * intros j. replace (2 * S s + j)%nat with (S (S (2 * s + j))) by lia. cbn. apply Hr.
      * cbn [app]. constructor. rewrite <- Permutation_middle. constructor. exact Hp.
Qed.

(** X1. Whenever the index assignment is in bounds the split succeeds,
    whatever the size of the batch: the adaptation set is the [shots*ways]
    rows at the even positions below [2*shots*ways], the evaluation set is
    every other row in the order of the batch (the odd positions below
    [2*shots*ways], then all rows from [2*shots*ways] on); labels are
    selected by the same positions as rows, and no row is lost or
    repeated. *)
Theorem separate_any_size (data : list A) (labels : list Z) (shots ways : Z) :
  2 * (shots * ways) - 1 <= len data ->
  length labels = length data ->
  let s := Z.to_nat (shots * ways) in
  exists ep,
    separate data labels shots ways = Ok ep /\
    length (adaptation_data ep) = s /\
    length (adaptation_labels ep) = s /\
    length (evaluation_data ep) = (length data - s)%nat /\
    length (evaluation_labels ep) = (length data - s)%nat /\
    (forall k, (k < s)%nat ->
       adaptation_data ep !! k = data !! (2 * k)%nat /\
       adaptation_labels ep !! k = labels !! (2 * k)%nat /\
       evaluation_data ep !! k = data !! (2 * k + 1)%nat /\
       evaluation_labels ep !! k = labels !! (2 * k + 1)%nat) /\
    (forall j,
       evaluation_data ep !! (s + j)%nat = data !! (2 * s + j)%nat /\
       evaluation_labels ep !! (s + j)%nat = labels !! (2 * s + j)%nat) /\
    adaptation_data ep ++ evaluation_data ep ≡ₚ data /\
    adaptation_labels ep ++ evaluation_labels ep ≡ₚ labels.
Proof.
  intros Hn Hl. cbn zeta.
  destruct (separate_ok data labels shots ways Hn Hl) as (m & Hm & Hlook & Hsep).
  set (s := Z.to_nat (shots * ways)) in *.
  assert (Hs : (2 * s - 1 <= length data)%nat) by (unfold len in Hn; subst s; lia).
  destruct (masked_evens_prefix s data m Hm Hs Hlook) as (D1 & D2 & D3 & D4 & D5).
  destruct (masked_evens_prefix s labels m) as (L1 & L2 & L3 & L4 & L5);
    [congruence|lia|intros i Hi; apply Hlook; lia|].
  eexists. split; [exact Hsep|]. cbn.
  pose proof (Permutation_length D5) as PD. pose proof (Permutation_length L5) as PL.
  rewrite length_app in PD, PL.
  split; [exact D1|]. split; [exact L1|]. split; [lia|]. split; [lia|].
  split; [intros k Hk; auto|]. split; [intros j; auto|]. auto.
Qed.

(** X2. With [shots*ways <= 0] no index is written: on every batch with as
    many labels as rows, the empty one included, the adaptation set is
    empty and the evaluation set is the whole batch, unchanged. *)
Theorem separate_without_shots (data : list A) (labels : list Z) (shots ways : Z) :
  shots * ways <= 0 ->
  length labels = length data ->
  separate data labels shots ways = Ok (mkEpisode [] [] data labels).
Proof.
  intros Hsw Hl. unfold separate, adaptation_mask, Numpy.arange.
  replace (Z.to_nat (shots * ways)) with 0%nat by lia.
  cbn [seq fmap list_fmap Numpy.times Numpy.put mbind Result_bind].
  unfold Numpy.zeros, Numpy.invert. rewrite fmap_replicate. cbn [negb].
  rewrite !mask_select_ok by (rewrite length_replicate; congruence).
  cbn [mbind Result_bind].
  rewrite !masked_all_false, (masked_all_true data), <- Hl.
  rewrite (masked_all_true labels). reflexivity.
Qed.

End SplitAnySize.

(** ** Errors and edge cases of [accuracy] and [fast_adapt] *)

Section CountEqual.

Lemma count_equal_bounds (ps ts : list Z) :
  0 <= count_equal ps ts <= Z.of_nat (Nat.min (length ps) (length ts)).
Proof.
  revert ts. induction ps as [|p ps IH]; intros [|t ts]; cbn [count_equal length Nat.min];
    try lia.
  specialize (IH ts). destruct (decide (p = t)); lia.
Qed.

Lemma count_equal_all (ps ts : list Z) :
  length ps = length ts -> (count_equal ps ts = len ts <-> ps = ts).
Proof.
  unfold len. revert ts. induction ps as [|p ps IH]; intros [|t ts] Hl; try discriminate.
  - split; reflexivity.
  - injection Hl as Hl. cbn [count_equal length].
    pose proof (count_equal_bounds ps ts) as Hb. specialize (IH ts Hl).
    destruct (decide (p = t)) as [->|Hne]; split.
    + intros Hc. f_equal. apply IH. lia.
    + intros [= ->%IH]. lia.
    + intros Hc. lia.
    + intros [= -> _]. contradiction.
Qed.

Lemma count_equal_none (ps ts : list Z) :
  count_equal ps ts = 0 <-> forall i p, ps !! i = Some p -> ts !! i <> Some p.
Proof.
  revert ts. induction ps as [|p ps IH]; intros [|t ts]; cbn [count_equal].
  - split; [intros _ i p Hp; inversion Hp|reflexivity].
  - split; [intros _ i p Hp; inversion Hp|reflexivity].
  - split; [intros _ i q _; destruct i; discriminate|reflexivity].
  - pose proof (count_equal_bounds ps ts) as Hb. specialize (IH ts).
    destruct (decide (p = t)) as [->|Hne]; split.
    + intros Hc. lia.
    + intros Hall. exfalso. apply (Hall 0%nat t); reflexivity.
    + intros Hc [|i] q Hq; cbn in *.
      * injection Hq as <-. congruence.
      * apply IH; [lia|exact Hq].
    + intros Hall. replace (count_equal ps ts) with 0; [reflexivity|].
      symmetry. apply IH. intros i q Hq. apply (Hall (S i) q). exact Hq.
Qed.

End CountEqual.

Section Edges.
Context `{Torch}.

(** X4. [accuracy] returns exactly when there are as many predictions as
    targets, and raises [RuntimeError] (the [view]) otherwise.  Its
    numerator counts the rows whose argmax is the target: it lies between
    0 and the number of targets, equals that number exactly when every
    argmax is its target, and is 0 exactly when none is. *)
Theorem accuracy_numerator (predictions : list Row) (targets : list Z) :
  (length predictions <> length targets ->
     accuracy predictions targets = Raise RuntimeError) /\
  (length predictions = length targets ->
     exists c,
       accuracy predictions targets = Ok (t0_div (t0_of_count c) (len targets)) /\
       0 <= c <= len targets /\
       (c = len targets <-> argmax <$> predictions = targets) /\
       (c = 0 <-> forall i p, predictions !! i = Some p -> targets !! i <> Some (argmax p))).
Proof.
  split.
  - intros Hl. unfold accuracy. rewrite decide_False; [reflexivity|].
    rewrite length_fmap. exact Hl.
  - intros Hl. exists (count_equal (argmax <$> predictions) targets).
    assert (Hl' : length (argmax <$> predictions) = length targets)
      by (rewrite length_fmap; exact Hl).
    split; [unfold accuracy; rewrite decide_True by exact Hl'; reflexivity|].
    split.
    { pose proof (count_equal_bounds (argmax <$> predictions) targets) as Hb.
      unfold len. lia. }
    split; [apply count_equal_all; exact Hl'|].
    rewrite count_equal_none. split.
    + intros Hall i p Hp. apply Hall. rewrite list_lookup_fmap, Hp. reflexivity.
    + intros Hall i q Hq. rewrite list_lookup_fmap in Hq.
      destruct (predictions !! i) as [p|] eqn:Hp; [|discriminate].
      injection Hq as <-. apply (Hall i p Hp).
Qed.

(** X3. A batch whose labels are not as many as its rows makes
    [fast_adapt] raise [IndexError] at the boolean-mask indexing of the
    labels, also when the index assignment itself is in bounds; in
    ITD-BiO.py the rows are those of [features(data)]. *)
Theorem fast_adapt_label_mismatch (data : list Row) (labels : list Z) (learner : Learner)
    (features : list Row -> list Row) (loss : list Row -> list Z -> Tensor0)
    (reg_lambda : Scalar) (adaptation_steps shots ways : Z) :
  (length labels <> length data ->
     separate data labels shots ways = Raise IndexError /\
     MAML.fast_adapt (data, labels) learner loss adaptation_steps shots ways =
       Raise IndexError) /\
  (length labels <> length (features data) ->
     ITDBiO.fast_adapt (data, labels) learner features loss reg_lambda adaptation_steps
       shots ways = Raise IndexError).
Proof.
  assert (Hsep : forall (xs : list Row), length labels <> length xs ->
            separate xs labels shots ways = Raise IndexError).
  { intros xs Hl.
    destruct (separate_outcome xs labels shots ways) as [(ep & Hep & _)|Herr];
      [|exact Herr].
    exfalso. unfold separate in Hep.
    apply bind_Ok in Hep as (m & Hm & Hep).
    apply bind_Ok in Hep as (ad & Had & Hep).
    apply bind_Ok in Hep as (al & Hal & _).
    unfold mask_select in Had, Hal.
    destruct (decide (length m = length xs)) as [H1|]; [|discriminate].
    destruct (decide (length m = length labels)) as [H2|]; [|discriminate].
    congruence. }
  split; intros Hl.
  - split; [apply Hsep; exact Hl|].
    unfold MAML.fast_adapt, MAML.fast_adapt_run. rewrite (Hsep data Hl). reflexivity.
  - unfold ITDBiO.fast_adapt, ITDBiO.fast_adapt_run.
    rewrite (Hsep (features data) Hl). reflexivity.
Qed.

(** X5. A negative [adaptation_steps] is an empty [range]: [fast_adapt]
    does what it does for 0 steps, makes no [learner.adapt] call and
    evaluates the learner it was given. *)
Theorem fast_adapt_nonpositive_steps (batch : list Row * list Z) (learner : Learner)
    (features : list Row -> list Row) (loss : list Row -> list Z -> Tensor0)
    (reg_lambda : Scalar) (adaptation_steps shots ways : Z) :
  adaptation_steps <= 0 ->
  MAML.fast_adapt batch learner loss adaptation_steps shots ways =
    MAML.fast_adapt batch learner loss 0 shots ways /\
  ITDBiO.fast_adapt batch learner features loss reg_lambda adaptation_steps shots ways =
    ITDBiO.fast_adapt batch learner features loss reg_lambda 0 shots ways /\
  (forall r,
     MAML.fast_adapt_run batch learner loss adaptation_steps shots ways = Ok r ->
     adapt_calls r = [] /\ adapted r = learner /\
     predictions r = forward learner (evaluation_data (episode r))) /\
  (forall r,
     ITDBiO.fast_adapt_run batch learner features loss reg_lambda adaptation_steps
       shots ways = Ok r ->
     adapt_calls r = [] /\ adapted r = learner /\
     predictions r = forward learner (evaluation_data (episode r))).
Proof.
  intros Hs.
  assert (Hr : py_range adaptation_steps = py_range 0).
  { unfold py_range. replace (Z.to_nat adaptation_steps) with 0%nat by lia. reflexivity. }
  split; [unfold MAML.fast_adapt, MAML.fast_adapt_run; rewrite Hr; reflexivity|].
  split; [unfold ITDBiO.fast_adapt, ITDBiO.fast_adapt_run; rewrite Hr; reflexivity|].
  split; intros r Hrun.
  - apply maml_run_inv in Hrun as (_ & Had & Hcalls & Hp & _).
    replace (Z.to_nat adaptation_steps) with 0%nat in * by lia.
    cbn in Had, Hcalls. rewrite Hp, Had. auto.
  - apply itd_run_inv in Hrun as (_ & Had & Hcalls & Hp & _).
    replace (Z.to_nat adaptation_steps) with 0%nat in * by lia.
    cbn in Had, Hcalls. rewrite Hp, Had. auto.
Qed.

End Edges.

(** ** What stays fixed during a meta batch and during training *)

Section FixedParameters.
Context `{Torch}.

(** A property of the state kept by every pass of the task loop, and a
    property of what every pass logs. *)
Lemma tasks_loop_inv (body : nat -> Tasks -> Result Tasks) (I : Tasks -> Prop)
    (Q : TaskLog -> Prop) (n a : nat) (ts0 ts : Tasks) :
  I ts0 ->
  (forall i st st', I st -> body i st = Ok st' ->
     I st' /\ exists log, t_log st' = t_log st ++ [log] /\ Q log) ->
  for_each (seq a n) body ts0 = Ok ts ->
  I ts /\ exists logs, t_log ts = t_log ts0 ++ logs /\ Forall Q logs.
Proof.
  intros H0 Hstep. revert a ts0 H0. induction n as [|n IH]; intros a ts0 H0; cbn.
  - intros [= <-]. split; [exact H0|]. exists []. rewrite app_nil_r. auto.
  - intros (ts1 & Hb & Hrest)%bind_Ok.
    destruct (Hstep _ _ _ H0 Hb) as (H1 & log & Hl & HQ).
    destruct (IH _ _ H1 Hrest) as (Hts & logs & Hl' & HQ').
    split; [exact Hts|]. exists (log :: logs). rewrite Hl', Hl, <- app_assoc.
    split; [reflexivity|]. constructor; assumption.
Qed.

Lemma zero_grad_data (ps : list Param) : data <$> zero_grad ps = data <$> ps.
Proof.
  unfold zero_grad. rewrite <- list_fmap_compose. apply list_fmap_ext.
  intros i p _. reflexivity.
Qed.

(** X6. All learners of an outer iteration start from the same values: in
    maml.py each of the three calls of each task of the meta batch adapts
    a clone of the parameters the model had when the iteration began; in
    ITD-BiO.py each adapts a clone of the head as it was then, on rows
    that went through the backbone as it was then.  Updates of the
    meta-model take effect for the next iteration only. *)
Theorem meta_batch_shares_start (hm : MAML.Hyper) (hi : ITDBiO.Hyper) (t : Scalar)
    (i : nat) (st st' : Training) :
  (MAML.iteration hm t i st = Ok st' ->
   let theta := data <$> MAML.parameters (net st) in
   let started r :=
     adapted r =
       Nat.iter (Z.to_nat (MAML.adaptation_steps hm))
         (maml_update cross_entropy (episode r)) (clone (MAML.fast_lr hm) theta) in
   exists logs,
     history st' = history st ++ [logs] /\
     Forall (fun l => started (train_run l) /\ started (valid_run l) /\
                      started (test_run l)) logs) /\
  (ITDBiO.iteration hi t i st = Ok st' ->
   let started r :=
     (exists b : list Row * list Z,
        separate (features_forward (data <$> features (net st)) b.1) b.2
          (ITDBiO.shots hi) (ITDBiO.ways hi) = Ok (episode r)) /\
     adapted r =
       Nat.iter (Z.to_nat (ITDBiO.adapt_steps hi))
         (itd_update cross_entropy (ITDBiO.reg_lambda hi) (episode r))
         (clone (ITDBiO.fast_lr hi) (data <$> head (net st))) in
   exists logs,
     history st' = history st ++ [logs] /\
     Forall (fun l => started (train_run l) /\ started (valid_run l) /\
                      started (test_run l)) logs).
Proof.
  split; intros Hit; cbn zeta.
  - destruct (maml_iteration_inv hm t i st st' Hit)
      as (ts & avg & Hts & _ & _ & _ & _ & _ & ->).
    rewrite with_parameters_zero_grad in Hts.
    eapply (tasks_loop_inv (MAML.task hm)
                (fun s => data <$> MAML.parameters (t_net s) =
                          data <$> MAML.parameters (net st))
                (fun l =>
                   let started r :=
                     adapted r =
                       Nat.iter (Z.to_nat (MAML.adaptation_steps hm))
                         (maml_update cross_entropy (episode r))
                         (clone (MAML.fast_lr hm) (data <$> MAML.parameters (net st))) in
                   started (train_run l) /\ started (valid_run l) /\ started (test_run l))
              ) in Hts; cycle 1.
    + cbn. unfold MAML.parameters. cbn. rewrite !fmap_app, !zero_grad_data. reflexivity.
    + intros j s s' Hs (r1 & r2 & r3 & H1 & H2 & H3 & ->)%maml_task_inv.
      cbn [t_net t_log]. split; [rewrite backward_data_parameters; exact Hs|].
      exists (mkTaskLog r1 r2 r3). split; [reflexivity|].
      rewrite Hs in H1, H2, H3. cbn.
      apply maml_run_inv in H1 as (_ & -> & _).
      apply maml_run_inv in H2 as (_ & -> & _).
      apply maml_run_inv in H3 as (_ & -> & _). auto.
    + destruct Hts as (_ & logs & Hlogs & HQ).
      exists logs. cbn in Hlogs. subst logs. split; [reflexivity|exact HQ].
  - destruct (itd_iteration_inv hi t i st st' Hit)
      as (ts & avg & Hts & _ & _ & _ & _ & _ & ->).
    eapply (tasks_loop_inv (ITDBiO.task hi)
                (fun s => data <$> features (t_net s) = data <$> features (net st) /\
                          data <$> head (t_net s) = data <$> head (net st))
                (fun l =>
                   let started r :=
                     (exists b : list Row * list Z,
                        separate (features_forward (data <$> features (net st)) b.1) b.2
                          (ITDBiO.shots hi) (ITDBiO.ways hi) = Ok (episode r)) /\
                     adapted r =
                       Nat.iter (Z.to_nat (ITDBiO.adapt_steps hi))
                         (itd_update cross_entropy (ITDBiO.reg_lambda hi) (episode r))
                         (clone (ITDBiO.fast_lr hi) (data <$> head (net st))) in
                   started (train_run l) /\ started (valid_run l) /\ started (test_run l))
              ) in Hts; cycle 1.
    + cbn. rewrite zero_grad_data. auto.
    + intros j s s' [Hf Hh] (r1 & r2 & r3 & H1 & H2 & H3 & ->)%itd_task_inv.
      cbn [t_net t_log]. split.
      { rewrite backward_data_features, backward_data_head. auto. }
      exists (mkTaskLog r1 r2 r3). split; [reflexivity|].
      rewrite Hf, Hh in H1, H2, H3. cbn.
      apply itd_run_inv in H1 as (S1 & -> & _).
      apply itd_run_inv in H2 as (S2 & -> & _).
      apply itd_run_inv in H3 as (S3 & -> & _). eauto 10.
    + destruct Hts as (_ & logs & Hlogs & HQ).
      exists logs. cbn in Hlogs. subst logs. split; [reflexivity|exact HQ].
Qed.

(** The state [main] of ITD-BiO.py enters the loop with. *)
Lemma itd_main_start (h : ITDBiO.Hyper) (w : World) (st : Training) :
  ITDBiO.main h w = Ok st ->
  let fs := init_features (seed_all (ITDBiO.cuda h) (ITDBiO.seed h) w) in
  let hd := init_linear (ITDBiO.ways h) fs.2 in
  exists t st0,
    net st0 = mkNet ((fun x => mkParam x None) <$> fs.1) ((fun x => mkParam x None) <$> hd.1) /\
    history st0 = [] /\
    arrays (Z.to_nat (ITDBiO.iters h)) st0 /\
    for_each (py_range (ITDBiO.iters h)) (ITDBiO.iteration h t) st0 = Ok st.
Proof.
  unfold ITDBiO.main. cbn zeta.
  destruct (init_features _) as [fs w1]. destruct (init_linear _ _) as [hd w2].
  intros (a1 & [Hn ->]%ones_inv & (a2 & [_ ->]%ones_inv & (a3 & [_ ->]%ones_inv & Hloop)%bind_Ok)%bind_Ok)%bind_Ok.
  destruct (time w2) as [t w3]. eexists t, _.
  split; [|split; [|split; [|exact Hloop]]]; [reflexivity..|].
  unfold arrays. cbn. rewrite !length_replicate. auto.
Qed.

Lemma maml_main_start (h : MAML.Hyper) (w : World) (st : Training) :
  MAML.main h w = Ok st ->
  let fs := init_features (seed_all (MAML.cuda h) (MAML.seed h) w) in
  let hd := init_linear (MAML.ways h) fs.2 in
  exists t st0,
    net st0 = mkNet ((fun x => mkParam x None) <$> fs.1) ((fun x => mkParam x None) <$> hd.1) /\
    history st0 = [] /\
    arrays (Z.to_nat (MAML.num_iterations h)) st0 /\
    for_each (py_range (MAML.num_iterations h)) (MAML.iteration h t) st0 = Ok st.
Proof.
  unfold MAML.main. cbn zeta.
  destruct (init_features _) as [fs w1]. destruct (init_linear _ _) as [hd w2].
  intros (a1 & [Hn ->]%ones_inv & (a2 & [_ ->]%ones_inv & (a3 & [_ ->]%ones_inv & Hloop)%bind_Ok)%bind_Ok)%bind_Ok.
  destruct (time w2) as [t w3]. eexists t, _.
  split; [|split; [|split; [|exact Hloop]]]; [reflexivity..|].
  unfold arrays. cbn. rewrite !length_replicate. auto.
Qed.

Lemma contributions_app (a b : list TaskLog) (r : ParamRef) :
  contributions (a ++ b) r = contributions a r ++ contributions b r.
Proof. unfold contributions. apply fmap_app. Qed.

(** X7. In ITD-BiO.py the head is never trained by the outer loop: when
    [main] returns, the parameters of [head] hold the values they were
    initialised with, and since [zero_grad] only reaches the backbone
    their [.grad] holds the sum of the gradients of the meta-training
    errors of all tasks of all iterations. *)
Theorem itd_head_keeps_initial_values (h : ITDBiO.Hyper) (w : World) (st : Training) :
  ITDBiO.main h w = Ok st ->
  let fs := init_features (seed_all (ITDBiO.cuda h) (ITDBiO.seed h) w) in
  let hd := (init_linear (ITDBiO.ways h) fs.2).1 in
  data <$> head (net st) = hd /\
  forall k v, hd !! k = Some v ->
    head (net st) !! k =
      Some (mkParam v (grad_sum (contributions (concat (history st)) (InHead k)))).
Proof.
  intros Hmain. cbn zeta.
  destruct (itd_main_start h w st Hmain) as (t & st0 & Hnet & Hh & _ & Hloop).
  cbn zeta in Hnet.
  set (hd := (init_linear (ITDBiO.ways h)
                (init_features (seed_all (ITDBiO.cuda h) (ITDBiO.seed h) w)).2).1) in *.
  assert (Hinv : forall k v, hd !! k = Some v ->
            head (net st) !! k =
              Some (mkParam v (grad_sum (contributions (concat (history st)) (InHead k))))).
  { pose (Inv := fun (_ : nat) (s : Training) =>
      forall k v, hd !! k = Some v ->
        head (net s) !! k =
          Some (mkParam v (grad_sum (contributions (concat (history s)) (InHead k))))).
    change (Inv (0 + Z.to_nat (ITDBiO.iters h))%nat st).
    apply (for_each_seq_inv (ITDBiO.iteration h t) Inv _ 0 st0 st); [| |exact Hloop].
    - intros k v Hk. rewrite Hnet, Hh. cbn. rewrite list_lookup_fmap, Hk. reflexivity.
    - intros j s s1 _ Hs Hb k v Hk.
      destruct (itd_iteration_params h t j s s1 Hb) as (logs & Hhist & _ & _ & _ & _ & Hhead).
      rewrite (Hhead k _ (Hs k v Hk)), Hhist. cbn [data grad].
      rewrite concat_app, contributions_app. cbn [concat]. rewrite app_nil_r.
      unfold grad_sum. rewrite foldl_app. reflexivity. }
  split; [|exact Hinv].
  apply list_eq. intros k. rewrite list_lookup_fmap.
  destruct (hd !! k) as [v|] eqn:Hk.
  - rewrite (Hinv k v Hk). reflexivity.
  - assert (Hlen : length (head (net st)) = length hd).
    { pose (Inv := fun (_ : nat) (s : Training) => length (head (net s)) = length hd).
      change (Inv (0 + Z.to_nat (ITDBiO.iters h))%nat st).
      apply (for_each_seq_inv (ITDBiO.iteration h t) Inv _ 0 st0 st); [| |exact Hloop].
      - unfold Inv. rewrite Hnet. cbn. apply length_fmap.
      - intros j s s1 _ Hs Hb. unfold Inv in *.
        destruct (itd_iteration_params h t j s s1 Hb) as (_ & _ & _ & _ & Hl & _).
        congruence. }
    apply lookup_ge_None in Hk. rewrite lookup_ge_None_2 by lia. reflexivity.
Qed.

End FixedParameters.

(** ** [main]: what it returns and when it raises *)

Section MainEdges.
Context `{Torch}.

Lemma maml_iteration_arrays (h : MAML.Hyper) (t : Scalar) (n i : nat) (st st' : Training) :
  MAML.iteration h t i st = Ok st' -> arrays n st ->
  arrays n st' /\ length (history st') = S (length (history st)).
Proof.
  intros (ts & avg & _ & _ & _ & _ & _ & _ & ->)%maml_iteration_inv (L1 & L2 & L3).
  unfold arrays. cbn. rewrite !length_insert, length_app. cbn. repeat split; lia.
Qed.

Lemma itd_iteration_arrays (h : ITDBiO.Hyper) (t : Scalar) (n i : nat) (st st' : Training) :
  ITDBiO.iteration h t i st = Ok st' -> arrays n st ->
  arrays n st' /\ length (history st') = S (length (history st)).
Proof.
  intros (ts & avg & _ & _ & _ & _ & _ & _ & ->)%itd_iteration_inv (L1 & L2 & L3).
  unfold arrays. cbn. rewrite !length_insert, length_app. cbn. repeat split; lia.
Qed.

(** X8. [main] can only return for a nonnegative number of iterations, and
    the three arrays it returns have exactly that many entries, one outer
    iteration having run for each, whatever the size of the meta batch. *)
Theorem main_returns_one_entry_per_iteration (hm : MAML.Hyper) (hi : ITDBiO.Hyper)
    (w : World) (st : Training) :
  (MAML.main hm w = Ok st ->
   0 <= MAML.num_iterations hm /\
   len (training_accuracy st) = MAML.num_iterations hm /\
   len (test_accuracy st) = MAML.num_iterations hm /\
   len (running_time st) = MAML.num_iterations hm /\
   len (history st) = MAML.num_iterations hm) /\
  (ITDBiO.main hi w = Ok st ->
   0 <= ITDBiO.iters hi /\
   len (training_accuracy st) = ITDBiO.iters hi /\
   len (test_accuracy st) = ITDBiO.iters hi /\
   len (running_time st) = ITDBiO.iters hi /\
   len (history st) = ITDBiO.iters hi).
Proof.
  split; intros Hmain.
  - destruct (maml_main_inv hm w st Hmain) as (_ & _ & Hn & _).
    destruct (maml_main_start hm w st Hmain) as (t & st0 & _ & Hh & Ha & Hloop).
    pose (Inv := fun (k : nat) (s : Training) =>
      arrays (Z.to_nat (MAML.num_iterations hm)) s /\ length (history s) = k).
    assert (Hst : Inv (0 + Z.to_nat (MAML.num_iterations hm))%nat st).
    { apply (for_each_seq_inv (MAML.iteration hm t) Inv _ 0 st0 st); [| |exact Hloop].
      - split; [exact Ha|]. rewrite Hh. reflexivity.
      - intros i s s1 _ [Hs Hl] Hb.
        destruct (maml_iteration_arrays hm t _ i s s1 Hb Hs) as [Hs1 Hl1].
        split; [exact Hs1|lia]. }
    destruct Hst as [(L1 & L2 & L3) L4]. unfold len. repeat split; lia.
  - destruct (itd_main_inv hi w st Hmain) as (_ & _ & Hn & _).
    destruct (itd_main_start hi w st Hmain) as (t & st0 & _ & Hh & Ha & Hloop).
    pose (Inv := fun (k : nat) (s : Training) =>
      arrays (Z.to_nat (ITDBiO.iters hi)) s /\ length (history s) = k).
    assert (Hst : Inv (0 + Z.to_nat (ITDBiO.iters hi))%nat st).
    { apply (for_each_seq_inv (ITDBiO.iteration hi t) Inv _ 0 st0 st); [| |exact Hloop].
      - split; [exact Ha|]. rewrite Hh. reflexivity.
      - intros i s s1 _ [Hs Hl] Hb.
        destruct (itd_iteration_arrays hi t _ i s s1 Hb Hs) as [Hs1 Hl1].
        split; [exact Hs1|lia]. }
    destruct Hst as [(L1 & L2 & L3) L4]. unfold len. repeat split; lia.
Qed.

Lemma py_range_nonpositive (n : Z) : n <= 0 -> py_range n = [].
Proof. intros Hn. unfold py_range. replace (Z.to_nat n) with 0%nat by lia. reflexivity. Qed.

Lemma py_range_first (n : Z) : 1 <= n -> py_range n = 0%nat :: seq 1 (Z.to_nat n - 1).
Proof.
  intros Hn. unfold py_range.
  replace (Z.to_nat n) with (S (Z.to_nat n - 1)) at 1 by lia. reflexivity.
Qed.

Lemma py_div_zero (x : Scalar) : py_div x 0 = Raise ZeroDivisionError.
Proof. reflexivity. Qed.

Lemma maml_iteration_zero (h : MAML.Hyper) (t : Scalar) (i : nat) (st : Training) :
  MAML.meta_batch_size h = 0 -> MAML.iteration h t i st = Raise ZeroDivisionError.
Proof.
  intros HB. unfold MAML.iteration. rewrite HB, py_range_nonpositive by lia. reflexivity.
Qed.

Lemma itd_iteration_zero (h : ITDBiO.Hyper) (t : Scalar) (i : nat) (st : Training) :
  ITDBiO.meta_bsz h = 0 -> ITDBiO.iteration h t i st = Raise ZeroDivisionError.
Proof.
  intros HB. unfold ITDBiO.iteration. rewrite HB, py_range_nonpositive by lia. reflexivity.
Qed.

(** X9. With [meta_batch_size = 0] the task loop is empty and the first
    outer iteration raises [ZeroDivisionError] when it averages the
    training accuracy, in both scripts. *)
Theorem empty_meta_batch_raises (hm : MAML.Hyper) (hi : ITDBiO.Hyper) (w : World) :
  (MAML.meta_batch_size hm = 0 -> 1 <= MAML.num_iterations hm ->
   MAML.main hm w = Raise ZeroDivisionError) /\
  (ITDBiO.meta_bsz hi = 0 -> 1 <= ITDBiO.iters hi ->
   ITDBiO.main hi w = Raise ZeroDivisionError).
Proof.
  split; intros HB Hn.
  - unfold MAML.main.
    destruct (init_features _) as [fs w1]. destruct (init_linear _ _) as [hd w2].
    unfold ones. rewrite decide_False by lia. cbn [mbind Result_bind].
    destruct (time w2) as [t w3].
    rewrite py_range_first by exact Hn. cbn [for_each].
    rewrite maml_iteration_zero by exact HB. reflexivity.
  - unfold ITDBiO.main.
    destruct (init_features _) as [fs w1]. destruct (init_linear _ _) as [hd w2].
    unfold ones. rewrite decide_False by lia. cbn [mbind Result_bind].
    destruct (time w2) as [t w3].
    rewrite py_range_first by exact Hn. cbn [for_each].
    rewrite itd_iteration_zero by exact HB. reflexivity.
Qed.

Lemma average_grads_none (B : Z) (ps : list Param) :
  ps <> [] -> average_grads B (zero_grad ps) = Raise AttributeError.
Proof. destruct ps as [|p ps]; [contradiction|]. reflexivity. Qed.

Lemma maml_iteration_negative (h : MAML.Hyper) (t : Scalar) (i : nat) (st : Training) :
  MAML.meta_batch_size h < 0 ->
  (i < length (training_accuracy st))%nat -> (i < length (test_accuracy st))%nat ->
  MAML.parameters (net st) <> [] ->
  MAML.iteration h t i st = Raise AttributeError.
Proof.
  intros HB Hi1 Hi2 Hps. unfold MAML.iteration. rewrite py_range_nonpositive by lia.
  cbn [for_each mbind Result_bind t_sums t_net].
  unfold py_div. rewrite !decide_False by lia. cbn [mbind Result_bind].
  unfold setitem. rewrite !decide_True by assumption. cbn [mbind Result_bind].
  unfold print_metrics, py_div. rewrite !decide_False by lia. cbn [mbind Result_bind].
  rewrite with_parameters_parameters, average_grads_none by exact Hps. reflexivity.
Qed.

Lemma itd_iteration_negative (h : ITDBiO.Hyper) (t : Scalar) (i : nat) (st : Training) :
  ITDBiO.meta_bsz h < 0 ->
  (i < length (training_accuracy st))%nat -> (i < length (test_accuracy st))%nat ->
  features (net st) <> [] ->
  ITDBiO.iteration h t i st = Raise AttributeError.
Proof.
  intros HB Hi1 Hi2 Hps. unfold ITDBiO.iteration. rewrite py_range_nonpositive by lia.
  cbn [for_each mbind Result_bind t_sums t_net features].
  unfold py_div. rewrite !decide_False by lia. cbn [mbind Result_bind].
  unfold setitem. rewrite !decide_True by assumption. cbn [mbind Result_bind].
  unfold print_metrics, py_div. rewrite !decide_False by lia. cbn [mbind Result_bind].
  rewrite average_grads_none by exact Hps. reflexivity.
Qed.

(** X10. With a negative [meta_batch_size] no task runs and no backward
    pass fills a gradient: the first outer iteration raises
    [AttributeError] at [p.grad.data] as soon as the optimizer holds a
    parameter. *)
Theorem negative_meta_batch_raises (hm : MAML.Hyper) (hi : ITDBiO.Hyper) (w : World) :
  (MAML.meta_batch_size hm < 0 -> 1 <= MAML.num_iterations hm ->
   (init_features (seed_all (MAML.cuda hm) (MAML.seed hm) w)).1 <> [] ->
   MAML.main hm w = Raise AttributeError) /\
  (ITDBiO.meta_bsz hi < 0 -> 1 <= ITDBiO.iters hi ->
   (init_features (seed_all (ITDBiO.cuda hi) (ITDBiO.seed hi) w)).1 <> [] ->
   ITDBiO.main hi w = Raise AttributeError).
Proof.
  split; intros HB Hn Hfs.
  - unfold MAML.main.
    destruct (init_features _) as [fs w1]. destruct (init_linear _ _) as [hd w2].
    cbn [fst] in Hfs.
    unfold ones. rewrite decide_False by lia. cbn [mbind Result_bind].
    destruct (time w2) as [t w3].
    rewrite py_range_first by exact Hn. cbn [for_each].
    rewrite maml_iteration_negative; [reflexivity|exact HB|..].
    + cbn. rewrite length_replicate. lia.
    + cbn. rewrite length_replicate. lia.
    + unfold MAML.parameters. cbn. destruct fs; [contradiction|discriminate].
  - unfold ITDBiO.main.
    destruct (init_features _) as [fs w1]. destruct (init_linear _ _) as [hd w2].
    cbn [fst] in Hfs.
    unfold ones. rewrite decide_False by lia. cbn [mbind Result_bind].
    destruct (time w2) as [t w3].
    rewrite py_range_first by exact Hn. cbn [for_each].
    rewrite itd_iteration_negative; [reflexivity|exact HB|..].
    + cbn. rewrite length_replicate. lia.
    + cbn. rewrite length_replicate. lia.
    + cbn. destruct fs; [contradiction|discriminate].
Qed.

(** X11. Given what the scripts rely on of the library (one output row per
    input row, episodes of [ways * 2*shots] rows, a gradient for every
    parameter), [main] runs to its end for every meta batch of at least one
    task and every nonnegative number of iterations: no index is out of
    range, no division is by zero and no gradient is missing on the way. *)
Theorem main_runs_to_the_end `{!TorchShapes} `{!Reliable} (hm : MAML.Hyper)
    (hi : ITDBiO.Hyper) (w : World) :
  (1 <= MAML.meta_batch_size hm -> 0 <= MAML.num_iterations hm ->
   succeeds (MAML.main hm w)) /\
  (1 <= ITDBiO.meta_bsz hi -> 0 <= ITDBiO.iters hi ->
   succeeds (ITDBiO.main hi w)).
Proof.
  split; intros HB Hn; [apply maml_main_ok|apply itd_main_ok]; assumption.
Qed.

Lemma last_iteration {S} (body : nat -> S -> Result S) (n : nat) (s0 s : S) :
  for_each (seq 0 (Datatypes.S n)) body s0 = Ok s ->
  exists s', for_each (seq 0 n) body s0 = Ok s' /\ body n s' = Ok s.
Proof.
  rewrite seq_S, for_each_app. intros (s' & Hs' & Hlast)%bind_Ok.
  exists s'. split; [exact Hs'|]. cbn in Hlast.
  apply bind_Ok in Hlast as (s1 & Hb & [= <-]). exact Hb.
Qed.

(** X12. Gradients of the parameters the optimizer holds do not leak from
    one outer iteration to the next: when [main] returns after at least
    one iteration, each of them holds the gradient of the last iteration
    only, the sum over the tasks of its meta batch times
    [1.0 / meta_batch_size]. *)
Theorem gradients_are_those_of_the_last_iteration (hm : MAML.Hyper) (hi : ITDBiO.Hyper)
    (w : World) (st : Training) :
  (MAML.main hm w = Ok st -> 1 <= MAML.num_iterations hm ->
   exists logs,
     last (history st) = Some logs /\
     forall k p, MAML.parameters (net st) !! k = Some p ->
       exists total,
         grad_sum (contributions logs (ref_of (net st) k)) = Some total /\
         grad p = Some (tscale (fdiv (float_of_literal "1.0") (MAML.meta_batch_size hm))
                               total)) /\
  (ITDBiO.main hi w = Ok st -> 1 <= ITDBiO.iters hi ->
   exists logs,
     last (history st) = Some logs /\
     forall k p, features (net st) !! k = Some p ->
       exists total,
         grad_sum (contributions logs (InFeatures k)) = Some total /\
         grad p = Some (tscale (fdiv (float_of_literal "1.0") (ITDBiO.meta_bsz hi))
                               total)).
Proof.
  split; intros Hmain Hn.
  - destruct (maml_main_start hm w st Hmain) as (t & st0 & _ & _ & _ & Hloop).
    unfold py_range in Hloop.
    replace (Z.to_nat (MAML.num_iterations hm))
      with (S (Z.to_nat (MAML.num_iterations hm) - 1)) in Hloop by lia.
    apply last_iteration in Hloop as (sp & _ & Hlast).
    destruct (maml_iteration_params hm t _ sp st Hlast) as (logs & Hh & _ & Hf & Hhd & Hp).
    exists logs. split; [rewrite Hh; apply last_snoc|].
    intros k p Hk.
    destruct (lookup_lt_is_Some_2 (MAML.parameters (net sp)) k) as [p0 Hp0].
    { apply lookup_lt_Some in Hk. unfold MAML.parameters in *.
      rewrite length_app in *. lia. }
    destruct (Hp k p0 Hp0) as (_ & total & p' & Hsum & Hp' & Hg & _).
    rewrite Hk in Hp'. injection Hp' as <-.
    exists total. split; [|exact Hg].
    unfold ref_of in *. rewrite Hf. exact Hsum.
  - destruct (itd_main_start hi w st Hmain) as (t & st0 & _ & _ & _ & Hloop).
    unfold py_range in Hloop.
    replace (Z.to_nat (ITDBiO.iters hi))
      with (S (Z.to_nat (ITDBiO.iters hi) - 1)) in Hloop by lia.
    apply last_iteration in Hloop as (sp & _ & Hlast).
    destruct (itd_iteration_params hi t _ sp st Hlast)
      as (logs & Hh & _ & Hf & _ & Hp & _).
    exists logs. split; [rewrite Hh; apply last_snoc|].
    intros k p Hk.
    destruct (lookup_lt_is_Some_2 (features (net sp)) k) as [p0 Hp0].
    { apply lookup_lt_Some in Hk. lia. }
    destruct (Hp k p0 Hp0) as (_ & total & p' & Hsum & Hp' & Hg & _).
    rewrite Hk in Hp'. injection Hp' as <-.
    exists total. split; [exact Hsum|exact Hg].
Qed.

End MainEdges.

(** ** The further properties on concrete inputs *)

Section ConcreteFurther.
Import Small.

Lemma separate_any_size_witness :
  2 * (1 * 2) - 1 <= len (rows ++ [4; 5]) /\
  exists ep,
    separate (rows ++ [4; 5]) (labels ++ [1; 0]) 1 2 = Ok ep /\
    length (evaluation_data ep) = 4%nat.
Proof.
  assert (Hn : 2 * (1 * 2) - 1 <= len (rows ++ [4; 5])) by (vm_compute; discriminate).
  split; [exact Hn|].
  destruct (separate_any_size (rows ++ [4; 5]) (labels ++ [1; 0]) 1 2 Hn eq_refl)
    as (ep & Hep & _ & _ & He & _).
  exists ep. split; [exact Hep|exact He].
Defined.

Lemma separate_without_shots_witness :
  0 * 5 <= 0 /\ separate rows labels 0 5 = Ok (mkEpisode [] [] rows labels).
Proof.
  assert (Hsw : 0 * 5 <= 0) by lia.
  split; [exact Hsw|]. apply (separate_without_shots rows labels 0 5 Hsw eq_refl).
Defined.

Lemma fast_adapt_label_mismatch_witness :
  length [0; 1] <> length rows /\
  MAML.fast_adapt (rows, [0; 1]) learner cross_entropy 3 1 2 = Raise IndexError.
Proof.
  assert (Hl : length [0; 1] <> length rows) by (vm_compute; discriminate).
  split; [exact Hl|].
  destruct (fast_adapt_label_mismatch rows [0; 1] learner (fun x => x) cross_entropy 1 3 1 2)
    as [Hmaml _].
  apply (Hmaml Hl).
Defined.

Lemma accuracy_numerator_witness :
  accuracy rows [0; 1] = Raise RuntimeError /\
  exists c,
    accuracy rows labels = Ok (t0_div (t0_of_count c) (len labels)) /\
    (c = len labels <-> @argmax torch <$> rows = labels).
Proof.
  destruct (accuracy_numerator rows [0; 1]) as [Herr _].
  destruct (accuracy_numerator rows labels) as [_ Hok].
  split; [apply Herr; vm_compute; discriminate|].
  destruct (Hok eq_refl) as (c & Hc & _ & Hall & _).
  exists c. split; [exact Hc|exact Hall].
Defined.

Lemma fast_adapt_nonpositive_steps_witness :
  -2 <= 0 /\
  MAML.fast_adapt (rows, labels) learner cross_entropy (-2) 1 2 =
    MAML.fast_adapt (rows, labels) learner cross_entropy 0 1 2.
Proof.
  assert (Hs : -2 <= 0) by lia.
  split; [exact Hs|].
  destruct (fast_adapt_nonpositive_steps (rows, labels) learner (fun x => x) cross_entropy 1
              (-2) 1 2 Hs) as [Hm _].
  exact Hm.
Defined.

Lemma meta_batch_shares_start_witness :
  exists st' logs,
    MAML.iteration maml_hyper 0 0%nat maml_training = Ok st' /\
    history st' = history maml_training ++ [logs].
Proof.
  destruct (maml_iteration_ok maml_hyper 0 2 0 maml_training) as (st' & Hst & _);
    [cbn; lia|lia|repeat split|].
  destruct (meta_batch_shares_start maml_hyper itd_hyper 0 0%nat maml_training st')
    as [Hmaml _].
  destruct (Hmaml Hst) as (logs & Hh & _).
  exists st', logs. split; [exact Hst|exact Hh].
Defined.

Lemma itd_head_keeps_initial_values_witness :
  exists st,
    ITDBiO.main itd_hyper world0 = Ok st /\
    data <$> head (net st) = [2].
Proof.
  destruct (itd_main_ok itd_hyper world0) as [st Hst]; [cbn; lia..|].
  exists st. split; [exact Hst|].
  destruct (itd_head_keeps_initial_values itd_hyper world0 st Hst) as [Hd _].
  exact Hd.
Defined.

Lemma main_returns_one_entry_per_iteration_witness :
  exists st,
    MAML.main maml_hyper world0 = Ok st /\
    len (training_accuracy st) = MAML.num_iterations maml_hyper.
Proof.
  destruct (maml_main_ok maml_hyper world0) as [st Hst]; [cbn; lia..|].
  exists st. split; [exact Hst|].
  destruct (main_returns_one_entry_per_iteration maml_hyper itd_hyper world0 st)
    as [Hmaml _].
  destruct (Hmaml Hst) as (_ & Hl & _). exact Hl.
Defined.

Lemma empty_meta_batch_raises_witness :
  MAML.main (@MAML.mkHyper torch 2 1 1 1 0 2 2 true 7) world0 = Raise ZeroDivisionError.
Proof.
  destruct (empty_meta_batch_raises (@MAML.mkHyper torch 2 1 1 1 0 2 2 true 7) itd_hyper
              world0) as [Hmaml _].
  apply Hmaml; [reflexivity|cbn; lia].
Defined.

Lemma negative_meta_batch_raises_witness :
  ITDBiO.main (@ITDBiO.mkHyper torch 2 1 1 1 1 2 (-1) 2 true 7) world0 =
    Raise AttributeError.
Proof.
  destruct (negative_meta_batch_raises maml_hyper
              (@ITDBiO.mkHyper torch 2 1 1 1 1 2 (-1) 2 true 7) world0) as [_ Hitd].
  apply Hitd; [cbn; lia|cbn; lia|vm_compute; discriminate].
Defined.

Lemma main_runs_to_the_end_witness :
  succeeds (MAML.main maml_hyper world0) /\ succeeds (ITDBiO.main itd_hyper world0).
Proof.
  destruct (main_runs_to_the_end maml_hyper itd_hyper world0) as [Hmaml Hitd].
  split; [apply Hmaml|apply Hitd]; cbn; lia.
Defined.

Lemma gradients_are_those_of_the_last_iteration_witness :
  exists st logs,
    MAML.main maml_hyper world0 = Ok st /\
    last (history st) = Some logs.
Proof.
  destruct (maml_main_ok maml_hyper world0) as [st Hst]; [cbn; lia..|].
  destruct (gradients_are_those_of_the_last_iteration maml_hyper itd_hyper world0 st)
    as [Hmaml _].
  destruct (Hmaml Hst) as (logs & Hl & _); [cbn; lia|].
  exists st, logs. split; [exact Hst|exact Hl].
Defined.

End ConcreteFurther.

(** ** A run that raises *)

Section LostResults.
Context `{Torch}.

(** The two descriptions of a script agree: it returns the file system
    that is on disk at the end, and raises the exception it ends with. *)
Lemma dump_each_three {C} (n1 n2 n3 : string) (a b c : C) (fs : FileSystem C) :
  match (fs1 ← dump "exp_data" n1 a fs; fs2 ← dump "exp_data" n2 b fs1;
         dump "exp_data" n3 c fs2) with
  | Ok fs' => dump_each "exp_data" [(n1, a); (n2, b); (n3, c)] fs = (fs', None)
  | Raise e => (dump_each "exp_data" [(n1, a); (n2, b); (n3, c)] fs).2 = Some e
  end.
Proof.
  cbn [dump_each].
  destruct (dump "exp_data" n1 a fs) as [fs1|e1]; cbn [mbind Result_bind]; [|reflexivity].
  destruct (dump "exp_data" n2 b fs1) as [fs2|e2]; cbn [mbind Result_bind]; [|reflexivity].
  destruct (dump "exp_data" n3 c fs2) as [fs3|e3]; reflexivity.
Qed.

Lemma maml_on_disk_script (w : World) (fs : FileSystem (list (list Scalar))) :
  match MAML.script w fs with
  | Ok (_, fs') => maml_on_disk w fs = (fs', None)
  | Raise e => (maml_on_disk w fs).2 = Some e
  end.
Proof.
  unfold MAML.script, maml_on_disk.
  destruct (for_each MAML.seeds MAML.run_seed _) as [c|e]; cbn [mbind Result_bind];
    [|reflexivity].
  pose proof (dump_each_three (String.append "train_accuracy" MAML.pstr)
                (String.append "test_accuracy" MAML.pstr)
                (String.append "run_time" MAML.pstr)
                (MAML.train_accuracy c) (MAML.c_test_accuracy c) (MAML.run_time c) fs) as Hd.
  destruct (dump "exp_data" _ (MAML.train_accuracy c) fs) as [fs1|e1];
    cbn [mbind Result_bind] in *; [|exact Hd].
  destruct (dump "exp_data" _ (MAML.c_test_accuracy c) fs1) as [fs2|e2];
    cbn [mbind Result_bind] in *; [|exact Hd].
  destruct (dump "exp_data" _ (MAML.run_time c) fs2) as [fs3|e3];
    cbn [mbind Result_bind] in *; exact Hd.
Qed.

Lemma itd_on_disk_script (w : World) (fs : FileSystem (list (list Scalar))) :
  match ITDBiO.script w fs with
  | Ok (_, fs') => itd_on_disk w fs = (fs', None)
  | Raise e => (itd_on_disk w fs).2 = Some e
  end.
Proof.
  unfold ITDBiO.script, itd_on_disk.
  destruct (for_each ITDBiO.seeds ITDBiO.run_seed _) as [c|e]; cbn [mbind Result_bind];
    [|reflexivity].
  pose proof (dump_each_three (String.append "train_accuracy" ITDBiO.pstr)
                (String.append "test_accuracy" ITDBiO.pstr)
                (String.append "run_time" ITDBiO.pstr)
                (ITDBiO.train_accuracy c) (ITDBiO.c_test_accuracy c) (ITDBiO.run_time c) fs)
    as Hd.
  destruct (dump "exp_data" _ (ITDBiO.train_accuracy c) fs) as [fs1|e1];
    cbn [mbind Result_bind] in *; [|exact Hd].
  destruct (dump "exp_data" _ (ITDBiO.c_test_accuracy c) fs1) as [fs2|e2];
    cbn [mbind Result_bind] in *; [|exact Hd].
  destruct (dump "exp_data" _ (ITDBiO.run_time c) fs2) as [fs3|e3];
    cbn [mbind Result_bind] in *; exact Hd.
Qed.

Lemma maml_one_seed (seed : Z) (w : World) (st : Training) :
  MAML.main (MAML.hyper seed) w = Ok st ->
  for_each [seed] MAML.run_seed (MAML.mkCollected w [] [] []) =
    Ok (MAML.mkCollected (world st) [training_accuracy st] [test_accuracy st]
          [running_time st]).
Proof.
  intros Hst. cbn [for_each]. unfold MAML.run_seed. cbn [MAML.c_world].
  rewrite Hst. reflexivity.
Qed.

(** X13. The files are written only after the last seed.  When [main]
    raises for one of the seeds, after the seeds before it have completed
    and their arrays have been collected, the script raises the same
    error and the file system at the end of the block is the one it
    started with: no file has been opened, and the collected arrays are
    not on disk. *)
Theorem failed_seed_loses_all_results (w : World) (fs : FileSystem (list (list Scalar)))
    (completed rest : list Z) (seed : Z) (e : PyError) :
  (MAML.seeds = completed ++ seed :: rest ->
   forall c,
     for_each completed MAML.run_seed (MAML.mkCollected w [] [] []) = Ok c ->
     MAML.main (MAML.hyper seed) (MAML.c_world c) = Raise e ->
     length (MAML.train_accuracy c) = length completed /\
     MAML.script w fs = Raise e /\
     maml_on_disk w fs = (fs, Some e)) /\
  (ITDBiO.seeds = completed ++ seed :: rest ->
   forall c,
     for_each completed ITDBiO.run_seed (ITDBiO.mkCollected w [] [] []) = Ok c ->
     ITDBiO.main (ITDBiO.hyper seed) (ITDBiO.c_world c) = Raise e ->
     length (ITDBiO.train_accuracy c) = length completed /\
     ITDBiO.script w fs = Raise e /\
     itd_on_disk w fs = (fs, Some e)).
Proof.
  split; intros Hseeds c Hc Hmain.
  - assert (Hrs : MAML.run_seed seed c = Raise e)
      by (unfold MAML.run_seed; rewrite Hmain; reflexivity).
    assert (Hloop : for_each MAML.seeds MAML.run_seed (MAML.mkCollected w [] [] []) =
                    Raise e).
    { rewrite Hseeds, for_each_app, Hc. cbn [mbind Result_bind for_each].
      rewrite Hrs. reflexivity. }
    split.
    { clear Hseeds Hmain Hrs Hloop. revert c Hc.
      induction completed as [|s l IH] using rev_ind; intros c Hc.
      - injection Hc as <-. reflexivity.
      - rewrite for_each_app in Hc. apply bind_Ok in Hc as (c1 & Hc1 & Hc).
        cbn [for_each] in Hc. apply bind_Ok in Hc as (c2 & Hc2 & [= <-]).
        apply maml_run_seed_inv in Hc2 as (st & _ & ->).
        cbn [MAML.train_accuracy]. rewrite !length_app, (IH c1 Hc1). reflexivity. }
    split.
    + unfold MAML.script. rewrite Hloop. reflexivity.
    + unfold maml_on_disk. rewrite Hloop. reflexivity.
  - assert (Hrs : ITDBiO.run_seed seed c = Raise e)
      by (unfold ITDBiO.run_seed; rewrite Hmain; reflexivity).
    assert (Hloop : for_each ITDBiO.seeds ITDBiO.run_seed (ITDBiO.mkCollected w [] [] []) =
                    Raise e).
    { rewrite Hseeds, for_each_app, Hc. cbn [mbind Result_bind for_each].
      rewrite Hrs. reflexivity. }
    split.
    { clear Hseeds Hmain Hrs Hloop. revert c Hc.
      induction completed as [|s l IH] using rev_ind; intros c Hc.
      - injection Hc as <-. reflexivity.
      - rewrite for_each_app in Hc. apply bind_Ok in Hc as (c1 & Hc1 & Hc).
        cbn [for_each] in Hc. apply bind_Ok in Hc as (c2 & Hc2 & [= <-]).
        apply itd_run_seed_inv in Hc2 as (st & _ & ->).
        cbn [ITDBiO.train_accuracy]. rewrite !length_app, (IH c1 Hc1). reflexivity. }
    split.
    + unfold ITDBiO.script. rewrite Hloop. reflexivity.
    + unfold itd_on_disk. rewrite Hloop. reflexivity.
Qed.

End LostResults.

(** ** Runs on a sampler that works on some worlds only *)

Section SeededRuns.
Context `{Torch} `{!TorchShapes}.
Variable seeded : World -> Prop.
Hypothesis sample_seeded : forall m ways k w, seeded w ->
  length (sample m ways k w).1.1 = Z.to_nat (ways * k) /\
  length (sample m ways k w).1.2 = Z.to_nat (ways * k) /\
  seeded (sample m ways k w).2.
Hypothesis time_seeded : forall w, seeded w -> seeded (time w).2.
Hypothesis init_features_seeded : forall w, seeded w -> seeded (init_features w).2.
Hypothesis init_linear_seeded : forall ways w, seeded w -> seeded (init_linear ways w).2.
Hypothesis every_gradient : forall err r, is_Some (grad_wrt err r).

Lemma seeded_batch (m : Mode) (ways shots : Z) (w : World) :
  seeded w ->
  let s := sample m ways (2 * shots) w in
  2 * (shots * ways) - 1 <= len s.1.1 /\ length s.1.2 = length s.1.1 /\ seeded s.2.
Proof.
  intros Hw. cbn zeta. destruct (sample_seeded m ways (2 * shots) w Hw) as (Hd & Hl & Hw').
  unfold len. rewrite Hd, Hl. split; [|split; [reflexivity|exact Hw']].
  replace (ways * (2 * shots)) with (2 * (shots * ways)) by ring. lia.
Qed.

Lemma seeded_backward (err : Tensor0) (n : Net) :
  Forall (fun p => is_Some (grad p)) (MAML.parameters (backward err n)).
Proof.
  apply Forall_lookup. intros k p. rewrite backward_parameters.
  destruct (MAML.parameters n !! k) as [q|]; [|discriminate].
  intros [= <-]. rewrite accumulate_spec. cbn.
  destruct (every_gradient err (ref_of n k)) as [g ->]. cbn. eauto.
Qed.

Lemma maml_task_seeded (h : MAML.Hyper) (i : nat) (st : Tasks) :
  seeded (t_world st) ->
  exists st', MAML.task h i st = Ok st' /\
    Forall (fun p => is_Some (grad p)) (MAML.parameters (t_net st')) /\
    seeded (t_world st').
Proof.
  intros Hw. unfold MAML.task. cbn zeta.
  pose proof (seeded_batch TrainTasks (MAML.ways h) (MAML.shots h) (t_world st) Hw) as Hb1.
  destruct (sample TrainTasks _ _ _) as [[d1 l1] w1]. cbn in Hb1.
  destruct Hb1 as (Hn1 & Hl1 & Hw1).
  destruct (maml_run_ok d1 l1 (clone (MAML.fast_lr h) (data <$> MAML.parameters (t_net st)))
              cross_entropy (MAML.adaptation_steps h) (MAML.shots h) (MAML.ways h))
    as [r1 Hr1]; [assumption..|].
  rewrite Hr1. cbn [mbind Result_bind].
  pose proof (seeded_batch ValidTasks (MAML.ways h) (MAML.shots h) w1 Hw1) as Hb2.
  destruct (sample ValidTasks _ _ _) as [[d2 l2] w2]. cbn in Hb2.
  destruct Hb2 as (Hn2 & Hl2 & Hw2).
  destruct (maml_run_ok d2 l2
              (clone (MAML.fast_lr h)
                 (data <$> MAML.parameters (backward (valid_error r1) (t_net st))))
              cross_entropy (MAML.adaptation_steps h) (MAML.shots h) (MAML.ways h))
    as [r2 Hr2]; [assumption..|].
  rewrite Hr2. cbn [mbind Result_bind].
  pose proof (seeded_batch TestTasks (MAML.ways h) (MAML.shots h) w2 Hw2) as Hb3.
  destruct (sample TestTasks _ _ _) as [[d3 l3] w3]. cbn in Hb3.
  destruct Hb3 as (Hn3 & Hl3 & Hw3).
  destruct (maml_run_ok d3 l3
              (clone (MAML.fast_lr h)
                 (data <$> MAML.parameters (backward (valid_error r1) (t_net st))))
              cross_entropy (MAML.adaptation_steps h) (MAML.shots h) (MAML.ways h))
    as [r3 Hr3]; [assumption..|].
  rewrite Hr3. cbn [mbind Result_bind].
  eexists. split; [reflexivity|]. cbn. split; [apply seeded_backward|exact Hw3].
Qed.

Lemma maml_tasks_seeded (h : MAML.Hyper) (ts0 : Tasks) :
  1 <= MAML.meta_batch_size h -> seeded (t_world ts0) ->
  exists ts, for_each (py_range (MAML.meta_batch_size h)) (MAML.task h) ts0 = Ok ts /\
    Forall (fun p => is_Some (grad p)) (MAML.parameters (t_net ts)) /\
    seeded (t_world ts).
Proof.
  intros HB Hw.
  destruct (for_each_seq_total (MAML.task h)
              (fun k ts => seeded (t_world ts) /\
                 ((1 <= k)%nat ->
                  Forall (fun p => is_Some (grad p)) (MAML.parameters (t_net ts))))
              (Z.to_nat (MAML.meta_batch_size h)) 0 ts0) as (ts & Hts & Hw' & Hinv).
  - split; [exact Hw|]. intros Hk. lia.
  - intros i st _ [Hst _]. destruct (maml_task_seeded h i st Hst) as (st' & Hst' & Hg & Hw').
    exists st'. auto.
  - exists ts. split; [exact Hts|]. split; [apply Hinv; lia|exact Hw'].
Qed.

Lemma maml_iteration_seeded (h : MAML.Hyper) (t : Scalar) (n i : nat) (st : Training) :
  1 <= MAML.meta_batch_size h -> (i < n)%nat -> arrays n st -> seeded (world st) ->
  exists st', MAML.iteration h t i st = Ok st' /\ arrays n st' /\ seeded (world st').
Proof.
  intros HB Hi (L1 & L2 & L3) Hw. unfold MAML.iteration.
  destruct (maml_tasks_seeded h
              (mkTasks (MAML.with_parameters (net st) (zero_grad (MAML.parameters (net st))))
                       (world st) zero_sums []) HB Hw) as (ts & -> & Hg & Hw').
  cbn [mbind Result_bind].
  repeat (first [rewrite py_div_ok by lia | rewrite setitem_ok by lia];
          cbn [mbind Result_bind]).
  destruct (print_metrics_ok i (t_sums ts) (MAML.meta_batch_size h)) as [out ->]; [lia|].
  cbn [mbind Result_bind].
  destruct (average_grads_ok (MAML.meta_batch_size h) (MAML.parameters (t_net ts)))
    as [avg ->]; [lia|exact Hg|].
  cbn [mbind Result_bind].
  apply time_seeded in Hw'.
  destruct (adam_step _ avg _) as [ps ss]. destruct (time _) as [t_end w'].
  rewrite setitem_ok by lia. cbn [mbind Result_bind].
  eexists. split; [reflexivity|]. unfold arrays. cbn. rewrite !length_insert. auto.
Qed.

(** [main] returns when the seeding leaves a world on which the sampler
    works. *)
Lemma maml_main_seeded (h : MAML.Hyper) (w : World) :
  1 <= MAML.meta_batch_size h -> 0 <= MAML.num_iterations h ->
  seeded (seed_all (MAML.cuda h) (MAML.seed h) w) ->
  succeeds (MAML.main h w).
Proof.
  intros HB Hn Hw. unfold MAML.main, succeeds.
  apply init_features_seeded in Hw.
  destruct (init_features _) as [fs w1]. cbn in Hw.
  apply (init_linear_seeded (MAML.ways h)) in Hw.
  destruct (init_linear _ _) as [hd w2]. cbn in Hw.
  unfold ones. rewrite decide_False by lia. cbn [mbind Result_bind].
  apply time_seeded in Hw.
  destruct (time w2) as [t w3]. cbn in Hw.
  edestruct (for_each_seq_total (MAML.iteration h t)
               (fun _ st => arrays (Z.to_nat (MAML.num_iterations h)) st /\
                            seeded (world st))
               (Z.to_nat (MAML.num_iterations h)) 0) as (st & Hst & _);
    [|intros i s Hi [Ha Hs];
      destruct (maml_iteration_seeded h t (Z.to_nat (MAML.num_iterations h)) i s HB
                  ltac:(lia) Ha Hs) as (s1 & Hs1 & Ha1 & Hw1);
      exists s1; auto|].
  2: { exists st. exact Hst. }
  split; [|exact Hw]. unfold arrays. cbn. rewrite !length_replicate. auto.
Qed.

End SeededRuns.

Section ConcreteLostResults.

Lemma flaky_first_seed : succeeds (@MAML.main Flaky.torch (MAML.hyper 42) Flaky.world0).
Proof.
  apply (@maml_main_seeded Flaky.torch Flaky.shapes Flaky.seeded).
  - intros m ways k w ->. cbn. rewrite !length_fmap, length_seq.
    split; [reflexivity|split; reflexivity].
  - intros w Hw. exact Hw.
  - intros w Hw. exact Hw.
  - intros ways w Hw. exact Hw.
  - intros err r. cbn. eauto.
  - cbn. lia.
  - cbn. lia.
  - reflexivity.
Qed.

Lemma flaky_second_seed (w : @World Flaky.torch) :
  @MAML.main Flaky.torch (MAML.hyper 52) w = Raise IndexError.
Proof. vm_compute. reflexivity. Qed.

Lemma failed_seed_loses_all_results_witness :
  exists c,
    for_each [42] (@MAML.run_seed Flaky.torch) (MAML.mkCollected Flaky.world0 [] [] []) =
      Ok c /\
    @MAML.main Flaky.torch (MAML.hyper 52) (MAML.c_world c) = Raise IndexError /\
    length (MAML.train_accuracy c) = 1%nat /\
    @MAML.script Flaky.torch Flaky.world0 (mkFS ["exp_data"] []) = Raise IndexError /\
    @maml_on_disk Flaky.torch Flaky.world0 (mkFS ["exp_data"] []) =
      (mkFS ["exp_data"] [], Some IndexError).
Proof.
  destruct flaky_first_seed as [st Hst].
  pose proof (@maml_one_seed Flaky.torch 42 Flaky.world0 st Hst) as Hc.
  eexists. split; [exact Hc|].
  split; [apply flaky_second_seed|].
  destruct (@failed_seed_loses_all_results Flaky.torch Flaky.world0 (mkFS ["exp_data"] [])
              [42] [62; 72; 82] 52 IndexError) as [Hmaml _].
  apply (Hmaml eq_refl _ Hc (flaky_second_seed _)).
Defined.

End ConcreteLostResults.
